(** * collect_metadata.py: a shallow embedding and its properties

    The script inventories the geospatial files of one directory and
    writes one CSV line per file.  This file embeds it function by
    function and proves what its specification says about it.

    - [PyNum]: the Python numbers the script computes with.  A Python
      [float] is an IEEE 754 binary64 value, taken here as the standard
      library's [spec_float] at precision 53 and exponent bound 1024;
      [int / int], [float / int], [int * float], [float + float] and
      [round(x, n)] are written out with their rounding and their
      exceptions.
    - [Rounding]: names for the steps of a binary64 division.
    - [PyTime]: [datetime.fromtimestamp(t).ctime()], with the exceptions
      of CPython on Linux.
    - [Csv]: what [csv.DictWriter] writes for a row dictionary.
    - [Collect]: the script itself, over a host (directory listings, stat
      results, the two geospatial libraries, the opening, writing and
      closing of the report) and a store of written files.
    - [Outcome]: the outcome and the calls of each function, as pure
      functions of the host.
    - [Example]: a concrete directory.
    - [Spec]: the formulas of the specification.
    - [Behaviour]: definitions for further properties of the script.
    - [PyNumFacts], [CollectFacts], [Properties], [PyNumMoreFacts],
      [BehaviourFacts]: the proofs. *)

From Stdlib Require Import ZArith Lia Bool List String Ascii.
From Stdlib Require Import Floats.SpecFloat.
From stdpp Require Import gmap strings list.

Local Open Scope Z_scope.

(** ** Exceptions and results *)

(** The exceptions the script can meet.  [LibraryError] stands for whatever
    the geospatial libraries raise on a file they cannot read
    ([fiona.errors.DriverError], the [AttributeError] on the [None] that
    [gdal.Open] returns, ...). *)
Inductive exn : Type :=
  | ZeroDivisionError
  | OverflowError
  | ValueError
  | OSError (errno : Z)
  | LibraryError (msg : string).

Inductive result (A : Type) : Type :=
  | Ok (a : A)
  | Err (e : exn).

Arguments Ok {A} a.
Arguments Err {A} e.

#[global] Instance result_ret : MRet result := fun A a => Ok a.

#[global] Instance result_bind : MBind result := fun A B k r =>
  match r with
  | Ok a => k a
  | Err e => Err e
  end.

(** ** Python numbers *)

Module PyNum.

Definition prec : Z := 53.
Definition emax : Z := 1024.

Abbreviation float := spec_float.

Definition fmul : float -> float -> float := SFmul prec emax.
Definition fadd : float -> float -> float := SFadd prec emax.
Definition fdiv : float -> float -> float := SFdiv prec emax.

Definition is_zero (x : float) : bool :=
  match x with
  | S754_zero _ => true
  | _ => false
  end.

Definition is_infinite (x : float) : bool :=
  match x with
  | S754_infinity _ => true
  | _ => false
  end.

(** A result too large for a binary64 raises [OverflowError]. *)
Definition check_overflow (x : float) : result float :=
  if is_infinite x then Err OverflowError else Ok x.

(** [float(n)] for an [int]: the nearest binary64, ties to even. *)
Definition float_of_int (n : Z) : result float :=
  check_overflow (binary_normalize prec emax n 0 false).

(** The integer [n] as an unrounded operand of a division. *)
Definition int_operand (n : Z) : float :=
  S754_finite (n <? 0) (Z.to_pos (Z.abs n)) 0.

(** [a / b] for two [int]s: the quotient rounded once, to the nearest
    binary64 with ties to even. *)
Definition int_true_div (a b : Z) : result float :=
  if b =? 0 then Err ZeroDivisionError
  else if a =? 0 then Ok (S754_zero (b <? 0))
  else check_overflow (fdiv (int_operand a) (int_operand b)).

(** [x / y] for two [float]s. *)
Definition float_div (x y : float) : result float :=
  if is_zero y then Err ZeroDivisionError else Ok (fdiv x y).

(** [x / n] for a [float] and an [int]: the [int] is converted first. *)
Definition float_div_int (x : float) (n : Z) : result float :=
  y ← float_of_int n; float_div x y.

(** [n * x] for an [int] and a [float]. *)
Definition int_mul_float (n : Z) (x : float) : result float :=
  y ← float_of_int n; Ok (fmul y x).

(** The integer nearest to [m * 2^e * c], ties to even. *)
Definition nearest_even_scaled (m : positive) (e : Z) (c : Z) : Z :=
  match e with
  | Zneg p =>
      let d := 2 ^ Zpos p in
      let n := Zpos m * c in
      let q := n / d in
      match 2 * (n mod d) ?= d with
      | Lt => q
      | Eq => if Z.even q then q else q + 1
      | Gt => q + 1
      end
  | _ => Zpos m * 2 ^ e * c
  end.

(** [round(x, ndigits)] for a [float] and [0 <= ndigits], as CPython
    computes it with its shortest-representation conversions: the exact
    value is rounded to [ndigits] decimals, ties to even, and the decimal
    is read back as the nearest binary64.  Zeros, infinities and NaN round
    to themselves. *)
Definition round (x : float) (ndigits : nat) : result float :=
  match x with
  | S754_finite s m e =>
      if (323 <? Z.of_nat ndigits) then Ok x
      else
        let scale := 10 ^ Z.of_nat ndigits in
        match nearest_even_scaled m e scale with
        | Zpos k =>
            check_overflow
              (fdiv (S754_finite s k 0) (int_operand scale))
        | _ => Ok (S754_zero s)
        end
  | _ => Ok x
  end.

(** The float literal of an integer constant. *)
Definition float_lit (n : Z) : float := binary_normalize prec emax n 0 false.

(** [0 <= x] as Python evaluates it: false on NaN. *)
Definition nonneg (x : float) : bool :=
  SFleb (S754_zero false) x.

End PyNum.

(** ** The steps of a binary64 division, named

    [SFdiv] shifts the dividend, divides the integers and rounds the
    quotient with [binary_round_aux].  The definitions below name the
    intermediate values of that computation when the quotient has 54
    bits, which is the case of every division in the script's size
    conversion. *)

Module Rounding.
Import PyNum.

(** The tail of [binary_round_aux]: the second normalisation and the
    packing of the result. *)
Definition finish (sx : bool) (M e : Z) : float :=
  let '(mrs, e') := shr_fexp prec emax M e loc_Exact in
  match shr_m mrs with
  | Z0 => S754_zero sx
  | Zpos m => if e' <=? emax - prec then S754_finite sx m e' else S754_infinity sx
  | Zneg _ => S754_nan
  end.

Definition first_stage (Q : Z) (l : location) : shr_record :=
  shr_1 (shr_record_of_loc Q l).

Definition rounded_mantissa (Q : Z) (l : location) : Z :=
  round_nearest_even (shr_m (first_stage Q l)) (loc_of_shr_record (first_stage Q l)).

(** The result of rounding a 54-bit quotient at exponent [e]. *)
Definition rounded54 (sx : bool) (Q : Z) (l : location) (e : Z) : float :=
  let M := rounded_mantissa Q l in
  if M <? 2 ^ 53 then S754_finite sx (Z.to_pos M) (e + 1)
  else S754_finite sx (2 ^ 52) (e + 2).

(** The 54-bit integer quotient of a positive integer by a power of two
    large enough, and where the exact quotient lies above it. *)
Definition quotient54 (p : positive) : Z :=
  let c := 54 - Zpos (digits2_pos p) in
  if 0 <=? c then Zpos p * 2 ^ c else Zpos p / 2 ^ (- c).

Definition remainder54 (p : positive) : Z :=
  let c := 54 - Zpos (digits2_pos p) in
  if 0 <=? c then 0 else Zpos p mod 2 ^ (- c).

Definition location54 (p : positive) : location :=
  let c := 54 - Zpos (digits2_pos p) in
  if remainder54 p =? 0 then loc_Exact
  else loc_Inexact (2 * remainder54 p ?= 2 ^ (- c)).

(** The sign bit is clear and the value is a number. *)
Definition sign_positive (x : float) : bool :=
  match x with
  | S754_zero s | S754_infinity s | S754_finite s _ _ => negb s
  | S754_nan => false
  end.

End Rounding.

(** ** Timestamps: [datetime.fromtimestamp(t).ctime()] *)

Module PyTime.
Import PyNum.

Record datetime : Type := {
  year : Z; month : Z; day : Z;
  hour : Z; minute : Z; second : Z; microsecond : Z }.

(** The value of a finite float split as C's [modf] splits it: the integer
    part (truncated towards zero) and the fraction, which is again a
    float and exact. *)
Definition modf (s : bool) (m : positive) (e : Z) : Z * float :=
  match e with
  | Zneg p =>
      let d := 2 ^ Zpos p in
      (cond_Zopp s (Zpos m / d),
       binary_normalize prec emax (cond_Zopp s (Zpos m mod d)) e s)
  | _ => (cond_Zopp s (Zpos m * 2 ^ e), S754_zero s)
  end.

(** A float rounded to the nearest integer, ties to even. *)
Definition round_half_even (x : float) : Z :=
  match x with
  | S754_finite s m e => cond_Zopp s (nearest_even_scaled m e 1)
  | _ => 0
  end.

Definition million : float := binary_normalize prec emax 1000000 0 false.

(** Seconds and microseconds of a float timestamp: the fraction is scaled
    to microseconds in binary64, rounded half to even, and a carry or a
    borrow moves into the seconds. *)
Definition timestamp_to_timeval (t : float) : result (Z * Z) :=
  match t with
  | S754_nan => Err ValueError
  | S754_infinity _ => Err OverflowError
  | S754_zero _ => Ok (0, 0)
  | S754_finite s m e =>
      let '(intpart, floatpart) := modf s m e in
      let us := round_half_even (fmul floatpart million) in
      let '(sec, us) :=
        if 1000000 <=? us then (intpart + 1, us - 1000000)
        else if us <? 0 then (intpart - 1, us + 1000000)
        else (intpart, us) in
      if (- 2 ^ 63 <=? sec) && (sec <? 2 ^ 63) then Ok (sec, us)
      else Err OverflowError
  end.

(** Day number (days since 1970-01-01) to proleptic Gregorian date. *)
Definition civil_from_days (z : Z) : Z * Z * Z :=
  let z := z + 719468 in
  let era := z / 146097 in
  let doe := z - era * 146097 in
  let yoe := (doe - doe / 1460 + doe / 36524 - doe / 146096) / 365 in
  let doy := doe - (365 * yoe + yoe / 4 - yoe / 100) in
  let mp := (5 * doy + 2) / 153 in
  let d := doy - (153 * mp + 2) / 5 + 1 in
  let m := if mp <? 10 then mp + 3 else mp - 9 in
  let y := yoe + era * 400 + (if m <=? 2 then 1 else 0) in
  (y, m, d).

Definition days_from_civil (y m d : Z) : Z :=
  let y := if m <=? 2 then y - 1 else y in
  let era := y / 400 in
  let yoe := y - era * 400 in
  let doy := (153 * (if 2 <? m then m - 3 else m + 9) + 2) / 5 + d - 1 in
  let doe := yoe * 365 + yoe / 4 - yoe / 100 + doy in
  era * 146097 + doe - 719468.

Section LocalTime.

(** The host's local-time rule: the seconds to add to UTC at a given
    epoch second. *)
Variable utcoffset : Z -> Z.

(** C's [localtime_r], as glibc computes it: the local date and time of
    an epoch second.  The year, counted from 1900, has to fit the C [int]
    [tm_year]; otherwise the call fails with [EOVERFLOW], errno 75, which
    Python raises as [OSError]. *)
Definition localtime (sec : Z) : result datetime :=
  let loc := sec + utcoffset sec in
  let '(y, m, d) := civil_from_days (loc / 86400) in
  let sod := loc mod 86400 in
  if (- 2 ^ 31 <=? y - 1900) && (y - 1900 <? 2 ^ 31) then
    Ok {| year := y; month := m; day := d;
          hour := sod / 3600; minute := sod mod 3600 / 60;
          second := sod mod 60; microsecond := 0 |}
  else Err (OSError 75).

(** [ymd_to_ord]: the day number of a date, 0001-01-01 being day 1. *)
Definition ymd_to_ord (y m d : Z) : Z := days_from_civil y m d + 719163.

(** [utc_to_seconds]: a date and time as seconds, for a year that a
    [datetime] can hold. *)
Definition utc_to_seconds (tm : datetime) : result Z :=
  if (1 <=? year tm) && (year tm <=? 9999) then
    Ok (((ymd_to_ord (year tm) (month tm) (day tm) * 24 + hour tm) * 60
         + minute tm) * 60 + second tm)
  else Err ValueError.

(** [local]: the local time of an epoch second, as seconds. *)
Definition local (sec : Z) : result Z :=
  tm ← localtime sec;
  utc_to_seconds tm.

Definition max_fold_seconds : Z := 24 * 3600.

(** [datetime.fromtimestamp(t)], with no [tz]: the timestamp is split
    into seconds and microseconds and the seconds are converted by
    [localtime_r].  To find the [fold] attribute, which [ctime()] does not
    show, the local time one day earlier is computed too, and when the
    offset has grown since, the local time that much earlier; each of
    these conversions raises as the first one does.  So a local time in
    the first day of the year 1 is a [ValueError]: the day before lies in
    the year 0. *)
Definition fromtimestamp (t : float) : result datetime :=
  '(sec, us) ← timestamp_to_timeval t;
  tm ← localtime sec;
  result_seconds ← utc_to_seconds tm;
  probe_seconds ← local (sec - max_fold_seconds);
  let transition := result_seconds - probe_seconds - max_fold_seconds in
  _ ← (if transition <? 0 then local (sec + transition) else Ok probe_seconds);
  Ok {| year := year tm; month := month tm; day := day tm;
        hour := hour tm; minute := minute tm; second := second tm;
        microsecond := us |}.

End LocalTime.

Definition digit (n : Z) : ascii := ascii_of_nat (48 + Z.to_nat (n mod 10)).

Definition pad2 (fill : ascii) (n : Z) : string :=
  String (if n <? 10 then fill else digit (n / 10))
    (String (digit n) EmptyString).

Definition pad4 (n : Z) : string :=
  String (digit (n / 1000)) (String (digit (n / 100))
    (String (digit (n / 10)) (String (digit n) EmptyString))).

Definition day_names : list string :=
  ["Mon"; "Tue"; "Wed"; "Thu"; "Fri"; "Sat"; "Sun"]%string.

Definition month_names : list string :=
  ["Jan"; "Feb"; "Mar"; "Apr"; "May"; "Jun";
   "Jul"; "Aug"; "Sep"; "Oct"; "Nov"; "Dec"]%string.

(** Monday is 0. *)
Definition weekday (y m d : Z) : Z := (days_from_civil y m d + 3) mod 7.

(** [dt.ctime()], as in ["Thu Jan  1 00:00:00 1970"]. *)
Definition ctime (dt : datetime) : string :=
  let wd := weekday (year dt) (month dt) (day dt) in
  (nth (Z.to_nat wd) day_names "" ++ " "
   ++ nth (Z.to_nat (month dt - 1)) month_names "" ++ " "
   ++ pad2 " " (day dt) ++ " "
   ++ pad2 "0" (hour dt) ++ ":" ++ pad2 "0" (minute dt) ++ ":"
   ++ pad2 "0" (second dt) ++ " " ++ pad4 (year dt))%string.

End PyTime.

(** ** What [csv.DictWriter] writes *)

Module Csv.
Import PyNum.

(** The Python values that reach the writer. *)
Inductive value : Type :=
  | VStr (s : string)
  | VFloat (x : float)
  | VTuple (xs : list float).

(** A row dictionary, in insertion order. *)
Abbreviation dict := (list (string * value)).

Definition dquote : ascii := ascii_of_nat 34.
Definition cr : ascii := ascii_of_nat 13.
Definition lf : ascii := ascii_of_nat 10.
Definition lineterminator : string := String cr (String lf EmptyString).

Section Str.

(** [repr] of a float, the shortest decimal that reads back as the same
    binary64, is the Python runtime's and is a parameter here. *)
Variable repr_float : float -> string.

Definition repr_tuple (xs : list float) : string :=
  match xs with
  | [] => "()"
  | [x] => "(" ++ repr_float x ++ ",)"
  | _ => "(" ++ String.concat ", " (map repr_float xs) ++ ")"
  end%string.

(** [str(v)]. *)
Definition str (v : value) : string :=
  match v with
  | VStr s => s
  | VFloat x => repr_float x
  | VTuple xs => repr_tuple xs
  end.

(** A character that forces a field into quotes under [QUOTE_MINIMAL]:
    the delimiter, the quote character, or a character of the line
    terminator. *)
Definition special (c : ascii) : bool :=
  Ascii.eqb c "," || Ascii.eqb c dquote || Ascii.eqb c cr || Ascii.eqb c lf.

Fixpoint has_special (s : string) : bool :=
  match s with
  | EmptyString => false
  | String c s' => special c || has_special s'
  end.

Fixpoint double_quotes (s : string) : string :=
  match s with
  | EmptyString => EmptyString
  | String c s' =>
      if Ascii.eqb c dquote then String c (String c (double_quotes s'))
      else String c (double_quotes s')
  end.

Definition quoted (s : string) : string :=
  String dquote (double_quotes s ++ String dquote EmptyString).

Definition field_text (s : string) : string :=
  if has_special s then quoted s else s.

(** One written line; a row made of a single empty field is quoted. *)
Definition line (fields : list string) : string :=
  (match fields with
   | [EmptyString] => quoted EmptyString
   | _ => String.concat "," (map field_text fields)
   end ++ lineterminator)%string.

Fixpoint get (key : string) (d : dict) : option value :=
  match d with
  | [] => None
  | (k, v) :: d' => if String.eqb k key then Some v else get key d'
  end.

(** [DictWriter._dict_to_list]: a key outside [fieldnames] is a
    [ValueError]; a missing key is written as the empty string. *)
Definition dict_to_list (fieldnames : list string) (rowdict : dict)
  : result (list value) :=
  if forallb (fun kv => existsb (String.eqb kv.1) fieldnames) rowdict
  then Ok (map (fun k => default (VStr "") (get k rowdict)) fieldnames)
  else Err ValueError.

(** The text of [writer.writerow(rowdict)]. *)
Definition writerow (fieldnames : list string) (rowdict : dict)
  : result string :=
  row ← dict_to_list fieldnames rowdict;
  Ok (line (map str row)).

(** The text of [writer.writeheader()]: the row that maps every field
    name to itself. *)
Definition writeheader (fieldnames : list string) : result string :=
  writerow fieldnames (map (fun k => (k, VStr k)) fieldnames).

End Str.

End Csv.

(** ** The script *)

Module Collect.
Import PyNum PyTime Csv.

(** *** The host: file system and geospatial libraries *)

(** A file: the directory that holds it (absolute, resolved) and its base
    name.  A relative name handed to [open], [fiona.open] or [gdal.Open]
    denotes the file of that name in the current working directory. *)
Record location : Type := Loc { loc_dir : string; loc_name : string }.

#[global] Instance location_eq_dec : EqDecision location.
Proof. solve_decision. Defined.

#[global] Instance location_countable : Countable location.
Proof.
  apply (inj_countable' (fun l => (loc_dir l, loc_name l))
                        (fun p => Loc p.1 p.2)).
  by intros [].
Defined.

(** [os.stat_result], the fields the script can see.  [st_size] is the
    file system's [off_t], a size between 0 and 2^63 - 1; the three times
    are floats, in seconds since the epoch. *)
Record stat_result : Type := {
  st_size : Z;
  st_atime : float;
  st_mtime : float;
  st_ctime : float }.

(** [os.DirEntry]: the scanned directory and the entry's base name. *)
Record DirEntry : Type := { entry_dir : string; entry_name : string }.

Definition entry_location (e : DirEntry) : location :=
  Loc (entry_dir e) (entry_name e).

(** An open [fiona] collection: [bounds], which fiona returns as the
    4-tuple (minx, miny, maxx, maxy), [driver] and [to_string(crs)]. *)
Record Collection : Type := {
  bounds : float * float * float * float;
  driver : string;
  crs_string : string }.

(** An open [gdal] dataset. *)
Record Dataset : Type := {
  GetProjection : string;
  GetDriver_LongName : string;
  GetGeoTransform : list float;
  RasterXSize : Z;
  RasterYSize : Z }.

(** What the script asks of the machine it runs on.  Directories are
    absolute and resolved.  A failing call gives the exception it raises. *)
Record Host : Type := {
  (** the current working directory of the process *)
  cwd : string;
  (** [os.path.dirname(os.path.abspath(__file__))] *)
  script_dir : string;
  (** names of the entries of a directory, in enumeration order *)
  listdir : string -> result (list string);
  (** [DirEntry.stat()] on the entry at a location *)
  stat : location -> result stat_result;
  (** what [fiona.open] finds at a location *)
  fiona_open : location -> result Collection;
  (** what [gdal.Open] finds at a location *)
  gdal_open : location -> result Dataset;
  (** what [open(l, "w")] meets: the file can be created or truncated, or
      the exception of a directory that is missing or not writable, of a
      name that is a directory, of a file that is read-only, ... *)
  open_write : location -> result unit;
  (** what [f.write(text)] meets on the file opened at a location, given
      the text written to it so far: the text is taken, or the exception
      of a character the encoding does not have, of a full disk, ... *)
  file_write : location -> string -> string -> result unit;
  (** what closing the file meets, given the text written to it *)
  file_close : location -> string -> result unit;
  (** the local-time rule: seconds east of UTC at an epoch second *)
  utcoffset : Z -> Z;
  (** [repr] of a float, the runtime's shortest round-trip decimal *)
  repr_float : float -> string }.

(** Calls that leave the process, in the order they are made. *)
Inductive event : Type :=
  | EvScandir (dir : string)
  | EvStat (l : location)
  | EvFionaOpen (l : location)
  | EvGdalOpen (l : location)
  | EvOpenWrite (l : location).

#[global] Instance event_eq_dec : EqDecision event.
Proof. solve_decision. Defined.

(** What a run changes: the text of the files, and the calls made.  The
    text of a file that the process writes is what the process has handed
    to it; how much of it has reached the disk when a write or the close
    fails is the operating system's affair.  Whether a name can be opened
    for writing at all (a directory of that name, a read-only file, a
    directory without write permission) is not read from [files]: it is
    the host's answer [open_write]. *)
Record Sys : Type := {
  files : gmap location string;
  trace : list event }.

(** *** Computations: state and exceptions *)

Definition M (A : Type) : Type := Sys -> result A * Sys.

#[global] Instance M_ret : MRet M := fun A a s => (Ok a, s).

#[global] Instance M_bind : MBind M := fun A B k c s =>
  match c s with
  | (Ok a, s') => k a s'
  | (Err e, s') => (Err e, s')
  end.

Definition lift {A : Type} (r : result A) : M A := fun s => (r, s).

Definition emit (ev : event) : M unit := fun s =>
  (Ok tt, {| files := files s; trace := trace s ++ [ev] |}).

Definition call {A : Type} (ev : event) (r : result A) : M A :=
  _ ← emit ev; lift r.

(** *** The script's functions *)

Record Metadata : Type := {
  name : string;
  data_type : string;
  format : string;
  volume_in_MB : float;
  spatial_reference : string;
  extent : list float;
  creation_date : string;
  update_date : string }.

(** The dictionary both readers return, with its four fixed keys. *)
Record SpatialInformation : Type := {
  si_extent : list float;
  si_format : string;
  si_spatial_reference : string;
  si_data_type : string }.

(** [s.endswith(suffix)]: the characters of [suffix] end those of [s]. *)
Definition endswith (s suffix : string) : bool :=
  bool_decide (String.list_ascii_of_string suffix
                 `suffix_of` String.list_ascii_of_string s).

Section Script.

Variable h : Host.

(** [open(l, "w")].  The attempt is a call; when it succeeds the file
    exists and is empty from here on, when it raises the file is as it
    was. *)
Definition open_w (l : location) : M unit := fun s =>
  match open_write h l with
  | Ok _ =>
      (Ok tt, {| files := <[l := EmptyString]> (files s);
                 trace := trace s ++ [EvOpenWrite l] |})
  | Err e =>
      (Err e, {| files := files s; trace := trace s ++ [EvOpenWrite l] |})
  end.

(** [f.write(text)] on the file opened at [l]: a write that raises adds
    nothing. *)
Definition write (l : location) (text : string) : M unit := fun s =>
  let written := default EmptyString (files s !! l) in
  match file_write h l written text with
  | Ok _ =>
      (Ok tt, {| files := <[l := (written ++ text)%string]> (files s);
                 trace := trace s |})
  | Err e => (Err e, s)
  end.

(** [f.close()]. *)
Definition close (l : location) : M unit := fun s =>
  (file_close h l (default EmptyString (files s !! l)), s).

(** [with open(l, "w") as f: body].  The file is closed when the body
    ends, normally or by an exception; an exception of the close replaces
    the one of the body. *)
Definition with_open_w (l : location) (body : M unit) : M unit := fun s =>
  match open_w l s with
  | (Ok _, s1) =>
      let '(r, s2) := body s1 in
      match close l s2 with
      | (Ok _, s3) => (r, s3)
      | (Err e, s3) => (Err e, s3)
      end
  | (Err e, s1) => (Err e, s1)
  end.

(** The file that a bare entry name opens. *)
Definition opened_location (sourcefile : DirEntry) : location :=
  Loc (cwd h) (entry_name sourcefile).

Definition vector_data_reader (sourcefile : DirEntry) : M SpatialInformation :=
  let l := opened_location sourcefile in
  file ← call (EvFionaOpen l) (fiona_open h l);
  let '(minx, miny, maxx, maxy) := bounds file in
  mret {| si_extent := [minx; miny; maxx; maxy];
          si_format := driver file;
          si_spatial_reference := crs_string file;
          si_data_type := "vector" |}.

(** The extent computed from an open dataset.  The six-element unpacking
    is the source's: [xmin, xres, _, ymax, yres, _]. *)
Definition raster_extent (file : Dataset) : result (list float) :=
  match GetGeoTransform file with
  | [xmin; xres; _; ymax; yres; _] =>
      w ← int_mul_float (RasterXSize file) xres;
      let xmax := fadd xmin w in
      h' ← int_mul_float (RasterYSize file) yres;
      let ymin := fadd ymax h' in
      Ok [xmin; ymin; xmax; ymax]
  | _ => Err ValueError
  end.

Definition raster_data_reader (sourcefile : DirEntry) : M SpatialInformation :=
  let l := opened_location sourcefile in
  file ← call (EvGdalOpen l) (gdal_open h l);
  extent ← lift (raster_extent file);
  mret {| si_extent := extent;
          si_format := GetDriver_LongName file;
          si_spatial_reference := GetProjection file;
          si_data_type := "raster" |}.

(** [round((st_size / 1024) / 1024, 2)]. *)
Definition volume (size : Z) : result float :=
  kb ← int_true_div size 1024;
  mb ← float_div_int kb 1024;
  round mb 2.

(** [datetime.fromtimestamp(t).ctime()]. *)
Definition date_string (t : float) : result string :=
  dt ← fromtimestamp (utcoffset h) t;
  Ok (ctime dt).

Definition metadata_creator (name : string)
    (non_spatial_information : stat_result)
    (spatial_information : SpatialInformation) : result Metadata :=
  v ← volume (st_size non_spatial_information);
  c ← date_string (st_ctime non_spatial_information);
  u ← date_string (st_atime non_spatial_information);
  Ok {| name := name;
        data_type := si_data_type spatial_information;
        format := si_format spatial_information;
        volume_in_MB := v;
        spatial_reference := si_spatial_reference spatial_information;
        extent := si_extent spatial_information;
        creation_date := c;
        update_date := u |}.

Definition is_vector_name (n : string) : bool :=
  endswith n ".gpkg" || endswith n ".shp" || endswith n ".geojson".

Definition is_raster_name (n : string) : bool :=
  endswith n ".tif" || endswith n ".img".

(** [None] is the source's bare [return]. *)
Definition parse_metadata (sourcefile : DirEntry) : M (option Metadata) :=
  non_spatial_information ←
    call (EvStat (entry_location sourcefile))
         (stat h (entry_location sourcefile));
  let name := entry_name sourcefile in
  if is_vector_name name then
    spatial_information ← vector_data_reader sourcefile;
    m ← lift (metadata_creator name non_spatial_information
                               spatial_information);
    mret (Some m)
  else if is_raster_name name then
    spatial_information ← raster_data_reader sourcefile;
    m ← lift (metadata_creator name non_spatial_information
                               spatial_information);
    mret (Some m)
  else mret None.

(** [dataclasses.asdict]. *)
Definition asdict (m : Metadata) : dict :=
  [("name", VStr (name m));
   ("data_type", VStr (data_type m));
   ("format", VStr (format m));
   ("volume_in_MB", VFloat (volume_in_MB m));
   ("spatial_reference", VStr (spatial_reference m));
   ("extent", VTuple (extent m));
   ("creation_date", VStr (creation_date m));
   ("update_date", VStr (update_date m))]%string.

Definition fields_names : list string :=
  ["name"; "data_type"; "format"; "volume_in_MB";
   "spatial_reference"; "extent"; "creation_date"; "update_date"]%string.

(** The loop over the scanner. *)
Fixpoint collect (scanner : list DirEntry) (metadata_store : list dict)
  : M (list dict) :=
  match scanner with
  | [] => mret metadata_store
  | sourcefile :: rest =>
      metadata ← parse_metadata sourcefile;
      match metadata with
      | Some m => collect rest (metadata_store ++ [asdict m])
      | None => collect rest metadata_store
      end
  end.

Definition scandir (path : string) : M (list DirEntry) :=
  names ← call (EvScandir path) (listdir h path);
  mret (map (fun n => {| entry_dir := path; entry_name := n |}) names).

Definition output_location : location := Loc (cwd h) "metadata.csv".

Fixpoint writerows (rows : list dict) : M unit :=
  match rows with
  | [] => mret tt
  | row :: rest =>
      text ← lift (writerow (repr_float h) fields_names row);
      _ ← write output_location text;
      writerows rest
  end.

Definition scan_directory (path : option string) : M unit :=
  let path := default (script_dir h) path in
  scanner ← scandir path;
  metadata_store ← collect scanner [];
  with_open_w output_location
    (header ← lift (writeheader (repr_float h) fields_names);
     _ ← write output_location header;
     writerows metadata_store).

End Script.

End Collect.

(** ** Outcomes and calls of the script's functions

    Every function of the script leaves the written files alone until the
    writer phase and only appends to the trace; its outcome does not
    depend on the state it starts from.  The pure functions below give the
    outcome and the calls made; the [_run] lemmas further down tie them to
    the script. *)

Module Outcome.
Import PyNum PyTime Csv Collect.

Definition logged (s : Sys) (evs : list event) : Sys :=
  {| files := files s; trace := trace s ++ evs |}.

Definition entries (dir : string) (names : list string) : list DirEntry :=
  map (fun n => {| entry_dir := dir; entry_name := n |}) names.

Section Outcomes.

Variable h : Host.

Definition vector_information (file : Collection) : SpatialInformation :=
  let '(minx, miny, maxx, maxy) := bounds file in
  {| si_extent := [minx; miny; maxx; maxy];
     si_format := driver file;
     si_spatial_reference := crs_string file;
     si_data_type := "vector" |}.

Definition raster_information (file : Dataset) : result SpatialInformation :=
  extent ← raster_extent file;
  Ok {| si_extent := extent;
        si_format := GetDriver_LongName file;
        si_spatial_reference := GetProjection file;
        si_data_type := "raster" |}.

(** The outcome of [parse_metadata]. *)
Definition parse_outcome (e : DirEntry) : result (option Metadata) :=
  st ← stat h (entry_location e);
  if is_vector_name (entry_name e) then
    file ← fiona_open h (opened_location h e);
    m ← metadata_creator h (entry_name e) st (vector_information file);
    Ok (Some m)
  else if is_raster_name (entry_name e) then
    file ← gdal_open h (opened_location h e);
    si ← raster_information file;
    m ← metadata_creator h (entry_name e) st si;
    Ok (Some m)
  else Ok None.

(** The calls [parse_metadata] makes. *)
Definition parse_events (e : DirEntry) : list event :=
  EvStat (entry_location e) ::
  match stat h (entry_location e) with
  | Err _ => []
  | Ok _ =>
      if is_vector_name (entry_name e) then [EvFionaOpen (opened_location h e)]
      else if is_raster_name (entry_name e) then [EvGdalOpen (opened_location h e)]
      else []
  end.

(** The outcome of the loop: the rows collected so far, extended. *)
Fixpoint collect_outcome (scanner : list DirEntry) (store : list dict)
  : result (list dict) :=
  match scanner with
  | [] => Ok store
  | e :: rest =>
      metadata ← parse_outcome e;
      match metadata with
      | Some m => collect_outcome rest (store ++ [asdict m])
      | None => collect_outcome rest store
      end
  end.

(** The calls of the loop: it stops at the first entry that raises. *)
Fixpoint collect_events (scanner : list DirEntry) : list event :=
  match scanner with
  | [] => []
  | e :: rest =>
      parse_events e ++
      match parse_outcome e with
      | Ok _ => collect_events rest
      | Err _ => []
      end
  end.

(** The records of the entries, in enumeration order. *)
Fixpoint records_outcome (scanner : list DirEntry) : result (list Metadata) :=
  match scanner with
  | [] => Ok []
  | e :: rest =>
      metadata ← parse_outcome e;
      ms ← records_outcome rest;
      Ok (match metadata with Some m => m :: ms | None => ms end)
  end.

(** The line written for one record. *)
Definition record_line (m : Metadata) : string :=
  line [name m; data_type m; format m;
        repr_float h (volume_in_MB m);
        spatial_reference m;
        repr_tuple (repr_float h) (extent m);
        creation_date m; update_date m].

Definition header_line : string :=
  ("name,data_type,format,volume_in_MB,spatial_reference,extent,"
   ++ "creation_date,update_date" ++ lineterminator)%string.

(** The lines of the records, one after the other. *)
Definition record_lines (ms : list Metadata) : string :=
  String.concat "" (map record_line ms).

(** The writes of [texts], one after the other, on the file at [l] that
    holds [written]: the first write that raises ends them.  The result,
    and the text that the file holds afterwards. *)
Fixpoint writes_outcome (l : location) (written : string) (texts : list string)
  : result unit * string :=
  match texts with
  | [] => (Ok tt, written)
  | text :: rest =>
      match file_write h l written text with
      | Ok _ => writes_outcome l (written ++ text)%string rest
      | Err e => (Err e, written)
      end
  end.

(** The writer phase for the records [ms]: its result, and the text that
    the report holds afterwards, [None] when the report could not be
    opened and is as it was. *)
Definition report_outcome (ms : list Metadata) : result unit * option string :=
  match open_write h (output_location h) with
  | Err e => (Err e, None)
  | Ok _ =>
      let '(r, written) :=
        writes_outcome (output_location h) EmptyString
                       (header_line :: map record_line ms) in
      (match file_close h (output_location h) written with
       | Ok _ => r
       | Err e => Err e
       end, Some written)
  end.

(** The files after the writer phase. *)
Definition reported (s : Sys) (report : option string) : gmap location string :=
  match report with
  | Some text => <[output_location h := text]> (files s)
  | None => files s
  end.

End Outcomes.

End Outcome.

(** * A concrete host

    One directory, [/data], with a GeoJSON file, a GeoTIFF and a text
    file; the process runs in that directory.  The raster is the one of
    the specification's extent example: geotransform
    (100, 10, 0, 500, 0, -10) and 50 x 50 pixels. *)

Module Example.
Import PyNum PyTime Csv Collect Outcome.

Definition example_dataset : Dataset :=
  {| GetProjection := "EPSG:32633";
     GetDriver_LongName := "GeoTIFF";
     GetGeoTransform := map float_lit [100; 10; 0; 500; 0; -10];
     RasterXSize := 50;
     RasterYSize := 50 |}.

Definition example_collection : Collection :=
  {| bounds := (float_lit 0, float_lit 0, float_lit 1, float_lit 1);
     driver := "GeoJSON";
     crs_string := "EPSG:4326" |}.

(** Three mebibytes, created at 1700000000, modified 50 s and read 100 s
    later. *)
Definition example_stat : stat_result :=
  {| st_size := 3145728;
     st_atime := float_lit 1700000100;
     st_mtime := float_lit 1700000050;
     st_ctime := float_lit 1700000000 |}.

Fixpoint decimal_digits (fuel : nat) (n : Z) (acc : string) : string :=
  match fuel with
  | O => acc
  | S fuel' =>
      let acc' := String (digit n) acc in
      if n <? 10 then acc' else decimal_digits fuel' (n / 10) acc'
  end.

(** [repr] on the floats of this example, which are integers below 2^53;
    other floats are not printed. *)
Definition example_repr (x : float) : string :=
  match x with
  | S754_zero false => "0.0"
  | S754_finite s m (Zneg p) =>
      if Zpos m mod 2 ^ Zpos p =? 0 then
        ((if s then "-" else "") ++
         decimal_digits 20 (Zpos m / 2 ^ Zpos p) ".0")%string
      else "<float>"
  | _ => "<float>"
  end.

Definition no_such_file {A : Type} : result A := Err (OSError 2).

Definition in_data (names : list string) (l : location) : bool :=
  bool_decide (loc_dir l = "/data") && bool_decide (loc_name l ∈ names).

Definition host : Host :=
  {| cwd := "/data";
     script_dir := "/app";
     listdir := fun d =>
       if bool_decide (d = "/data") then Ok ["a.geojson"; "b.tif"; "c.txt"]
       else no_such_file;
     stat := fun l =>
       if in_data ["a.geojson"; "b.tif"; "c.txt"] l then Ok example_stat
       else no_such_file;
     fiona_open := fun l =>
       if in_data ["a.geojson"] l then Ok example_collection
       else Err (LibraryError "DriverError");
     gdal_open := fun l =>
       if in_data ["b.tif"] l then Ok example_dataset
       else Err (LibraryError "AttributeError");
     open_write := fun _ => Ok tt;
     file_write := fun _ _ _ => Ok tt;
     file_close := fun _ _ => Ok tt;
     utcoffset := fun _ => 0;
     repr_float := example_repr |}.

(** The same directory seen from a process that runs in [/work]. *)
Definition host_elsewhere : Host :=
  {| cwd := "/work";
     script_dir := script_dir host;
     listdir := listdir host;
     stat := stat host;
     fiona_open := fiona_open host;
     gdal_open := gdal_open host;
     open_write := open_write host;
     file_write := file_write host;
     file_close := file_close host;
     utcoffset := utcoffset host;
     repr_float := repr_float host |}.

(** The same directory scanned by a process that runs in [/work], where
    another GeoJSON file is called [a.geojson] and nothing is called
    [b.tif]. *)
Definition other_collection : Collection :=
  {| bounds := (float_lit 10, float_lit 20, float_lit 30, float_lit 40);
     driver := "GeoJSON";
     crs_string := "EPSG:3857" |}.

Definition host_work : Host :=
  {| cwd := "/work";
     script_dir := script_dir host;
     listdir := listdir host;
     stat := stat host;
     fiona_open := fun l =>
       if bool_decide (l = Loc "/work" "a.geojson") then Ok other_collection
       else fiona_open host l;
     gdal_open := gdal_open host;
     open_write := open_write host;
     file_write := file_write host;
     file_close := file_close host;
     utcoffset := utcoffset host;
     repr_float := repr_float host |}.

(** The same directory when [c.txt] is removed between the listing and
    its [stat] call. *)
Definition host_vanished : Host :=
  {| cwd := cwd host;
     script_dir := script_dir host;
     listdir := listdir host;
     stat := fun l =>
       if in_data ["a.geojson"; "b.tif"] l then Ok example_stat
       else no_such_file;
     fiona_open := fiona_open host;
     gdal_open := gdal_open host;
     open_write := open_write host;
     file_write := file_write host;
     file_close := file_close host;
     utcoffset := utcoffset host;
     repr_float := repr_float host |}.

(** The same directory when the inodes carry a change time that
    [localtime_r] cannot convert: 10^18 seconds lie in a year beyond the
    range of [tm_year]. *)
Definition far_future_stat : stat_result :=
  {| st_size := st_size example_stat;
     st_atime := st_atime example_stat;
     st_mtime := st_mtime example_stat;
     st_ctime := float_lit (10 ^ 18) |}.

Definition host_far_future : Host :=
  {| cwd := cwd host;
     script_dir := script_dir host;
     listdir := listdir host;
     stat := fun l =>
       if in_data ["a.geojson"; "b.tif"; "c.txt"] l then Ok far_future_stat
       else no_such_file;
     fiona_open := fiona_open host;
     gdal_open := gdal_open host;
     open_write := open_write host;
     file_write := file_write host;
     file_close := file_close host;
     utcoffset := utcoffset host;
     repr_float := repr_float host |}.

(** The same directory when [b.tif] is not a readable raster. *)
Definition host_corrupt : Host :=
  {| cwd := cwd host;
     script_dir := script_dir host;
     listdir := listdir host;
     stat := stat host;
     fiona_open := fiona_open host;
     gdal_open := fun _ => Err (LibraryError "AttributeError");
     open_write := open_write host;
     file_write := file_write host;
     file_close := file_close host;
     utcoffset := utcoffset host;
     repr_float := repr_float host |}.

Definition empty_sys : Sys := {| files := ∅; trace := [] |}.

Definition tif_entry : DirEntry :=
  {| entry_dir := "/data"; entry_name := "b.tif" |}.

Definition geojson_entry : DirEntry :=
  {| entry_dir := "/data"; entry_name := "a.geojson" |}.

Definition txt_entry : DirEntry :=
  {| entry_dir := "/data"; entry_name := "c.txt" |}.

(** The records of the two geospatial files. *)
Definition geojson_record : Metadata :=
  {| name := "a.geojson";
     data_type := "vector";
     format := "GeoJSON";
     volume_in_MB := float_lit 3;
     spatial_reference := "EPSG:4326";
     extent := map float_lit [0; 0; 1; 1];
     creation_date := "Tue Nov 14 22:13:20 2023";
     update_date := "Tue Nov 14 22:15:00 2023" |}.

Definition tif_record : Metadata :=
  {| name := "b.tif";
     data_type := "raster";
     format := "GeoTIFF";
     volume_in_MB := float_lit 3;
     spatial_reference := "EPSG:32633";
     extent := map float_lit [100; 500; 600; 500];
     creation_date := "Tue Nov 14 22:13:20 2023";
     update_date := "Tue Nov 14 22:15:00 2023" |}.

(** The report of this directory, character for character: every line
    ends in CR LF, and the two extent cells, which hold commas, stand
    between double quotes. *)
Definition expected_report : string :=
  let crlf := String "013" (String "010" EmptyString) in
  let quote := String "034" EmptyString in
  ("name,data_type,format,volume_in_MB,spatial_reference,extent,creation_date,update_date"
   ++ crlf
   ++ "a.geojson,vector,GeoJSON,3.0,EPSG:4326,"
   ++ quote ++ "(0.0, 0.0, 1.0, 1.0)" ++ quote
   ++ ",Tue Nov 14 22:13:20 2023,Tue Nov 14 22:15:00 2023"
   ++ crlf
   ++ "b.tif,raster,GeoTIFF,3.0,EPSG:32633,"
   ++ quote ++ "(100.0, 500.0, 600.0, 500.0)" ++ quote
   ++ ",Tue Nov 14 22:13:20 2023,Tue Nov 14 22:15:00 2023"
   ++ crlf)%string.

(** A store in which an older report is present. *)
Definition stale_sys : Sys :=
  {| files := {[ Loc "/data" "metadata.csv" := "stale"%string ]};
     trace := [EvScandir "/old"] |}.

End Example.

(** * The specification's formulas

    Definitions that follow the specification's wording, to be compared
    with the script's. *)

Module Spec.
Import PyNum PyTime Csv Collect.

(** The extent the specification gives for a raster: the pixel height is
    the sixth element of the geotransform. *)
Definition spec_raster_extent (file : Dataset) : result (list float) :=
  match GetGeoTransform file with
  | [xmin; xRes; _; ymax; _; yRes] =>
      w ← int_mul_float (RasterXSize file) xRes;
      h ← int_mul_float (RasterYSize file) yRes;
      Ok [xmin; fadd ymax h; fadd xmin w; ymax]
  | _ => Err ValueError
  end.

(** [round(byteSize / 1048576, 2)]. *)
Definition spec_volume (byteSize : Z) : result float :=
  x ← int_true_div byteSize 1048576;
  round x 2.

(** A stat result with another modification time. *)
Definition with_mtime (st : stat_result) (t : float) : stat_result :=
  {| st_size := st_size st;
     st_atime := st_atime st;
     st_mtime := t;
     st_ctime := st_ctime st |}.

Definition is_Ok {A : Type} (r : result A) : Prop :=
  match r with
  | Ok _ => True
  | Err _ => False
  end.

(** Two hosts that answer every question alike. *)
Record hosts_agree (h1 h2 : Host) : Prop := {
  agree_cwd : cwd h1 = cwd h2;
  agree_script_dir : script_dir h1 = script_dir h2;
  agree_listdir : forall d, listdir h1 d = listdir h2 d;
  agree_stat : forall l, stat h1 l = stat h2 l;
  agree_fiona_open : forall l, fiona_open h1 l = fiona_open h2 l;
  agree_gdal_open : forall l, gdal_open h1 l = gdal_open h2 l;
  agree_open_write : forall l, open_write h1 l = open_write h2 l;
  agree_file_write : forall l written text,
    file_write h1 l written text = file_write h2 l written text;
  agree_file_close : forall l written,
    file_close h1 l written = file_close h2 l written;
  agree_utcoffset : forall z, utcoffset h1 z = utcoffset h2 z;
  agree_repr_float : forall x, repr_float h1 x = repr_float h2 x }.

(** The host lets the file at [l] be opened for writing, takes the texts
    one after the other, and lets the file be closed. *)
Definition accepts (h : Host) (l : location) (texts : list string) : Prop :=
  open_write h l = Ok tt /\
  (forall pre text post,
     texts = pre ++ text :: post ->
     file_write h l (String.concat "" pre) text = Ok tt) /\
  file_close h l (String.concat "" texts) = Ok tt.

(** The calls a run has added to the trace. *)
Definition new_calls (before after : Sys) : list event :=
  drop (length (trace before)) (trace after).

End Spec.

(** * Further behaviour of the script: definitions *)

Module Behaviour.
Import PyNum PyTime Csv Collect Outcome Example.

(** A name that [parse_metadata] hands to one of the two readers. *)
Definition recognised (n : string) : bool :=
  is_vector_name n || is_raster_name n.

(** The calls made for the entry [n] of [dir] when nothing raises: its
    [stat], then the one library call of a recognised name. *)
Definition entry_calls (h : Host) (dir n : string) : list event :=
  EvStat (Loc dir n) ::
  (if is_vector_name n then [EvFionaOpen (Loc (cwd h) n)]
   else if is_raster_name n then [EvGdalOpen (Loc (cwd h) n)]
   else []).

(** [P] holds of 0, 1, ..., n - 1. *)
Definition holds_below (n : positive) (P : Z -> bool) : bool :=
  snd (Pos.iter (fun '(i, ok) => (i + 1, ok && P i)) (0, true) n).

(** The size conversion gives 0.0. *)
Definition reports_zero (size : Z) : bool :=
  match volume size with
  | Ok (S754_zero false) => true
  | _ => false
  end.

(** A file of 5000 bytes. *)
Definition small_stat : stat_result :=
  {| st_size := 5000;
     st_atime := float_lit 1700000100;
     st_mtime := float_lit 1700000050;
     st_ctime := float_lit 1700000000 |}.

(** The float that has an integer's value, for an integer of at most 53
    bits: the mantissa is aligned on 53 bits. *)
Definition aligned (s : bool) (p : positive) : float :=
  let d := Zpos (digits2_pos p) in
  S754_finite s (Z.to_pos (Zpos p * 2 ^ (53 - d))) (d - 53).

(** Two hosts that answer alike what a scan of [dir] asks: the working
    directory, the listing of [dir], the [stat] of its entries, the
    library's reading of the recognised names in the working directory,
    the opening, writing and closing of [metadata.csv] in the working
    directory, the time zone and the printing of floats. *)
Record hosts_agree_on (dir : string) (h1 h2 : Host) : Prop := {
  same_cwd : cwd h1 = cwd h2;
  same_listdir : listdir h1 dir = listdir h2 dir;
  same_stat : forall n, stat h1 (Loc dir n) = stat h2 (Loc dir n);
  same_fiona_open : forall n,
    is_vector_name n = true ->
    fiona_open h1 (Loc (cwd h1) n) = fiona_open h2 (Loc (cwd h1) n);
  same_gdal_open : forall n,
    is_raster_name n = true ->
    gdal_open h1 (Loc (cwd h1) n) = gdal_open h2 (Loc (cwd h1) n);
  same_open_write :
    open_write h1 (Loc (cwd h1) "metadata.csv")
    = open_write h2 (Loc (cwd h1) "metadata.csv");
  same_file_write : forall written text,
    file_write h1 (Loc (cwd h1) "metadata.csv") written text
    = file_write h2 (Loc (cwd h1) "metadata.csv") written text;
  same_file_close : forall written,
    file_close h1 (Loc (cwd h1) "metadata.csv") written
    = file_close h2 (Loc (cwd h1) "metadata.csv") written;
  same_utcoffset : forall z, utcoffset h1 z = utcoffset h2 z;
  same_repr_float : forall x, repr_float h1 x = repr_float h2 x }.

(** [host] with other answers about files that a scan of [/data] does not
    ask about. *)
Definition host_other_files : Host :=
  {| cwd := cwd host;
     script_dir := "/elsewhere";
     listdir := fun d => if bool_decide (d = "/data"%string) then listdir host d else Ok [];
     stat := fun l => if bool_decide (loc_dir l = "/data"%string) then stat host l
                      else Ok far_future_stat;
     fiona_open := fun l =>
       if is_vector_name (loc_name l) then fiona_open host l
       else Ok example_collection;
     gdal_open := fun l =>
       if is_raster_name (loc_name l) then gdal_open host l
       else Ok example_dataset;
     open_write := fun l =>
       if bool_decide (l = Loc "/data" "metadata.csv") then open_write host l
       else Err (OSError 13);
     file_write := fun l written text =>
       if bool_decide (l = Loc "/data" "metadata.csv")
       then file_write host l written text
       else Err (OSError 28);
     file_close := fun l written =>
       if bool_decide (l = Loc "/data" "metadata.csv") then file_close host l written
       else Err (OSError 28);
     utcoffset := utcoffset host;
     repr_float := repr_float host |}.

(** [host] when the working directory is not writable: the report cannot
    be opened, [EACCES]. *)
Definition host_read_only : Host :=
  {| cwd := cwd host;
     script_dir := script_dir host;
     listdir := listdir host;
     stat := stat host;
     fiona_open := fiona_open host;
     gdal_open := gdal_open host;
     open_write := fun _ => Err (OSError 13);
     file_write := file_write host;
     file_close := file_close host;
     utcoffset := utcoffset host;
     repr_float := repr_float host |}.

(** [host] when the disk is full: every write is taken into the buffer,
    and the close, which empties the buffer, fails with [ENOSPC]. *)
Definition host_full_disk : Host :=
  {| cwd := cwd host;
     script_dir := script_dir host;
     listdir := listdir host;
     stat := stat host;
     fiona_open := fiona_open host;
     gdal_open := gdal_open host;
     open_write := open_write host;
     file_write := file_write host;
     file_close := fun _ _ => Err (OSError 28);
     utcoffset := utcoffset host;
     repr_float := repr_float host |}.

End Behaviour.

(** * Properties *)

(** ** Binary64 division *)

Module PyNumFacts.
Import PyNum Rounding.

Lemma digits2_pos_bounds (p : positive) :
  2 ^ (Zpos (digits2_pos p) - 1) <= Zpos p < 2 ^ Zpos (digits2_pos p).
Proof.
  induction p as [p IH|p IH|]; cbn [digits2_pos].
  - rewrite Pos2Z.inj_succ.
    replace (Z.succ (Zpos (digits2_pos p)) - 1) with (Z.succ (Zpos (digits2_pos p) - 1)) by lia.
    rewrite !Z.pow_succ_r by lia. lia.
  - rewrite Pos2Z.inj_succ.
    replace (Z.succ (Zpos (digits2_pos p)) - 1) with (Z.succ (Zpos (digits2_pos p) - 1)) by lia.
    rewrite !Z.pow_succ_r by lia. lia.
  - cbn. lia.
Qed.

Lemma digits2_pos_unique (p : positive) (n : Z) :
  2 ^ (n - 1) <= Zpos p < 2 ^ n -> Zpos (digits2_pos p) = n.
Proof.
  intros [Hlo Hhi].
  pose proof (digits2_pos_bounds p) as [Hlo' Hhi'].
  assert (0 < n) as Hn.
  { destruct (Z.lt_trichotomy n 0) as [Hneg|[->|Hpos]]; [|cbn in Hhi; lia|done].
    rewrite Z.pow_neg_r in Hhi by done. lia. }
  assert (n - 1 < Zpos (digits2_pos p)) as H1.
  { apply (Z.pow_lt_mono_r_iff 2); [lia|lia|lia]. }
  assert (Zpos (digits2_pos p) - 1 < n) as H2.
  { apply (Z.pow_lt_mono_r_iff 2); [lia|lia|lia]. }
  lia.
Qed.

Lemma binary_round_aux_finish sx mx ex lx :
  binary_round_aux prec emax sx mx ex lx
  = let '(mrs, e') := shr_fexp prec emax mx ex lx in
    finish sx (round_nearest_even (shr_m mrs) (loc_of_shr_record mrs)) e'.
Proof. reflexivity. Qed.

Lemma fexp_normal (n : Z) : -1021 <= n -> fexp prec emax n = n - 53.
Proof. intros Hn. unfold fexp, emin, prec, emax. lia. Qed.

Lemma shr_fexp_54 (q : positive) (e : Z) (l : location) :
  2 ^ 53 <= Zpos q < 2 ^ 54 -> -1075 <= e ->
  shr_fexp prec emax (Zpos q) e l = (first_stage (Zpos q) l, e + 1).
Proof.
  intros Hq He. unfold shr_fexp.
  cbn [Zdigits2]. rewrite (digits2_pos_unique q 54) by (cbn; lia).
  rewrite fexp_normal by lia.
  replace (54 + e - 53 - e) with 1 by lia.
  reflexivity.
Qed.

Lemma shr_fexp_53 (m : positive) (e : Z) :
  2 ^ 52 <= Zpos m < 2 ^ 53 -> -1074 <= e ->
  shr_fexp prec emax (Zpos m) e loc_Exact
  = ({| shr_m := Zpos m; shr_r := false; shr_s := false |}, e).
Proof.
  intros Hm He. unfold shr_fexp.
  cbn [Zdigits2]. rewrite (digits2_pos_unique m 53) by (cbn; lia).
  rewrite fexp_normal by lia.
  replace (53 + e - 53 - e) with 0 by lia.
  reflexivity.
Qed.

Lemma finish_53 sx (m : positive) (e : Z) :
  2 ^ 52 <= Zpos m < 2 ^ 53 -> -1074 <= e <= 971 ->
  finish sx (Zpos m) e = S754_finite sx m e.
Proof.
  intros Hm He. unfold finish. rewrite shr_fexp_53 by lia.
  cbn [shr_m]. unfold emax, prec.
  destruct (Z.leb_spec e (1024 - 53)); [done|lia].
Qed.

Lemma finish_carry sx (e : Z) :
  -1075 <= e <= 970 ->
  finish sx (2 ^ 53) e = S754_finite sx (2 ^ 52) (e + 1).
Proof.
  intros He. unfold finish.
  change (2 ^ 53) with (Zpos (2 ^ 53)).
  rewrite shr_fexp_54 by (cbn; lia).
  cbn [first_stage shr_record_of_loc shr_1 shr_m]. 
  unfold emax, prec.
  destruct (Z.leb_spec (e + 1) (1024 - 53)); [done|lia].
Qed.

Lemma first_stage_mantissa (q : positive) (l : location) :
  shr_m (first_stage (Zpos q) l) = Zpos q / 2.
Proof.
  rewrite <- Z.div2_div.
  unfold first_stage. destruct l as [|[]]; destruct q; reflexivity.
Qed.

Lemma round_nearest_even_bounds (m : Z) (l : location) :
  m <= round_nearest_even m l <= m + 1.
Proof.
  unfold round_nearest_even. destruct l as [|[]]; try lia.
  destruct (Z.even m); lia.
Qed.

Lemma rounded_mantissa_bounds (q : positive) (l : location) :
  2 ^ 53 <= Zpos q < 2 ^ 54 ->
  2 ^ 52 <= rounded_mantissa (Zpos q) l <= 2 ^ 53.
Proof.
  intros Hq. unfold rounded_mantissa.
  pose proof (round_nearest_even_bounds (shr_m (first_stage (Zpos q) l))
                (loc_of_shr_record (first_stage (Zpos q) l))) as H.
  rewrite first_stage_mantissa in *.
  assert (2 ^ 52 <= Zpos q / 2 < 2 ^ 53).
  { clear H. split.
    - apply Z.div_le_lower_bound; [lia|]. change (2 * 2 ^ 52) with (2 ^ 53). lia.
    - apply Z.div_lt_upper_bound; [lia|]. change (2 * 2 ^ 53) with (2 ^ 54). lia. }
  lia.
Qed.

Lemma binary_round_aux_54 sx (q : positive) (l : location) (e : Z) :
  2 ^ 53 <= Zpos q < 2 ^ 54 -> -1075 <= e <= 969 ->
  binary_round_aux prec emax sx (Zpos q) e l = rounded54 sx (Zpos q) l e.
Proof.
  intros Hq He. rewrite binary_round_aux_finish, shr_fexp_54 by lia.
  fold (rounded_mantissa (Zpos q) l). unfold rounded54.
  pose proof (rounded_mantissa_bounds q l Hq) as HM.
  destruct (Z.ltb_spec (rounded_mantissa (Zpos q) l) (2 ^ 53)) as [Hlt|Hge].
  - destruct (rounded_mantissa (Zpos q) l) as [|M|M] eqn:EM; [lia| |lia].
    rewrite finish_53 by lia. done.
  - replace (rounded_mantissa (Zpos q) l) with (2 ^ 53) by lia.
    rewrite finish_carry by lia. f_equal. lia.
Qed.

Lemma div_eucl_div_mod (a b : Z) : Z.div_eucl a b = (a / b, a mod b).
Proof. unfold Z.div, Z.modulo. by destruct (Z.div_eucl a b). Qed.

(** The core of a division whose quotient is a normal number and whose
    dividend has to be shifted left: the dividend gets as many extra bits
    as make the integer quotient 54 or 55 bits long. *)
Lemma SFdiv_core_binary_normal (m1 m2 : positive) (e1 e2 : Z) :
  let d1 := Zpos (digits2_pos m1) in
  let d2 := Zpos (digits2_pos m2) in
  let s := d2 + 53 - d1 in
  -1021 <= d1 + e1 - (d2 + e2) -> 0 < s ->
  SFdiv_core_binary prec emax (Zpos m1) e1 (Zpos m2) e2
  = ((Zpos m1 * 2 ^ s) / Zpos m2, e1 - e2 - s,
     new_location (Zpos m2) ((Zpos m1 * 2 ^ s) mod Zpos m2)).
Proof.
  intros d1 d2 s Hnormal Hs. unfold SFdiv_core_binary.
  cbn [Zdigits2]. fold d1 d2.
  rewrite fexp_normal by lia.
  replace (Z.min (d1 + e1 - (d2 + e2) - 53) (e1 - e2)) with (e1 - e2 - s) by lia.
  replace (e1 - e2 - (e1 - e2 - s)) with s by lia.
  destruct s as [|sp|sp] eqn:Es; [lia| |lia].
  rewrite Z.shiftl_mul_pow2 by lia.
  by rewrite div_eucl_div_mod.
Qed.

(** Dividing a normal float by a power of two that is itself a normal
    float only moves the exponent. *)
Lemma fdiv_power_of_two sx (m : positive) (e ey : Z) :
  2 ^ 52 <= Zpos m < 2 ^ 53 ->
  -1021 <= e - ey <= 1022 ->
  fdiv (S754_finite sx m e) (S754_finite false (2 ^ 52) ey)
  = S754_finite sx m (e - ey - 52).
Proof.
  intros Hm He. unfold fdiv, SFdiv.
  pose proof (digits2_pos_unique m 53 ltac:(cbn; lia)) as Hd.
  rewrite SFdiv_core_binary_normal; rewrite Hd;
    change (Zpos (digits2_pos (2 ^ 52))) with 53; [|lia|lia].
  change (53 + 53 - 53) with 53.
  replace (Zpos m * 2 ^ 53) with (Zpos m~0 * Zpos (2 ^ 52)) by (change (2 ^ 53) with (2 * Zpos (2 ^ 52)); lia).
  rewrite Z.div_mul, Z.mod_mul by done.
  change (new_location (Zpos (2 ^ 52)) 0) with loc_Exact.
  rewrite binary_round_aux_54; [| |lia].
  - unfold rounded54.
    change (rounded_mantissa (Zpos m~0) loc_Exact) with (Zpos m).
    destruct (Z.ltb_spec (Zpos m) (2 ^ 53)); [|lia].
    rewrite xorb_false_r. cbn [Z.to_pos]. f_equal. lia.
  - change (2 ^ 54) with (2 * 2 ^ 53). change (2 ^ 53) with (2 * 2 ^ 52) at 1. lia.
Qed.

Lemma quotient54_bounds (p : positive) : 2 ^ 53 <= quotient54 p < 2 ^ 54.
Proof.
  unfold quotient54.
  pose proof (digits2_pos_bounds p) as [Hlo Hhi].
  set (d := Zpos (digits2_pos p)) in *.
  assert (0 < d) as Hd by (unfold d; lia).
  destruct (Z.leb_spec 0 (54 - d)) as [Hc|Hc].
  - assert (0 < 2 ^ (54 - d)) by (apply Z.pow_pos_nonneg; lia).
    assert (2 ^ 53 = 2 ^ (d - 1) * 2 ^ (54 - d)) as ->
      by (rewrite <- Z.pow_add_r by lia; f_equal; lia).
    assert (2 ^ 54 = 2 ^ d * 2 ^ (54 - d)) as ->
      by (rewrite <- Z.pow_add_r by lia; f_equal; lia).
    split.
    + apply Z.mul_le_mono_nonneg_r; lia.
    + apply Z.mul_lt_mono_pos_r; lia.
  - assert (0 < 2 ^ (- (54 - d))) as Hpos by (apply Z.pow_pos_nonneg; lia).
    split.
    + apply Z.div_le_lower_bound; [done|].
      rewrite <- Z.pow_add_r by lia.
      replace (- (54 - d) + 53) with (d - 1) by lia. done.
    + apply Z.div_lt_upper_bound; [done|].
      rewrite <- Z.pow_add_r by lia.
      replace (- (54 - d) + 54) with d by lia. done.
Qed.

Lemma mul_compare_r (n m p : Z) : 0 < p -> (n * p ?= m * p) = (n ?= m).
Proof.
  intros Hp. destruct (Z.compare_spec n m) as [->|Hlt|Hgt].
  - apply Z.compare_refl.
  - apply Z.compare_lt_iff. by apply Z.mul_lt_mono_pos_r.
  - apply Z.compare_gt_iff. by apply Z.mul_lt_mono_pos_r.
Qed.

Lemma new_location_zero (n : Z) : new_location n 0 = loc_Exact.
Proof. unfold new_location. by destruct (Z.even n). Qed.

Lemma SFdiv_core_binary_int_pow2 (p t : positive) (k : Z) :
  let d := Zpos (digits2_pos p) in
  Zpos t = 2 ^ k -> 1 <= k <= 1000 -> d - 54 < k ->
  SFdiv_core_binary prec emax (Zpos p) 0 (Zpos t) 0
  = (quotient54 p, d - k - 54, location54 p).
Proof.
  intros d Ht Hk Hdk.
  assert (0 < d) as Hd0 by (unfold d; lia).
  assert (Zpos (digits2_pos t) = k + 1) as Hdt.
  { apply digits2_pos_unique. rewrite Ht.
    replace (k + 1 - 1) with k by lia. rewrite Z.pow_add_r by lia.
    assert (0 < 2 ^ k) by (apply Z.pow_pos_nonneg; lia).
    change (2 ^ 1) with 2. lia. }
  rewrite SFdiv_core_binary_normal; rewrite Hdt; fold d; [|lia|lia].
  replace (0 - 0 - (k + 1 + 53 - d)) with (d - k - 54) by lia.
  replace (k + 1 + 53 - d) with (k + (54 - d)) by lia.
  rewrite Ht. unfold quotient54, location54, remainder54. fold d.
  destruct (Z.leb_spec 0 (54 - d)) as [Hc|Hc].
  - rewrite Z.pow_add_r by lia.
    replace (Zpos p * (2 ^ k * 2 ^ (54 - d))) with (Zpos p * 2 ^ (54 - d) * 2 ^ k) by lia.
    assert (2 ^ k <> 0) by (apply Z.pow_nonzero; lia).
    rewrite Z.div_mul, Z.mod_mul by done.
    by rewrite new_location_zero.
  - set (j := - (54 - d)).
    replace (k + (54 - d)) with (k - j) by lia.
    replace (2 ^ k) with (2 ^ j * 2 ^ (k - j))
      by (rewrite <- Z.pow_add_r by lia; f_equal; lia).
    assert (0 < 2 ^ (k - j)) as Hpos by (apply Z.pow_pos_nonneg; lia).
    assert (0 < 2 ^ j) as Hposj by (apply Z.pow_pos_nonneg; lia).
    rewrite Z.div_mul_cancel_r by lia.
    rewrite Z.mul_mod_distr_r by lia.
    f_equal. unfold new_location.
    assert (Z.even (2 ^ j * 2 ^ (k - j)) = true) as ->.
    { rewrite Z.even_mul. rewrite (Z.even_pow 2 j) by lia. done. }
    unfold new_location_even.
    set (R := Zpos p mod 2 ^ j).
    destruct (Z.eqb_spec R 0) as [->|HR].
    + done.
    + destruct (Z.eqb_spec (R * 2 ^ (k - j)) 0) as [H0|_]; [nia|].
      f_equal. rewrite Z.mul_assoc. by apply mul_compare_r.
Qed.

Lemma rounded54_not_infinite sx Q l e : is_infinite (rounded54 sx Q l e) = false.
Proof. unfold rounded54. by destruct (_ <? _). Qed.

Lemma digits2_pos_below (p : positive) (n : Z) :
  0 <= n -> Zpos p < 2 ^ n -> Zpos (digits2_pos p) <= n.
Proof.
  intros Hn Hp. pose proof (digits2_pos_bounds p) as [Hlo _].
  assert (Zpos (digits2_pos p) - 1 < n); [|lia].
  apply (Z.pow_lt_mono_r_iff 2); lia.
Qed.

(** A positive integer below 2^63 divided by a power of two between 2^10
    and 2^1000. *)
Lemma int_true_div_pow2 (p t : positive) (k : Z) :
  Zpos p < 2 ^ 63 -> Zpos t = 2 ^ k -> 10 <= k <= 1000 ->
  int_true_div (Zpos p) (Zpos t)
  = Ok (rounded54 false (quotient54 p) (location54 p)
          (Zpos (digits2_pos p) - k - 54)).
Proof.
  intros Hp Ht Hk.
  pose proof (digits2_pos_below p 63 ltac:(lia) Hp) as Hd.
  unfold int_true_div. cbn [Z.eqb].
  change (int_operand (Zpos p)) with (S754_finite false p 0).
  change (int_operand (Zpos t)) with (S754_finite false t 0).
  unfold fdiv, SFdiv.
  rewrite (SFdiv_core_binary_int_pow2 p t k) by lia.
  pose proof (quotient54_bounds p) as HQ.
  destruct (quotient54 p) as [|q|q] eqn:EQ; [lia| |lia].
  rewrite binary_round_aux_54 by lia.
  cbn [xorb]. unfold check_overflow. by rewrite rounded54_not_infinite.
Qed.

Lemma fdiv_rounded54_1024 (q : positive) (l : location) (e : Z) :
  2 ^ 53 <= Zpos q < 2 ^ 54 -> -1000 <= e <= 900 ->
  float_div_int (rounded54 false (Zpos q) l e) 1024
  = Ok (rounded54 false (Zpos q) l (e - 10)).
Proof.
  intros Hq He. unfold float_div_int.
  change (float_of_int 1024) with (Ok (S754_finite false (2 ^ 52) (-42))).
  cbn [mbind result_bind]. unfold float_div. cbn [is_zero].
  f_equal. unfold rounded54.
  pose proof (rounded_mantissa_bounds q l Hq) as HM.
  destruct (Z.ltb_spec (rounded_mantissa (Zpos q) l) (2 ^ 53)) as [Hlt|Hge].
  - destruct (rounded_mantissa (Zpos q) l) as [|M|M]; [lia| |lia].
    cbn [Z.to_pos]. rewrite fdiv_power_of_two by lia. f_equal. lia.
  - rewrite fdiv_power_of_two by (cbn; lia). f_equal. lia.
Qed.

(** Two divisions by 1024 give the float that one division by 1048576
    gives, for every size that the file system can report. *)
Lemma kib_kib_is_mib (size : Z) :
  0 <= size < 2 ^ 63 ->
  (kb ← int_true_div size 1024; float_div_int kb 1024)
  = int_true_div size 1048576.
Proof.
  intros Hs. destruct size as [|p|p]; [reflexivity| |lia].
  rewrite (int_true_div_pow2 p 1024 10), (int_true_div_pow2 p 1048576 20) by (done || lia).
  cbn [mbind result_bind].
  pose proof (quotient54_bounds p) as HQ.
  pose proof (digits2_pos_below p 63 ltac:(lia) ltac:(lia)) as Hd.
  destruct (quotient54 p) as [|q|q] eqn:EQ; [lia| |lia].
  rewrite fdiv_rounded54_1024 by lia.
  do 2 f_equal. lia.
Qed.

Lemma sign_positive_nonneg (x : float) :
  sign_positive x = true -> nonneg x = true.
Proof. by destruct x as [[]|[]| |[] ? ?]. Qed.

Lemma shr_1_nonneg (mrs : shr_record) : 0 <= shr_m mrs -> 0 <= shr_m (shr_1 mrs).
Proof. destruct mrs as [[|[m|m|]|m] r s]; cbn; lia. Qed.

Lemma iter_pos_shr_1_nonneg (n : positive) : forall mrs,
  0 <= shr_m mrs -> 0 <= shr_m (SpecFloat.iter_pos shr_1 n mrs).
Proof.
  induction n as [n IH|n IH|]; intros mrs Hm; cbn [SpecFloat.iter_pos].
  - by apply IH, IH, shr_1_nonneg.
  - by apply IH, IH.
  - by apply shr_1_nonneg.
Qed.

Lemma shr_fexp_nonneg (m e : Z) (l : location) :
  0 <= m -> 0 <= shr_m (fst (shr_fexp prec emax m e l)).
Proof.
  intros Hm. unfold shr_fexp, shr.
  assert (0 <= shr_m (shr_record_of_loc m l)) as H0 by (by destruct l as [|[]]).
  destruct (fexp prec emax (Zdigits2 m + e) - e); cbn [fst]; [done| |done].
  by apply iter_pos_shr_1_nonneg.
Qed.

Lemma binary_round_aux_sign (sx : bool) (mx ex : Z) (lx : location) :
  0 <= mx -> sign_positive (binary_round_aux prec emax sx mx ex lx) = negb sx.
Proof.
  intros Hm. unfold binary_round_aux.
  pose proof (shr_fexp_nonneg mx ex lx Hm) as H1.
  destruct (shr_fexp prec emax mx ex lx) as [mrs' e']. cbn [fst] in H1.
  pose proof (round_nearest_even_bounds (shr_m mrs') (loc_of_shr_record mrs')) as H2.
  pose proof (shr_fexp_nonneg (round_nearest_even (shr_m mrs') (loc_of_shr_record mrs'))
                e' loc_Exact ltac:(lia)) as H3.
  destruct (shr_fexp prec emax _ e' loc_Exact) as [mrs'' e'']. cbn [fst] in H3.
  destruct (shr_m mrs'') as [|m|m]; [done| |lia].
  by destruct (e'' <=? emax - prec).
Qed.

Lemma SFdiv_core_binary_nonneg (m1 m2 : positive) (e1 e2 : Z) :
  0 <= (SFdiv_core_binary prec emax (Zpos m1) e1 (Zpos m2) e2).1.1.
Proof.
  unfold SFdiv_core_binary.
  set (s := e1 - e2 - _).
  set (m' := match s with Z0 => Zpos m1 | Zpos _ => Z.shiftl (Zpos m1) s | Zneg _ => 0 end).
  assert (0 <= m') as Hm'.
  { unfold m'. destruct s; [lia| |lia]. apply Z.shiftl_nonneg. lia. }
  rewrite div_eucl_div_mod. cbn [fst]. apply Z.div_pos; lia.
Qed.

Lemma fdiv_finite_sign (sx sy : bool) (m1 m2 : positive) (e1 e2 : Z) :
  sign_positive (fdiv (S754_finite sx m1 e1) (S754_finite sy m2 e2))
  = negb (xorb sx sy).
Proof.
  unfold fdiv, SFdiv.
  pose proof (SFdiv_core_binary_nonneg m1 m2 e1 e2) as Hq.
  destruct (SFdiv_core_binary prec emax (Zpos m1) e1 (Zpos m2) e2) as [[mz ez] lz].
  by apply binary_round_aux_sign.
Qed.

Lemma fdiv_sign_positive (x : float) (m2 : positive) (e2 : Z) :
  sign_positive x = true ->
  sign_positive (fdiv x (S754_finite false m2 e2)) = true.
Proof.
  destruct x as [s|s| |s m e]; intros Hs.
  - by destruct s.
  - by destruct s.
  - done.
  - rewrite fdiv_finite_sign. by destruct s.
Qed.

Lemma check_overflow_Ok (x y : float) : check_overflow x = Ok y -> y = x.
Proof. unfold check_overflow. destruct (is_infinite x); congruence. Qed.

Lemma int_true_div_sign_positive (a b : Z) (x : float) :
  0 <= a -> 0 < b -> int_true_div a b = Ok x -> sign_positive x = true.
Proof.
  intros Ha Hb. unfold int_true_div.
  destruct (Z.eqb_spec b 0); [lia|].
  destruct (Z.eqb_spec a 0) as [->|Ha0].
  - intros [= <-]. cbn. destruct (Z.ltb_spec b 0); [lia|done].
  - intros ->%check_overflow_Ok. unfold int_operand.
    rewrite fdiv_finite_sign.
    destruct (Z.ltb_spec a 0); [lia|]. destruct (Z.ltb_spec b 0); [lia|]. done.
Qed.

Lemma float_div_int_sign_positive (x y : float) (n : Z) :
  0 < n -> sign_positive x = true -> float_div_int x n = Ok y ->
  sign_positive y = true.
Proof.
  intros Hn Hx. unfold float_div_int, float_of_int.
  destruct n as [|n|n]; [lia| |lia]. cbn [binary_normalize].
  unfold binary_round.
  destruct (shl_align n 0 _) as [mz ez].
  pose proof (binary_round_aux_sign false (Zpos mz) ez loc_Exact ltac:(lia)) as Hs.
  destruct (binary_round_aux prec emax false (Zpos mz) ez loc_Exact) as [s|s| |s m e];
    cbn in Hs |- *; try done.
  destruct s; [done|]. intros [= <-]. by apply fdiv_sign_positive.
Qed.

Lemma round_sign_positive (x y : float) (ndigits : nat) :
  sign_positive x = true -> round x ndigits = Ok y -> sign_positive y = true.
Proof.
  intros Hx. unfold round. destruct x as [s|s| |s m e]; try (by intros [= <-]).
  destruct (323 <? Z.of_nat ndigits); [by intros [= <-]|].
  destruct (nearest_even_scaled m e (10 ^ Z.of_nat ndigits)) as [|k|k];
    try (by intros [= <-]).
  intros ->%check_overflow_Ok. unfold int_operand.
  rewrite fdiv_finite_sign. cbn in Hx. destruct s; [done|].
  assert (0 < 10 ^ Z.of_nat ndigits) by (apply Z.pow_pos_nonneg; lia).
  by destruct (Z.ltb_spec (10 ^ Z.of_nat ndigits) 0); [lia|].
Qed.

End PyNumFacts.

Module CollectFacts.
Import PyNum PyTime Csv Collect Outcome Spec.

(** ** Runs of the monadic code *)

Section Runs.

Variable h : Host.

Lemma logged_nil s : logged s [] = s.
Proof. destruct s; unfold logged; simpl; by rewrite app_nil_r. Qed.

Lemma logged_app s evs evs' : logged (logged s evs) evs' = logged s (evs ++ evs').
Proof. unfold logged; simpl; by rewrite app_assoc. Qed.

Lemma parse_metadata_run e s :
  parse_metadata h e s = (parse_outcome h e, logged s (parse_events h e)).
Proof.
  unfold parse_metadata, parse_outcome, parse_events, call, emit, lift,
    vector_data_reader, raster_data_reader, raster_information, vector_information,
    call, emit, lift, logged, mbind, M_bind, mret, M_ret; simpl.
  destruct (stat h (entry_location e)) as [st|err]; simpl; [|done].
  destruct (is_vector_name (entry_name e)).
  - destruct (fiona_open h (opened_location h e)) as [file|err]; simpl.
    + destruct (bounds file) as [[[minx miny] maxx] maxy]; simpl.
      rewrite <- app_assoc; simpl.
      by destruct (metadata_creator _ _ _ _).
    + by rewrite <- app_assoc.
  - destruct (is_raster_name (entry_name e)); [|done].
    destruct (gdal_open h (opened_location h e)) as [file|err]; simpl.
    + rewrite <- app_assoc; simpl.
      destruct (raster_extent file); simpl; [|done].
      by destruct (metadata_creator _ _ _ _).
    + by rewrite <- app_assoc.
Qed.

Lemma collect_run scanner : forall store s,
  collect h scanner store s
  = (collect_outcome h scanner store, logged s (collect_events h scanner)).
Proof.
  induction scanner as [|e rest IH]; intros store s; simpl.
  - by rewrite logged_nil.
  - unfold mbind, M_bind. rewrite parse_metadata_run.
    destruct (parse_outcome h e) as [[m|]|err]; simpl.
    + by rewrite IH, logged_app.
    + by rewrite IH, logged_app.
    + by rewrite app_nil_r.
Qed.

Lemma collect_outcome_records scanner : forall store,
  collect_outcome h scanner store
  = (ms ← records_outcome h scanner; Ok (store ++ map asdict ms)).
Proof.
  induction scanner as [|e rest IH]; intros store; simpl.
  - by rewrite app_nil_r.
  - destruct (parse_outcome h e) as [[m|]|err]; simpl; [| |done].
    + rewrite IH. destruct (records_outcome h rest); simpl; [|done].
      by rewrite <- app_assoc.
    + rewrite IH. by destruct (records_outcome h rest).
Qed.

Lemma writerow_asdict m :
  writerow (repr_float h) fields_names (asdict m) = Ok (record_line h m).
Proof. reflexivity. Qed.

Lemma writeheader_fields_names :
  writeheader (repr_float h) fields_names = Ok header_line.
Proof. reflexivity. Qed.

Lemma append_empty_r (s : string) : (s ++ "")%string = s.
Proof. induction s as [|c s IH]; [done|]. cbv [String.append]. fold String.append. by rewrite IH. Qed.

Lemma append_assoc (s t u : string) : ((s ++ t) ++ u)%string = (s ++ t ++ u)%string.
Proof.
  induction s as [|c s IH]; [done|].
  change ((String c (s ++ t) ++ u)%string = String c (s ++ t ++ u)%string).
  change (String c ((s ++ t) ++ u)%string = String c (s ++ t ++ u)%string).
  by rewrite IH.
Qed.

Lemma record_lines_cons m ms :
  record_lines h (m :: ms) = (record_line h m ++ record_lines h ms)%string.
Proof.
  unfold record_lines. destruct ms as [|m' ms]; simpl.
  - by rewrite append_empty_r.
  - done.
Qed.

Lemma writerows_run ms : forall s written,
  files s !! output_location h = Some written ->
  writerows h (map asdict ms) s
  = ((writes_outcome h (output_location h) written (map (record_line h) ms)).1,
     {| files := <[output_location h :=
                    (writes_outcome h (output_location h) written
                       (map (record_line h) ms)).2]> (files s);
        trace := trace s |}).
Proof.
  induction ms as [|m ms IH]; intros s written Hs.
  - cbn. rewrite insert_id by done. by destruct s.
  - cbn [map writerows writes_outcome]. unfold mbind, M_bind, lift at 1.
    rewrite writerow_asdict. unfold write at 1. rewrite Hs. cbn [default from_option id].
    destruct (file_write h (output_location h) written (record_line h m)).
    + erewrite IH; [|cbn; apply lookup_insert_eq].
      cbn [files trace]. by rewrite insert_insert_eq.
    + cbn [fst snd]. rewrite insert_id by done. by destruct s.
Qed.

(** A scan whose enumeration raises: the exception leaves
    [scan_directory], and no file has been opened for writing. *)
Lemma scan_directory_raises path names err s :
  let dir := default (script_dir h) path in
  listdir h dir = Ok names ->
  records_outcome h (entries dir names) = Err err ->
  scan_directory h path s
  = (Err err, logged s (EvScandir dir :: collect_events h (entries dir names))).
Proof.
  intros dir Hls Hrec.
  unfold scan_directory, scandir, call, emit, lift, mbind, M_bind, mret, M_ret.
  fold dir. rewrite Hls. cbn.
  fold (entries dir names).
  rewrite collect_run, collect_outcome_records, Hrec.
  unfold logged; cbn. by rewrite <- app_assoc.
Qed.

(** The body of the [with] statement, on the file just opened. *)
Lemma writer_body_run ms s :
  files s !! output_location h = Some EmptyString ->
  (header ← lift (writeheader (repr_float h) fields_names);
   _ ← write h (output_location h) header;
   writerows h (map asdict ms)) s
  = ((writes_outcome h (output_location h) EmptyString
        (header_line :: map (record_line h) ms)).1,
     {| files := <[output_location h :=
                    (writes_outcome h (output_location h) EmptyString
                       (header_line :: map (record_line h) ms)).2]> (files s);
        trace := trace s |}).
Proof.
  intros Hs.
  rewrite writeheader_fields_names.
  unfold mbind at 1, M_bind at 1, lift at 1.
  unfold mbind at 1, M_bind at 1, write at 1.
  rewrite Hs. cbn [default from_option id writes_outcome].
  change (EmptyString ++ header_line)%string with header_line.
  destruct (file_write h (output_location h) EmptyString header_line).
  - erewrite writerows_run; [|cbn [files]; apply lookup_insert_eq].
    cbn [files trace]. by rewrite insert_insert_eq.
  - cbn [fst snd]. rewrite insert_id by done. by destruct s.
Qed.

(** A scan whose enumeration completes: the writer phase decides. *)
Lemma scan_directory_completes path names ms s :
  let dir := default (script_dir h) path in
  listdir h dir = Ok names ->
  records_outcome h (entries dir names) = Ok ms ->
  scan_directory h path s
  = ((report_outcome h ms).1,
     {| files := reported h s (report_outcome h ms).2;
        trace := trace s ++ EvScandir dir :: collect_events h (entries dir names)
                   ++ [EvOpenWrite (output_location h)] |}).
Proof.
  intros dir Hls Hrec.
  unfold scan_directory. fold dir.
  unfold scandir, call, emit, lift.
  unfold mbind at 1, M_bind at 1. unfold mbind at 1, M_bind at 1.
  unfold mbind at 1, M_bind at 1. unfold mbind at 1, M_bind at 1.
  rewrite Hls. cbn [mret M_ret].
  fold (entries dir names).
  rewrite collect_run, collect_outcome_records, Hrec.
  cbn [mbind result_bind].
  unfold with_open_w, open_w, report_outcome, reported, logged.
  cbn [files trace].
  destruct (open_write h (output_location h)) as [[]|err].
  - change (fun s0 : Sys => (writeheader (repr_float h) fields_names, s0))
      with (lift (writeheader (repr_float h) fields_names)).
    change ([] ++ map asdict ms) with (map asdict ms).
    rewrite writer_body_run by (cbn [files]; apply lookup_insert_eq).
    destruct (writes_outcome h (output_location h) EmptyString
                (header_line :: map (record_line h) ms)) as [r written].
    unfold close. cbn [files trace fst snd].
    rewrite lookup_insert_eq. cbn [default from_option id].
    rewrite !insert_insert_eq, <- !app_assoc. cbn [app].
    by destruct (file_close h (output_location h) written) as [[]|].
  - cbn [fst snd]. by rewrite <- !app_assoc.
Qed.

(** The host lets the file at [l] be opened for writing, takes each of
    the texts and lets the file be closed. *)
Lemma writes_outcome_accepted l texts : forall written,
  (forall pre text post,
     texts = pre ++ text :: post ->
     file_write h l (written ++ String.concat "" pre) text = Ok tt) ->
  writes_outcome h l written texts
  = (Ok tt, (written ++ String.concat "" texts)%string).
Proof.
  induction texts as [|text texts IH]; intros written Hw.
  - cbn. by rewrite append_empty_r.
  - cbn [writes_outcome].
    pose proof (Hw [] text texts eq_refl) as Hfirst.
    cbn [String.concat] in Hfirst. rewrite append_empty_r in Hfirst.
    rewrite Hfirst, IH.
    + f_equal. rewrite append_assoc. f_equal.
      destruct texts; [by rewrite append_empty_r|done].
    + intros pre t post ->.
      rewrite append_assoc.
      pose proof (Hw (text :: pre) t post eq_refl) as Hnext.
      destruct pre; [by rewrite append_empty_r|done].
Qed.

(** The writer phase on a host that takes the report: the header line,
    then the lines of the records. *)
Lemma report_outcome_accepted ms :
  accepts h (output_location h) (header_line :: map (record_line h) ms) ->
  report_outcome h ms = (Ok tt, Some (header_line ++ record_lines h ms)%string).
Proof.
  intros (Hopen & Hwrite & Hclose).
  unfold report_outcome. rewrite Hopen.
  rewrite (writes_outcome_accepted (output_location h)
             (header_line :: map (record_line h) ms) EmptyString Hwrite).
  change (EmptyString ++ ?t)%string with t.
  rewrite Hclose.
  do 2 f_equal.
  destruct ms as [|m ms]; [by rewrite append_empty_r|done].
Qed.

(** A writer phase that ends normally has opened the report. *)
Lemma report_outcome_opened ms :
  (report_outcome h ms).1 = Ok tt ->
  exists written, (report_outcome h ms).2 = Some written.
Proof.
  unfold report_outcome.
  destruct (open_write h (output_location h)); [|done].
  destruct (writes_outcome _ _ _ _) as [r written]. eauto.
Qed.

End Runs.

(** ** Inversions *)

Section Inversions.

Variable h : Host.

Lemma metadata_creator_Ok name st si m :
  metadata_creator h name st si = Ok m ->
  exists v c u,
    volume (st_size st) = Ok v /\
    date_string h (st_ctime st) = Ok c /\
    date_string h (st_atime st) = Ok u /\
    m = {| Collect.name := name;
           data_type := si_data_type si;
           format := si_format si;
           volume_in_MB := v;
           spatial_reference := si_spatial_reference si;
           extent := si_extent si;
           creation_date := c;
           update_date := u |}.
Proof.
  unfold metadata_creator.
  destruct (volume (st_size st)) as [v|]; [|done].
  destruct (date_string h (st_ctime st)) as [c|]; [|done].
  destruct (date_string h (st_atime st)) as [u|]; [|done].
  intros [= <-]. by exists v, c, u.
Qed.

Lemma parse_outcome_Some e m :
  parse_outcome h e = Ok (Some m) ->
  exists st si,
    stat h (entry_location e) = Ok st /\
    metadata_creator h (entry_name e) st si = Ok m /\
    ((is_vector_name (entry_name e) = true /\
      exists file, fiona_open h (opened_location h e) = Ok file /\
                   si = vector_information file) \/
     (is_vector_name (entry_name e) = false /\
      is_raster_name (entry_name e) = true /\
      exists file, gdal_open h (opened_location h e) = Ok file /\
                   raster_information file = Ok si)).
Proof.
  unfold parse_outcome.
  destruct (stat h (entry_location e)) as [st|]; [|done]. cbn [mbind result_bind].
  destruct (is_vector_name (entry_name e)).
  - destruct (fiona_open h (opened_location h e)) as [file|]; [|done]. cbn [mbind result_bind].
    destruct (metadata_creator _ _ _ _) as [m'|] eqn:Em; [|done].
    intros [= <-]. exists st, (vector_information file). eauto 10.
  - destruct (is_raster_name (entry_name e)); [|done].
    destruct (gdal_open h (opened_location h e)) as [file|]; [|done]. cbn [mbind result_bind].
    destruct (raster_information file) as [si|] eqn:Esi; [|done]. cbn [mbind result_bind].
    destruct (metadata_creator _ _ _ _) as [m'|] eqn:Em; [|done].
    intros [= <-]. exists st, si. eauto 10.
Qed.

Lemma raster_information_Ok file si :
  raster_information file = Ok si ->
  si_data_type si = "raster" /\ length (si_extent si) = 4%nat.
Proof.
  unfold raster_information, raster_extent.
  destruct (GetGeoTransform file) as [|xmin [|xres [|r1 [|ymax [|yres [|r2 [|]]]]]]];
    try done.
  cbn. destruct (int_mul_float (RasterXSize file) xres); [|done]. cbn.
  destruct (int_mul_float (RasterYSize file) yres); [|done]. cbn.
  by intros [= <-].
Qed.

Lemma vector_information_shape file :
  si_data_type (vector_information file) = "vector" /\
  length (si_extent (vector_information file)) = 4%nat.
Proof.
  unfold vector_information. by destruct (bounds file) as [[[? ?] ?] ?].
Qed.

Lemma entries_app dir (ns ns' : list string) :
  entries dir (ns ++ ns') = entries dir ns ++ entries dir ns'.
Proof. apply map_app. Qed.

Lemma records_outcome_app es : forall es',
  records_outcome h (es ++ es')
  = (ms ← records_outcome h es; ms' ← records_outcome h es'; Ok (ms ++ ms')).
Proof.
  induction es as [|e es IH]; intros es'; cbn.
  - by destruct (records_outcome h es').
  - destruct (parse_outcome h e) as [o|]; [|done]. cbn.
    rewrite IH. destruct (records_outcome h es) as [ms|]; [|done]. cbn.
    destruct (records_outcome h es') as [ms'|]; [|done]. cbn.
    by destruct o.
Qed.

Lemma collect_events_app es : forall es' ms,
  records_outcome h es = Ok ms ->
  collect_events h (es ++ es') = collect_events h es ++ collect_events h es'.
Proof.
  induction es as [|e es IH]; intros es' ms; cbn; [done|].
  destruct (parse_outcome h e) as [o|]; [|done]. cbn.
  destruct (records_outcome h es) as [ms0|] eqn:E; [|done].
  intros _. rewrite (IH es' ms0) by done. by rewrite app_assoc.
Qed.

Lemma records_outcome_is_Ok es :
  Forall (fun e => is_Ok (parse_outcome h e)) es ->
  exists ms, records_outcome h es = Ok ms.
Proof.
  induction 1 as [|e es He _ [ms IH]]; cbn; [by exists []|].
  destruct (parse_outcome h e) as [o|]; [|done]. cbn. rewrite IH. cbn. eauto.
Qed.

Lemma scan_directory_listdir_raises path err s :
  let dir := default (script_dir h) path in
  listdir h dir = Err err ->
  scan_directory h path s = (Err err, logged s [EvScandir dir]).
Proof.
  intros dir Hls.
  unfold scan_directory, scandir, call, emit, lift, mbind, M_bind, mret, M_ret.
  fold dir. by rewrite Hls.
Qed.

Lemma new_calls_logged s evs : new_calls s (logged s evs) = evs.
Proof. unfold new_calls, logged. cbn. apply drop_app_length. Qed.

(** Every call to a geospatial library in the loop is for a recognised
    entry, comes after that entry's [stat], and names the file of that
    name in the current working directory. *)
Lemma collect_events_open dir names l :
  EvFionaOpen l ∈ collect_events h (entries dir names) \/
  EvGdalOpen l ∈ collect_events h (entries dir names) ->
  exists n,
    EvStat (Loc dir n) ∈ collect_events h (entries dir names) /\
    (is_vector_name n || is_raster_name n) = true /\
    l = Loc (cwd h) n.
Proof.
  induction names as [|n names IH]; cbn [entries map collect_events].
  - intros [H|H]; by apply elem_of_nil in H.
  - fold (entries dir names).
    set (e := {| entry_dir := dir; entry_name := n |}).
    intros H.
    assert ((EvFionaOpen l ∈ parse_events h e \/ EvGdalOpen l ∈ parse_events h e) \/
            (is_Ok (parse_outcome h e) /\
             (EvFionaOpen l ∈ collect_events h (entries dir names) \/
              EvGdalOpen l ∈ collect_events h (entries dir names)))) as [Hhere|[Hok Hrest]].
    { destruct (parse_outcome h e).
      - destruct H as [[?|?]%elem_of_app|[?|?]%elem_of_app]; cbn; auto 6.
      - rewrite app_nil_r in H. auto. }
    + exists n. split; [apply elem_of_app; left; by left|].
      unfold parse_events, opened_location in Hhere. subst e.
      cbn [entry_name] in Hhere.
      destruct (stat h _).
      * destruct (is_vector_name n) eqn:Ev; [|destruct (is_raster_name n) eqn:Er].
        -- split; [done|]. destruct Hhere as [Hh|Hh];
             apply elem_of_cons in Hh as [?|Hh]; try done;
             apply list_elem_of_singleton in Hh; by simplify_eq.
        -- split; [done|]. destruct Hhere as [Hh|Hh];
             apply elem_of_cons in Hh as [?|Hh]; try done;
             apply list_elem_of_singleton in Hh; by simplify_eq.
        -- destruct Hhere as [Hh|Hh];
             apply elem_of_cons in Hh as [?|Hh]; try done;
             by apply elem_of_nil in Hh.
      * destruct Hhere as [Hh|Hh];
          apply elem_of_cons in Hh as [?|Hh]; try done;
          by apply elem_of_nil in Hh.
    + destruct (IH Hrest) as (n' & Hstat & Hrec & ->).
      exists n'. split; [|done].
      apply elem_of_app; right. by destruct (parse_outcome h e).
Qed.

(** The loop at the first entry that raises. *)
Lemma records_outcome_first_error es e es' ms err :
  records_outcome h es = Ok ms ->
  parse_outcome h e = Err err ->
  records_outcome h (es ++ e :: es') = Err err /\
  collect_events h (es ++ e :: es') = collect_events h es ++ parse_events h e.
Proof.
  intros Hes He. split.
  - rewrite records_outcome_app, Hes. cbn. by rewrite He.
  - rewrite (collect_events_app es (e :: es') ms Hes). cbn.
    by rewrite He, app_nil_r.
Qed.

Lemma parse_events_no_write e l : EvOpenWrite l ∉ parse_events h e.
Proof.
  unfold parse_events. intros [?|H]%elem_of_cons; [done|].
  destruct (stat h (entry_location e)); [|by apply elem_of_nil in H].
  destruct (is_vector_name (entry_name e));
    [by apply list_elem_of_singleton in H|].
  destruct (is_raster_name (entry_name e));
    [by apply list_elem_of_singleton in H|by apply elem_of_nil in H].
Qed.

Lemma collect_events_no_write es l : EvOpenWrite l ∉ collect_events h es.
Proof.
  induction es as [|e es IH]; cbn [collect_events]; [by intros ?%elem_of_nil|].
  intros [H|H]%elem_of_app; [by apply parse_events_no_write in H|].
  destruct (parse_outcome h e); [done|by apply elem_of_nil in H].
Qed.

Lemma parse_outcome_independent (e : DirEntry) (s : Sys) :
  (parse_metadata h e s).1 = parse_outcome h e.
Proof. by rewrite parse_metadata_run. Qed.

End Inversions.

(** ** Dates *)

(** The conversion of a timestamp asks the host for its local-time rule
    only. *)
Lemma localtime_ext (u1 u2 : Z -> Z) (sec : Z) :
  (forall z, u1 z = u2 z) -> localtime u1 sec = localtime u2 sec.
Proof. intros H. unfold localtime. by rewrite H. Qed.

Lemma local_ext (u1 u2 : Z -> Z) (sec : Z) :
  (forall z, u1 z = u2 z) -> local u1 sec = local u2 sec.
Proof. intros H. unfold local. by rewrite (localtime_ext u1 u2 sec H). Qed.

Lemma fromtimestamp_ext (u1 u2 : Z -> Z) (t : float) :
  (forall z, u1 z = u2 z) -> fromtimestamp u1 t = fromtimestamp u2 t.
Proof.
  intros H. unfold fromtimestamp.
  destruct (timestamp_to_timeval t) as [[sec us]|]; [|done].
  cbn [mbind result_bind]. rewrite (localtime_ext u1 u2 sec H).
  destruct (localtime u2 sec) as [tm|]; [|done]. cbn [mbind result_bind].
  destruct (utc_to_seconds tm) as [rs|]; [|done]. cbn [mbind result_bind].
  rewrite (local_ext u1 u2 _ H).
  destruct (local u2 (sec - max_fold_seconds)) as [ps|]; [|done].
  cbn [mbind result_bind].
  destruct (rs - ps - max_fold_seconds <? 0); [|done].
  by rewrite (local_ext u1 u2 _ H).
Qed.

(** A timestamp that converts gives a date that [ctime()] can print: the
    year has four digits and the other fields are in their ranges. *)
Lemma fromtimestamp_Ok (u : Z -> Z) (t : float) (dt : datetime) :
  fromtimestamp u t = Ok dt ->
  exists sec,
    let loc := sec + u sec in
    (year dt, month dt, day dt) = civil_from_days (loc / 86400) /\
    hour dt = loc mod 86400 / 3600 /\
    minute dt = loc mod 86400 mod 3600 / 60 /\
    second dt = loc mod 86400 mod 60 /\
    1 <= year dt <= 9999.
Proof.
  unfold fromtimestamp.
  destruct (timestamp_to_timeval t) as [[sec us]|]; [|done].
  cbn [mbind result_bind]. unfold localtime.
  destruct (civil_from_days ((sec + u sec) / 86400)) as [[y m] d] eqn:Hciv.
  destruct ((- 2 ^ 31 <=? y - 1900) && (y - 1900 <? 2 ^ 31)); [|done].
  cbn [mbind result_bind]. unfold utc_to_seconds at 1. cbn [year].
  destruct ((1 <=? y) && (y <=? 9999)) eqn:Hy; [|done].
  cbn [mbind result_bind].
  destruct (local u (sec - max_fold_seconds)) as [ps|]; [|done].
  cbn [mbind result_bind].
  match goal with
  | |- context [if ?b then _ else _] => destruct b
  end.
  - destruct (local u _); [|done]. cbn [mbind result_bind].
    intros [= <-]. exists sec. cbn. rewrite Hciv. repeat split; lia.
  - cbn [mbind result_bind].
    intros [= <-]. exists sec. cbn. rewrite Hciv. repeat split; lia.
Qed.

(** ** Recognised suffixes *)

Lemma endswith_suffix (s suffix : string) :
  endswith s suffix = true <->
  String.list_ascii_of_string suffix `suffix_of` String.list_ascii_of_string s.
Proof. unfold endswith. apply bool_decide_eq_true. Qed.

Lemma endswith_exclusive (s a b : string) :
  ¬ String.list_ascii_of_string a `suffix_of` String.list_ascii_of_string b ->
  ¬ String.list_ascii_of_string b `suffix_of` String.list_ascii_of_string a ->
  endswith s a = true -> endswith s b = false.
Proof.
  intros Hab Hba Ha%endswith_suffix.
  apply not_true_is_false. intros Hb%endswith_suffix.
  by destruct (suffix_weak_total _ _ _ Ha Hb).
Qed.

Local Ltac not_suffix :=
  apply (bool_decide_eq_true_1 _); vm_compute; reflexivity.

(** No name has both a vector and a raster suffix. *)
Lemma raster_name_not_vector (n : string) :
  is_raster_name n = true -> is_vector_name n = false.
Proof.
  unfold is_raster_name, is_vector_name.
  intros [H|H]%orb_true_iff.
  - by rewrite (endswith_exclusive n ".tif" ".gpkg" ltac:(not_suffix) ltac:(not_suffix) H),
      (endswith_exclusive n ".tif" ".shp" ltac:(not_suffix) ltac:(not_suffix) H),
      (endswith_exclusive n ".tif" ".geojson" ltac:(not_suffix) ltac:(not_suffix) H).
  - by rewrite (endswith_exclusive n ".img" ".gpkg" ltac:(not_suffix) ltac:(not_suffix) H),
      (endswith_exclusive n ".img" ".shp" ltac:(not_suffix) ltac:(not_suffix) H),
      (endswith_exclusive n ".img" ".geojson" ltac:(not_suffix) ltac:(not_suffix) H).
Qed.

End CollectFacts.


(** ** The script against its specification *)

Module Properties.
Import PyNum PyTime Csv Collect Outcome Spec PyNumFacts CollectFacts Example.

(** ** Raster extent *)

(** The script never looks at the sixth element of the geotransform. *)
Lemma raster_extent_ignores_sixth_element
    (prj drv : string) (xmin xres r1 ymax r2 yres yres' : float) (w ht : Z) :
  raster_extent {| GetProjection := prj; GetDriver_LongName := drv;
                   GetGeoTransform := [xmin; xres; r1; ymax; r2; yres];
                   RasterXSize := w; RasterYSize := ht |}
  = raster_extent {| GetProjection := prj; GetDriver_LongName := drv;
                     GetGeoTransform := [xmin; xres; r1; ymax; r2; yres'];
                     RasterXSize := w; RasterYSize := ht |}.
Proof. reflexivity. Qed.

(** Where the fifth and the sixth element of the geotransform are equal the
    script computes the specification's extent. *)
Lemma raster_extent_spec_when_fifth_is_sixth
    (prj drv : string) (xmin xres r1 ymax yres : float) (w ht : Z) :
  let file := {| GetProjection := prj; GetDriver_LongName := drv;
                 GetGeoTransform := [xmin; xres; r1; ymax; yres; yres];
                 RasterXSize := w; RasterYSize := ht |} in
  raster_extent file = spec_raster_extent file.
Proof. reflexivity. Qed.

(** C1, at the specification's own example.  For the geotransform
    (100, 10, 0, 500, 0, -10) and 50 x 50 pixels the specification's
    formula gives the extent (100, 0, 600, 500); the script multiplies the
    height by the fifth element, the rotation term 0, and the record of
    [b.tif] carries the extent (100, 500, 600, 500). *)
Theorem raster_extent_example_uses_rotation_term :
  spec_raster_extent example_dataset = Ok (map float_lit [100; 0; 600; 500]) /\
  raster_extent example_dataset = Ok (map float_lit [100; 500; 600; 500]) /\
  (exists m, (parse_metadata host tif_entry empty_sys).1 = Ok (Some m) /\
             extent m = map float_lit [100; 500; 600; 500]) /\
  map float_lit [100; 500; 600; 500] <> map float_lit [100; 0; 600; 500].
Proof.
  split; [by vm_compute|]. split; [by vm_compute|]. split.
  - rewrite parse_metadata_run. cbn [fst]. eexists. split; by vm_compute.
  - by vm_compute.
Qed.

(** ** Size in mebibytes *)

Lemma volume_spec_volume (size : Z) :
  0 <= size < 2 ^ 63 -> volume size = spec_volume size.
Proof.
  intros Hs. unfold volume, spec_volume.
  rewrite <- (kib_kib_is_mib size Hs).
  by destruct (int_true_div size 1024).
Qed.

(** C4.  For every byte size the file system can report, the record's
    [volume_in_MB] is [round(size / 1048576, 2)]: dividing twice by 1024
    rounds to the very float that one division by 1048576 rounds to. *)
Theorem record_volume_is_round_of_mebibytes
    (h : Host) (name : string) (st : stat_result) (si : SpatialInformation)
    (m : Metadata) :
  0 <= st_size st < 2 ^ 63 ->
  metadata_creator h name st si = Ok m ->
  spec_volume (st_size st) = Ok (volume_in_MB m).
Proof.
  intros Hs (v & c & u & Hv & _ & _ & ->)%metadata_creator_Ok.
  by rewrite <- volume_spec_volume.
Qed.

Lemma record_volume_is_round_of_mebibytes_witness :
  exists m,
    metadata_creator host "b.tif" example_stat
      {| si_extent := []; si_format := "GeoTIFF";
         si_spatial_reference := ""; si_data_type := "raster" |} = Ok m /\
    spec_volume 3145728 = Ok (volume_in_MB m).
Proof.
  eexists. split; [by vm_compute|].
  apply (record_volume_is_round_of_mebibytes host "b.tif" example_stat
           {| si_extent := []; si_format := "GeoTIFF";
              si_spatial_reference := ""; si_data_type := "raster" |});
    [by vm_compute|by vm_compute].
Defined.

(** ** Dates *)

(** C6.  In every record [creation_date] is the formatted [st_ctime] and
    [update_date] the formatted [st_atime]; the modification time plays no
    part: the record is the same whatever [st_mtime] is. *)
Theorem record_dates_are_ctime_and_atime
    (h : Host) (name : string) (st : stat_result) (si : SpatialInformation)
    (m : Metadata) :
  metadata_creator h name st si = Ok m ->
  date_string h (st_ctime st) = Ok (creation_date m) /\
  date_string h (st_atime st) = Ok (update_date m) /\
  forall t, metadata_creator h name (with_mtime st t) si = Ok m.
Proof.
  intros Hm. pose proof Hm as (v & c & u & Hv & Hc & Hu & ->)%metadata_creator_Ok.
  cbn. by repeat split.
Qed.

Lemma record_dates_are_ctime_and_atime_witness :
  exists m,
    metadata_creator host "a.geojson" example_stat
      (vector_information example_collection) = Ok m /\
    creation_date m = "Tue Nov 14 22:13:20 2023"%string /\
    update_date m = "Tue Nov 14 22:15:00 2023"%string /\
    date_string host (st_mtime example_stat) = Ok "Tue Nov 14 22:14:10 2023"%string /\
    date_string host (st_atime example_stat) = Ok (update_date m).
Proof.
  eexists. split; [by vm_compute|].
  split; [by vm_compute|]. split; [by vm_compute|]. split; [by vm_compute|].
  apply (record_dates_are_ctime_and_atime host "a.geojson" example_stat
           (vector_information example_collection)).
  by vm_compute.
Defined.

(** ** Invariants of a record *)

Lemma volume_nonneg (size : Z) (v : float) :
  0 <= size -> volume size = Ok v -> nonneg v = true.
Proof.
  intros Hs. unfold volume.
  destruct (int_true_div size 1024) as [kb|] eqn:Ekb; [|done]. cbn [mbind result_bind].
  destruct (float_div_int kb 1024) as [mb|] eqn:Emb; [|done]. cbn [mbind result_bind].
  intros Hv. apply sign_positive_nonneg.
  apply (round_sign_positive mb v 2); [|done].
  apply (float_div_int_sign_positive kb mb 1024); [lia| |done].
  by apply (int_true_div_sign_positive size 1024).
Qed.

(** C8.  Every record that [parse_metadata] produces has [data_type]
    "vector" or "raster" and an extent of four elements, and, when the
    reported size is not negative, a [volume_in_MB] that is not negative. *)
Theorem record_invariants
    (h : Host) (e : DirEntry) (s : Sys) (m : Metadata) :
  (parse_metadata h e s).1 = Ok (Some m) ->
  (data_type m = "vector"%string \/ data_type m = "raster"%string) /\
  length (extent m) = 4%nat /\
  ((forall st, stat h (entry_location e) = Ok st -> 0 <= st_size st) ->
   nonneg (volume_in_MB m) = true).
Proof.
  rewrite parse_metadata_run. cbn [fst].
  intros (st & si & Hst & Hm & Hsi)%parse_outcome_Some.
  apply metadata_creator_Ok in Hm as (v & c & u & Hv & _ & _ & ->). cbn.
  assert ((si_data_type si = "vector"%string \/ si_data_type si = "raster"%string)
          /\ length (si_extent si) = 4%nat) as [Ht Hx].
  { destruct Hsi as [(_ & file & _ & ->)|(_ & _ & file & _ & Hr)].
    - destruct (vector_information_shape file); auto.
    - destruct (raster_information_Ok _ _ Hr); auto. }
  repeat split; try done.
  intros Hsize. eapply volume_nonneg; [|done]. by apply Hsize.
Qed.

Lemma record_invariants_witness :
  exists m,
    (parse_metadata host tif_entry empty_sys).1 = Ok (Some m) /\
    (data_type m = "vector"%string \/ data_type m = "raster"%string) /\
    length (extent m) = 4%nat /\
    nonneg (volume_in_MB m) = true.
Proof.
  eexists. split; [by vm_compute|].
  destruct (record_invariants host tif_entry empty_sys _ ltac:(by vm_compute))
    as (Ht & Hx & Hv).
  split; [exact Ht|]. split; [exact Hx|].
  apply Hv. intros st. vm_compute. intros [= <-]. done.
Defined.

(** ** Dispatch on the suffix *)

(** C3 as stated fails in three ways.  The entry [c.txt] has no recognised
    suffix, and when its [stat] call fails [parse_metadata] raises instead
    of skipping it.  The entry [b.tif] has a raster suffix, and when the
    library cannot read it no record is produced.  The entry [a.geojson]
    has a vector suffix, and when its change time cannot be turned into a
    date no record is produced. *)
Lemma recognised_suffix_is_not_enough :
  (is_vector_name (entry_name txt_entry) = false /\
   is_raster_name (entry_name txt_entry) = false /\
   (parse_metadata host_vanished txt_entry empty_sys).1 = Err (OSError 2)) /\
  (is_raster_name (entry_name tif_entry) = true /\
   (parse_metadata host_corrupt tif_entry empty_sys).1
   = Err (LibraryError "AttributeError")) /\
  (is_vector_name (entry_name geojson_entry) = true /\
   (parse_metadata host_far_future geojson_entry empty_sys).1 = Err (OSError 75)).
Proof. by vm_compute. Qed.

(** C3, amended.  For an entry whose [stat] call succeeds: with a vector
    suffix the record that the vector read and the assembly give is
    produced, and its [data_type] is "vector"; with a raster suffix,
    likewise with "raster"; with any other suffix no record is produced
    and nothing is raised. *)
Theorem parse_metadata_dispatch
    (h : Host) (e : DirEntry) (s : Sys) (st : stat_result) :
  stat h (entry_location e) = Ok st ->
  (is_vector_name (entry_name e) = true ->
   forall file m,
     fiona_open h (opened_location h e) = Ok file ->
     metadata_creator h (entry_name e) st (vector_information file) = Ok m ->
     (parse_metadata h e s).1 = Ok (Some m) /\ data_type m = "vector"%string) /\
  (is_raster_name (entry_name e) = true ->
   forall file si m,
     gdal_open h (opened_location h e) = Ok file ->
     raster_information file = Ok si ->
     metadata_creator h (entry_name e) st si = Ok m ->
     (parse_metadata h e s).1 = Ok (Some m) /\ data_type m = "raster"%string) /\
  (is_vector_name (entry_name e) = false ->
   is_raster_name (entry_name e) = false ->
   (parse_metadata h e s).1 = Ok None).
Proof.
  intros Hst. rewrite parse_metadata_run. cbn [fst]. unfold parse_outcome.
  rewrite Hst. cbn [mbind result_bind]. split; [|split].
  - intros Hv file m Hfile Hm. rewrite Hv, Hfile. cbn [mbind result_bind].
    rewrite Hm. split; [done|].
    apply metadata_creator_Ok in Hm as (? & ? & ? & _ & _ & _ & ->).
    cbn. by destruct (vector_information_shape file).
  - intros Hr file si m Hfile Hsi Hm.
    rewrite (raster_name_not_vector _ Hr), Hr, Hfile. cbn [mbind result_bind].
    rewrite Hsi. cbn [mbind result_bind]. rewrite Hm. split; [done|].
    apply metadata_creator_Ok in Hm as (? & ? & ? & _ & _ & _ & ->).
    cbn. by destruct (raster_information_Ok _ _ Hsi).
  - by intros -> ->.
Qed.

Lemma parse_metadata_dispatch_witness :
  (exists m, (parse_metadata host geojson_entry empty_sys).1 = Ok (Some m) /\
             data_type m = "vector"%string) /\
  (exists m, (parse_metadata host tif_entry empty_sys).1 = Ok (Some m) /\
             data_type m = "raster"%string) /\
  (parse_metadata host txt_entry empty_sys).1 = Ok None.
Proof.
  split; [|split].
  - destruct (parse_metadata_dispatch host geojson_entry empty_sys example_stat
                ltac:(by vm_compute)) as (Hvector & _ & _).
    eexists. apply (Hvector ltac:(by vm_compute) example_collection);
      by vm_compute.
  - destruct (parse_metadata_dispatch host tif_entry empty_sys example_stat
                ltac:(by vm_compute)) as (_ & Hraster & _).
    eexists. eapply (Hraster ltac:(by vm_compute) example_dataset);
      by vm_compute.
  - destruct (parse_metadata_dispatch host txt_entry empty_sys example_stat
                ltac:(by vm_compute)) as (_ & _ & Hother).
    apply Hother; by vm_compute.
Defined.

(** ** Failures during the enumeration *)

Lemma entries_succeed (h : Host) (s : Sys) (es : list DirEntry) :
  Forall (fun e => is_Ok (parse_metadata h e s).1) es ->
  exists ms, records_outcome h es = Ok ms.
Proof.
  intros H. apply records_outcome_is_Ok.
  eapply Forall_impl; [exact H|]. intros e He. cbn beta in He.
  by rewrite parse_outcome_independent in He.
Qed.

(** A scan that meets an entry on which [parse_metadata] raises, after
    entries that it handles: the exception leaves [scan_directory], the
    written files are as before, the last call made is the last call of
    that entry, and no file was opened for writing.  The outcome of
    [parse_metadata] on an entry is the same in every state
    ([parse_outcome_independent]), so the state in which the earlier
    entries are said to be handled does not matter. *)
Lemma scan_raises_at_entry
    (h : Host) (path : option string) (s : Sys)
    (pre : list string) (n : string) (post : list string) (err : exn) :
  let dir := default (script_dir h) path in
  let e := {| entry_dir := dir; entry_name := n |} in
  listdir h dir = Ok (pre ++ n :: post) ->
  Forall (fun e => is_Ok (parse_metadata h e s).1) (entries dir pre) ->
  parse_outcome h e = Err err ->
  (scan_directory h path s).1 = Err err /\
  files (scan_directory h path s).2 = files s /\
  last (new_calls s (scan_directory h path s).2) = last (parse_events h e) /\
  forall l, EvOpenWrite l ∉ new_calls s (scan_directory h path s).2.
Proof.
  intros dir e Hls Hpre He.
  destruct (entries_succeed h s _ Hpre) as [ms Hms].
  destruct (records_outcome_first_error h (entries dir pre) e (entries dir post)
              ms err Hms He) as [Hrec Hev].
  change (entries dir pre ++ e :: entries dir post)
    with (entries dir pre ++ entries dir (n :: post)) in Hrec, Hev.
  rewrite <- entries_app in Hrec, Hev.
  rewrite (scan_directory_raises h path _ err s Hls Hrec). cbn [fst snd].
  fold dir. rewrite new_calls_logged, Hev. repeat split.
  - rewrite app_comm_cons, last_app. unfold parse_events. rewrite last_cons.
    by destruct (last _).
  - intros l [?|[H|H]%elem_of_app]%elem_of_cons; [done| |].
    + by apply collect_events_no_write in H.
    + by apply parse_events_no_write in H.
Qed.

(** C5.  When the geospatial library fails on a recognised entry that the
    scan reaches, its exception leaves [scan_directory], [metadata.csv]
    and every other file are as they were, and no file was opened for
    writing. *)
Theorem library_failure_aborts_scan
    (h : Host) (path : option string) (s : Sys)
    (pre : list string) (n : string) (post : list string)
    (st : stat_result) (err : exn) :
  let dir := default (script_dir h) path in
  listdir h dir = Ok (pre ++ n :: post) ->
  Forall (fun e => is_Ok (parse_metadata h e s).1) (entries dir pre) ->
  stat h (Loc dir n) = Ok st ->
  (is_vector_name n = true /\ fiona_open h (Loc (cwd h) n) = Err err) \/
  (is_raster_name n = true /\ gdal_open h (Loc (cwd h) n) = Err err) ->
  (scan_directory h path s).1 = Err err /\
  files (scan_directory h path s).2 = files s /\
  forall l, EvOpenWrite l ∉ new_calls s (scan_directory h path s).2.
Proof.
  intros dir Hls Hpre Hst Hfail.
  assert (parse_outcome h {| entry_dir := dir; entry_name := n |} = Err err) as He.
  { unfold parse_outcome, entry_location, opened_location. cbn [entry_dir entry_name].
    rewrite Hst. cbn [mbind result_bind].
    destruct Hfail as [[Hv Hopen]|[Hr Hopen]].
    - by rewrite Hv, Hopen.
    - by rewrite (raster_name_not_vector _ Hr), Hr, Hopen. }
  destruct (scan_raises_at_entry h path s pre n post err Hls Hpre He)
    as (Hres & Hfiles & _ & Hwrite).
  done.
Qed.

Lemma library_failure_aborts_scan_witness :
  (scan_directory host_corrupt (Some "/data"%string) stale_sys).1
    = Err (LibraryError "AttributeError") /\
  files (scan_directory host_corrupt (Some "/data"%string) stale_sys).2
    = files stale_sys /\
  forall l, EvOpenWrite l
    ∉ new_calls stale_sys (scan_directory host_corrupt (Some "/data"%string) stale_sys).2.
Proof.
  apply (library_failure_aborts_scan host_corrupt (Some "/data"%string) stale_sys
           ["a.geojson"%string] "b.tif"%string ["c.txt"%string] example_stat).
  - by vm_compute.
  - apply Forall_cons; split; [by vm_compute|by apply Forall_nil].
  - by vm_compute.
  - right. split; by vm_compute.
Defined.

(** C10.  [parse_metadata] calls [stat] before it looks at the name: when
    the [stat] of an entry fails, whatever its suffix, the exception
    leaves [scan_directory], that [stat] is the last call made, and
    nothing is written. *)
Theorem stat_failure_aborts_scan
    (h : Host) (path : option string) (s : Sys)
    (pre : list string) (n : string) (post : list string) (err : exn) :
  let dir := default (script_dir h) path in
  listdir h dir = Ok (pre ++ n :: post) ->
  Forall (fun e => is_Ok (parse_metadata h e s).1) (entries dir pre) ->
  stat h (Loc dir n) = Err err ->
  (scan_directory h path s).1 = Err err /\
  files (scan_directory h path s).2 = files s /\
  last (new_calls s (scan_directory h path s).2) = Some (EvStat (Loc dir n)) /\
  forall l, EvOpenWrite l ∉ new_calls s (scan_directory h path s).2.
Proof.
  intros dir Hls Hpre Hst.
  assert (parse_outcome h {| entry_dir := dir; entry_name := n |} = Err err) as He.
  { unfold parse_outcome, entry_location. cbn [entry_dir entry_name]. by rewrite Hst. }
  destruct (scan_raises_at_entry h path s pre n post err Hls Hpre He)
    as (Hres & Hfiles & Hlast & Hwrite).
  repeat split; try done.
  rewrite Hlast. unfold parse_events, entry_location. cbn [entry_dir entry_name].
  fold dir. by rewrite Hst.
Qed.

Lemma stat_failure_aborts_scan_witness :
  (scan_directory host_vanished (Some "/data"%string) stale_sys).1 = Err (OSError 2) /\
  files (scan_directory host_vanished (Some "/data"%string) stale_sys).2
    = files stale_sys /\
  last (new_calls stale_sys (scan_directory host_vanished (Some "/data"%string) stale_sys).2)
    = Some (EvStat (Loc "/data" "c.txt")) /\
  forall l, EvOpenWrite l
    ∉ new_calls stale_sys (scan_directory host_vanished (Some "/data"%string) stale_sys).2.
Proof.
  apply (stat_failure_aborts_scan host_vanished (Some "/data"%string) stale_sys
           ["a.geojson"%string; "b.tif"%string] "c.txt"%string []).
  - by vm_compute.
  - apply Forall_cons; split; [by vm_compute|].
    apply Forall_cons; split; [by vm_compute|by apply Forall_nil].
  - by vm_compute.
Defined.

(** ** Where files are opened *)

(** The calls of a scan of a directory that could be listed: the listing,
    the calls of the loop, and the opening of the report when the loop has
    ended normally. *)
Lemma scan_calls (h : Host) (path : option string) (s : Sys) (names : list string) :
  let dir := default (script_dir h) path in
  listdir h dir = Ok names ->
  exists tail : list event,
    new_calls s (scan_directory h path s).2
    = EvScandir dir :: collect_events h (entries dir names) ++ tail /\
    (tail = [] \/ tail = [EvOpenWrite (output_location h)]).
Proof.
  intros dir Hls.
  destruct (records_outcome h (entries dir names)) as [ms|err] eqn:Hrec.
  - rewrite (scan_directory_completes h path names ms s Hls Hrec).
    exists [EvOpenWrite (output_location h)].
    split; [|by right]. unfold new_calls. cbn. apply drop_app_length.
  - rewrite (scan_directory_raises h path names err s Hls Hrec).
    exists []. split; [|by left]. cbn [snd].
    by rewrite new_calls_logged, app_nil_r.
Qed.

(** The calls of the loop on a listing whose entries before [n] are
    handled hold the calls made for [n]. *)
Lemma collect_events_reached (h : Host) (s : Sys) (dir : string)
    (pre : list string) (n : string) (post : list string) (ev : event) :
  Forall (fun e => is_Ok (parse_metadata h e s).1) (entries dir pre) ->
  ev ∈ parse_events h {| entry_dir := dir; entry_name := n |} ->
  ev ∈ collect_events h (entries dir (pre ++ n :: post)).
Proof.
  intros Hpre Hev.
  destruct (entries_succeed h s _ Hpre) as [ms Hms].
  rewrite entries_app, (collect_events_app h _ _ ms Hms).
  apply elem_of_app; right.
  cbn [entries map collect_events]. apply elem_of_app; by left.
Qed.

(** C2.  A scan reaches the entry [n] of the scanned directory when the
    entries before it are handled and its [stat] succeeds.  If [n] has a
    vector suffix the scan then calls [fiona.open], and if it has a raster
    suffix [gdal.Open], on the file called [n] in the current working
    directory, whatever directory is scanned: an exception of that call
    ends the scan, and the record of [n] carries what the library found
    there.  No call of the scan to either library names any other kind of
    file: each one is for a recognised entry that was [stat]ed in the
    scanned directory and names the file of that name in the working
    directory. *)
Theorem scan_opens_by_name_in_cwd
    (h : Host) (path : option string) (s : Sys)
    (pre : list string) (n : string) (post : list string) (st : stat_result) :
  let dir := default (script_dir h) path in
  let sourcefile := {| entry_dir := dir; entry_name := n |} in
  let opened := Loc (cwd h) n in
  let calls := new_calls s (scan_directory h path s).2 in
  listdir h dir = Ok (pre ++ n :: post) ->
  Forall (fun e => is_Ok (parse_metadata h e s).1) (entries dir pre) ->
  stat h (Loc dir n) = Ok st ->
  (is_vector_name n = true ->
   EvFionaOpen opened ∈ calls /\
   (forall err, fiona_open h opened = Err err ->
                (scan_directory h path s).1 = Err err) /\
   (forall file m,
      fiona_open h opened = Ok file ->
      (parse_metadata h sourcefile s).1 = Ok (Some m) ->
      format m = driver file /\ spatial_reference m = crs_string file)) /\
  (is_raster_name n = true ->
   EvGdalOpen opened ∈ calls /\
   (forall err, gdal_open h opened = Err err ->
                (scan_directory h path s).1 = Err err) /\
   (forall file m,
      gdal_open h opened = Ok file ->
      (parse_metadata h sourcefile s).1 = Ok (Some m) ->
      format m = GetDriver_LongName file /\
      spatial_reference m = GetProjection file)) /\
  (forall l,
     EvFionaOpen l ∈ calls \/ EvGdalOpen l ∈ calls ->
     exists n',
       EvStat (Loc dir n') ∈ calls /\
       (is_vector_name n' || is_raster_name n') = true /\
       l = Loc (cwd h) n').
Proof.
  intros dir sourcefile opened calls Hls Hpre Hst.
  destruct (scan_calls h path s _ Hls) as (tail & Hcalls & Htail).
  fold dir in Hcalls. fold calls in Hcalls.
  assert (forall ev, ev ∈ parse_events h sourcefile -> ev ∈ calls) as Hreached.
  { intros ev Hev. rewrite Hcalls. apply elem_of_cons; right.
    apply elem_of_app; left. by apply (collect_events_reached h s). }
  split; [|split].
  - intros Hvec. split; [|split].
    + apply Hreached. unfold parse_events, sourcefile, entry_location.
      cbn [entry_dir entry_name]. rewrite Hst, Hvec.
      apply elem_of_cons; right. by apply list_elem_of_singleton.
    + intros err Herr.
      apply (scan_raises_at_entry h path s pre n post err Hls Hpre).
      unfold parse_outcome, entry_location, opened_location.
      cbn [entry_dir entry_name]. fold dir. rewrite Hst. cbn [mbind result_bind].
      rewrite Hvec. fold opened. by rewrite Herr.
    + intros file m Hfile. rewrite parse_outcome_independent.
      unfold parse_outcome, sourcefile, entry_location, opened_location.
      cbn [entry_dir entry_name]. rewrite Hst. cbn [mbind result_bind].
      rewrite Hvec. fold opened. rewrite Hfile. cbn [mbind result_bind].
      destruct (metadata_creator h n st (vector_information file)) as [m'|] eqn:Hm;
        [|done].
      intros [= <-].
      apply metadata_creator_Ok in Hm as (v & c & u & _ & _ & _ & ->).
      cbn [format spatial_reference]. unfold vector_information.
      by destruct (bounds file) as [[[? ?] ?] ?].
  - intros Hras. pose proof (raster_name_not_vector n Hras) as Hvec.
    split; [|split].
    + apply Hreached. unfold parse_events, sourcefile, entry_location.
      cbn [entry_dir entry_name]. rewrite Hst, Hvec, Hras.
      apply elem_of_cons; right. by apply list_elem_of_singleton.
    + intros err Herr.
      apply (scan_raises_at_entry h path s pre n post err Hls Hpre).
      unfold parse_outcome, entry_location, opened_location.
      cbn [entry_dir entry_name]. fold dir. rewrite Hst. cbn [mbind result_bind].
      rewrite Hvec, Hras. fold opened. by rewrite Herr.
    + intros file m Hfile. rewrite parse_outcome_independent.
      unfold parse_outcome, sourcefile, entry_location, opened_location.
      cbn [entry_dir entry_name]. rewrite Hst. cbn [mbind result_bind].
      rewrite Hvec, Hras. fold opened. rewrite Hfile. cbn [mbind result_bind].
      unfold raster_information.
      destruct (raster_extent file) as [ext|]; [|done]. cbn [mbind result_bind].
      destruct (metadata_creator h n st _) as [m'|] eqn:Hm; [|done].
      intros [= <-].
      by apply metadata_creator_Ok in Hm as (v & c & u & _ & _ & _ & ->).
  - intros l Hl.
    assert (EvFionaOpen l ∈ collect_events h (entries dir (pre ++ n :: post)) \/
            EvGdalOpen l ∈ collect_events h (entries dir (pre ++ n :: post))) as Hin.
    { rewrite Hcalls in Hl.
      destruct Hl as [Hl|Hl]; apply elem_of_cons in Hl as [?|Hl]; try done;
        apply elem_of_app in Hl as [?|Hl]; auto;
        destruct Htail as [->| ->]; try (by apply elem_of_nil in Hl);
        by apply list_elem_of_singleton in Hl. }
    destruct (collect_events_open h dir _ l Hin) as (n' & Hstat & Hrec & ->).
    exists n'. split; [|done].
    rewrite Hcalls. apply elem_of_cons; right. apply elem_of_app; by left.
Qed.

(** The directory [/data] scanned from [/work]: the library is asked for
    [/work/a.geojson], and the record shows that file's reference system,
    not the one of [/data/a.geojson]; it is then asked for [/work/b.tif],
    which does not exist, and the scan ends there although [/data/b.tif]
    is a readable raster. *)
Lemma scan_opens_by_name_in_cwd_witness :
  (fiona_open host_work (Loc "/data" "a.geojson") = Ok example_collection /\
   EvFionaOpen (Loc "/work" "a.geojson")
     ∈ new_calls empty_sys (scan_directory host_work (Some "/data"%string) empty_sys).2 /\
   forall m,
     (parse_metadata host_work geojson_entry empty_sys).1 = Ok (Some m) ->
     spatial_reference m = "EPSG:3857"%string) /\
  (gdal_open host_work (Loc "/data" "b.tif") = Ok example_dataset /\
   EvGdalOpen (Loc "/work" "b.tif")
     ∈ new_calls empty_sys (scan_directory host_work (Some "/data"%string) empty_sys).2 /\
   (scan_directory host_work (Some "/data"%string) empty_sys).1
   = Err (LibraryError "AttributeError")).
Proof.
  split.
  - destruct (scan_opens_by_name_in_cwd host_work (Some "/data"%string) empty_sys
                [] "a.geojson" ["b.tif"; "c.txt"]%string example_stat)
      as ((Hcall & _ & Hdata) & _ & _).
    + reflexivity.
    + constructor.
    + reflexivity.
    + reflexivity.
    + split; [reflexivity|]. split; [exact Hcall|].
      intros m Hm.
      apply (Hdata other_collection m); [reflexivity|exact Hm].
  - destruct (scan_opens_by_name_in_cwd host_work (Some "/data"%string) empty_sys
                ["a.geojson"]%string "b.tif" ["c.txt"]%string example_stat)
      as (_ & (Hcall & Herr & _) & _).
    + reflexivity.
    + constructor; [by vm_compute|constructor].
    + reflexivity.
    + reflexivity.
    + split; [reflexivity|]. split; [exact Hcall|].
      apply Herr. reflexivity.
Defined.

(** ** The written report *)

Lemma records_of_outcomes (h : Host) (s : Sys)
    (es : list DirEntry) (outcomes : list (option Metadata)) :
  Forall2 (fun e o => (parse_metadata h e s).1 = Ok o) es outcomes ->
  records_outcome h es = Ok (omap id outcomes).
Proof.
  induction 1 as [|e o es os He _ IH]; [done|].
  rewrite parse_outcome_independent in He. cbn [records_outcome].
  rewrite He, IH. by destruct o.
Qed.

Lemma header_line_columns : header_line = line fields_names.
Proof. reflexivity. Qed.

(** The line of a row of eight fields. *)
Lemma line_of_eight (a b c d e f g k : string) :
  line [a; b; c; d; e; f; g; k]
  = (String.concat "," (map field_text [a; b; c; d; e; f; g; k])
     ++ String "013" (String "010" EmptyString))%string.
Proof. unfold line. by destruct a. Qed.

(** C7.  When every entry is handled and the host lets the report be
    opened, written and closed, [scan_directory] returns normally and the
    file [metadata.csv] of the current working directory holds, whatever
    it held before, the header line with the eight column names in their
    order, then one line per record in enumeration order, each with the
    eight cells in column order, separated by commas and ended by CR LF;
    other files are untouched, and without any record the header line
    alone is written. *)
Theorem scan_writes_header_and_rows
    (h : Host) (path : option string) (s : Sys)
    (names : list string) (outcomes : list (option Metadata)) :
  let dir := default (script_dir h) path in
  let report := Loc (cwd h) "metadata.csv" in
  let records := omap id outcomes in
  let crlf := String "013" (String "010" EmptyString) in
  let header :=
    ("name,data_type,format,volume_in_MB,spatial_reference,extent,creation_date,update_date"
     ++ crlf)%string in
  let row := fun m : Metadata =>
    (String.concat ","
       (map field_text
          [name m; data_type m; format m; repr_float h (volume_in_MB m);
           spatial_reference m; repr_tuple (repr_float h) (extent m);
           creation_date m; update_date m])
     ++ crlf)%string in
  listdir h dir = Ok names ->
  Forall2 (fun e o => (parse_metadata h e s).1 = Ok o) (entries dir names) outcomes ->
  accepts h report (header :: map row records) ->
  (scan_directory h path s).1 = Ok tt /\
  files (scan_directory h path s).2
    = <[report := (header ++ String.concat "" (map row records))%string]> (files s) /\
  (records = [] ->
   files (scan_directory h path s).2 !! report = Some header).
Proof.
  intros dir report records crlf header row Hls Hout Hacc.
  pose proof (records_of_outcomes h s _ _ Hout) as Hrec.
  assert (map row records = map (record_line h) records) as Hrows.
  { apply map_ext. intros m. unfold row, record_line. by rewrite line_of_eight. }
  rewrite Hrows in *.
  change header with header_line in *.
  rewrite (scan_directory_completes h path names records s Hls Hrec).
  rewrite (report_outcome_accepted h records Hacc).
  cbn [fst snd files reported]. fold report.
  split; [done|]. split; [done|].
  intros ->. rewrite lookup_insert_eq. cbn [map].
  change (record_lines h []) with EmptyString.
  by rewrite append_empty_r.
Qed.

Lemma scan_writes_header_and_rows_witness :
  (scan_directory host (Some "/data"%string) stale_sys).1 = Ok tt /\
  files (scan_directory host (Some "/data"%string) stale_sys).2 !! Loc "/data" "metadata.csv"
    = Some expected_report.
Proof.
  destruct (scan_writes_header_and_rows host (Some "/data"%string) stale_sys
              ["a.geojson"; "b.tif"; "c.txt"]%string
              [Some geojson_record; Some tif_record; None]) as (Hres & Hfiles & _).
  - reflexivity.
  - repeat (constructor; [by vm_compute|]). constructor.
  - split; [reflexivity|]. split; [|reflexivity]. intros pre text post _. reflexivity.
  - split; [exact Hres|]. rewrite Hfiles. by vm_compute.
Defined.

(** ** Determinism *)

Section Agreement.

Variables h1 h2 : Host.
Hypothesis Hagree : hosts_agree h1 h2.

Lemma date_string_agree (t : float) : date_string h1 t = date_string h2 t.
Proof.
  unfold date_string.
  by rewrite (fromtimestamp_ext _ _ t (agree_utcoffset _ _ Hagree)).
Qed.

Lemma metadata_creator_agree name st si :
  metadata_creator h1 name st si = metadata_creator h2 name st si.
Proof. unfold metadata_creator. by rewrite !date_string_agree. Qed.

Lemma parse_outcome_agree (e : DirEntry) : parse_outcome h1 e = parse_outcome h2 e.
Proof.
  unfold parse_outcome, opened_location.
  rewrite (agree_stat _ _ Hagree), (agree_cwd _ _ Hagree),
    (agree_fiona_open _ _ Hagree), (agree_gdal_open _ _ Hagree).
  destruct (stat h2 (entry_location e)) as [st|]; [|done]. cbn [mbind result_bind].
  destruct (is_vector_name (entry_name e)).
  - destruct (fiona_open h2 _); [|done]. cbn [mbind result_bind].
    by rewrite metadata_creator_agree.
  - destruct (is_raster_name (entry_name e)); [|done].
    destruct (gdal_open h2 _) as [file|]; [|done]. cbn [mbind result_bind].
    destruct (raster_information file); [|done]. cbn [mbind result_bind].
    by rewrite metadata_creator_agree.
Qed.

Lemma records_outcome_agree (es : list DirEntry) :
  records_outcome h1 es = records_outcome h2 es.
Proof.
  induction es as [|e es IH]; [done|]. cbn [records_outcome].
  by rewrite parse_outcome_agree, IH.
Qed.

Lemma record_line_agree (m : Metadata) : record_line h1 m = record_line h2 m.
Proof.
  unfold record_line, repr_tuple.
  rewrite (agree_repr_float _ _ Hagree).
  rewrite (map_ext _ _ (agree_repr_float _ _ Hagree)).
  destruct (extent m) as [|x [|y xs]]; [done| |done].
  by rewrite (agree_repr_float _ _ Hagree).
Qed.

Lemma record_lines_agree (ms : list Metadata) :
  record_lines h1 ms = record_lines h2 ms.
Proof.
  unfold record_lines. f_equal. apply map_ext. intros m. apply record_line_agree.
Qed.

Lemma writes_outcome_agree (l : location) (texts : list string) : forall written,
  writes_outcome h1 l written texts = writes_outcome h2 l written texts.
Proof.
  induction texts as [|text texts IH]; intros written; [done|].
  cbn [writes_outcome]. rewrite (agree_file_write _ _ Hagree).
  destruct (file_write h2 l written text); [apply IH|done].
Qed.

Lemma report_outcome_agree (ms : list Metadata) :
  report_outcome h1 ms = report_outcome h2 ms.
Proof.
  unfold report_outcome, output_location.
  rewrite (agree_cwd _ _ Hagree), (agree_open_write _ _ Hagree).
  destruct (open_write h2 _); [|done].
  rewrite (map_ext _ _ record_line_agree), writes_outcome_agree.
  destruct (writes_outcome h2 _ _ _) as [r written].
  by rewrite (agree_file_close _ _ Hagree).
Qed.

End Agreement.

(** The report is a function of what the host answers: two scans over
    hosts that give the same listing, the same stat results and the same
    library outputs, in the same time zone, end alike, and when they end
    normally the two [metadata.csv] have the same content, whatever was in
    the file stores before. *)
Lemma scan_depends_on_host_answers
    (h1 h2 : Host) (path : option string) (s1 s2 : Sys) :
  hosts_agree h1 h2 ->
  (scan_directory h1 path s1).1 = (scan_directory h2 path s2).1 /\
  ((scan_directory h1 path s1).1 = Ok tt ->
   files (scan_directory h1 path s1).2 !! output_location h1
   = files (scan_directory h2 path s2).2 !! output_location h2 /\
   is_Some (files (scan_directory h1 path s1).2 !! output_location h1)).
Proof.
  intros Hagree.
  set (dir1 := default (script_dir h1) path).
  set (dir2 := default (script_dir h2) path).
  assert (dir1 = dir2) as Hdir
    by (unfold dir1, dir2; by rewrite (agree_script_dir _ _ Hagree)).
  destruct (listdir h2 dir2) as [names|err] eqn:Hls2.
  - assert (listdir h1 dir1 = Ok names) as Hls1
      by (by rewrite (agree_listdir _ _ Hagree), Hdir).
    destruct (records_outcome h2 (entries dir2 names)) as [ms|err] eqn:Hrec2.
    + assert (records_outcome h1 (entries dir1 names) = Ok ms) as Hrec1
        by (by rewrite (records_outcome_agree h1 h2 Hagree), Hdir).
      rewrite (scan_directory_completes h1 path names ms s1 Hls1 Hrec1),
        (scan_directory_completes h2 path names ms s2 Hls2 Hrec2).
      cbn [fst snd files]. rewrite (report_outcome_agree h1 h2 Hagree).
      split; [done|]. intros Hok.
      destruct (report_outcome_opened h2 ms Hok) as [written ->].
      unfold reported. rewrite !lookup_insert_eq. eauto.
    + assert (records_outcome h1 (entries dir1 names) = Err err) as Hrec1
        by (by rewrite (records_outcome_agree h1 h2 Hagree), Hdir).
      rewrite (scan_directory_raises h1 path names err s1 Hls1 Hrec1),
        (scan_directory_raises h2 path names err s2 Hls2 Hrec2).
      by cbn [fst].
  - assert (listdir h1 dir1 = Err err) as Hls1
      by (by rewrite (agree_listdir _ _ Hagree), Hdir).
    rewrite (scan_directory_listdir_raises h1 path err s1 Hls1),
      (scan_directory_listdir_raises h2 path err s2 Hls2).
    by cbn [fst].
Qed.

Lemma host_agrees_with_itself (h : Host) : hosts_agree h h.
Proof. by split. Qed.

(** C9.  The scan run twice over an unchanged directory, that is over a
    host that answers the second run as it answered the first: the second
    run ends as the first did, and when they end normally the
    [metadata.csv] it leaves has the content that the first run left, the
    first report being replaced and not extended. *)
Theorem scan_twice_same_report
    (h : Host) (path : option string) (s : Sys) :
  let first := scan_directory h path s in
  let second := scan_directory h path first.2 in
  second.1 = first.1 /\
  (first.1 = Ok tt ->
   exists content,
     files first.2 !! output_location h = Some content /\
     files second.2 !! output_location h = Some content).
Proof.
  intros first second.
  destruct (scan_depends_on_host_answers h h path s first.2
              (host_agrees_with_itself h)) as [Hres Hfile].
  split; [done|]. intros Hok.
  destruct (Hfile Hok) as [Heq [content Hcontent]].
  exists content. split; [done|]. unfold second. by rewrite <- Heq.
Qed.

Lemma scan_twice_same_report_witness :
  (scan_directory host (Some "/data"%string) empty_sys).1 = Ok tt /\
  exists content,
    files (scan_directory host (Some "/data"%string) empty_sys).2
      !! output_location host = Some content /\
    files (scan_directory host (Some "/data"%string)
             (scan_directory host (Some "/data"%string) empty_sys).2).2
      !! output_location host = Some content.
Proof.
  split; [by vm_compute|].
  apply (scan_twice_same_report host (Some "/data"%string) empty_sys).
  by vm_compute.
Defined.

End Properties.

(** * Further behaviour of the script *)

(** ** Binary64: conversions and overflow *)

Module PyNumMoreFacts.
Import PyNum Rounding PyNumFacts Behaviour.

Lemma iter_xO_pow2 (p n : positive) :
  Zpos (Pos.iter xO p n) = Zpos p * 2 ^ Zpos n.
Proof.
  induction n as [|n IH] using Pos.peano_ind.
  - cbn. lia.
  - rewrite Pos.iter_succ, Pos2Z.inj_xO, IH, Pos2Z.inj_succ, Z.pow_succ_r by lia. lia.
Qed.

Lemma binary_round_aux_53 sx (m : positive) (e : Z) :
  2 ^ 52 <= Zpos m < 2 ^ 53 -> -1074 <= e <= 971 ->
  binary_round_aux prec emax sx (Zpos m) e loc_Exact = S754_finite sx m e.
Proof.
  intros Hm He. rewrite binary_round_aux_finish, shr_fexp_53 by lia.
  cbn [shr_m loc_of_shr_record round_nearest_even]. by apply finish_53.
Qed.

(** An integer of at most 53 bits converts to a finite float. *)
Lemma binary_round_small (s : bool) (p : positive) :
  Zpos p < 2 ^ 53 ->
  exists m e, binary_round prec emax s p 0 = S754_finite s m e.
Proof.
  intros Hp. unfold binary_round.
  pose proof (digits2_pos_bounds p) as [Hlo Hhi].
  pose proof (digits2_pos_below p 53 ltac:(lia) Hp) as Hd.
  set (d := Zpos (digits2_pos p)) in *.
  assert (0 < d) as Hd0 by (unfold d; lia).
  rewrite fexp_normal by lia. unfold shl_align.
  replace (d + 0 - 53 - 0) with (d - 53) by lia.
  destruct (d - 53) as [|k|k] eqn:Ek; [| lia |].
  - assert (d = 53) as Hd53 by lia. rewrite Hd53 in Hlo, Hhi.
    replace (53 - 1) with 52 in Hlo by lia.
    rewrite binary_round_aux_53 by lia. eauto.
  - assert (2 ^ 52 <= Zpos (Pos.iter xO p k) < 2 ^ 53) as Hm.
    { rewrite iter_xO_pow2.
      assert (Zpos k = 53 - d) as -> by lia.
      assert (0 < 2 ^ (53 - d)) by (apply Z.pow_pos_nonneg; lia).
      assert (2 ^ 52 = 2 ^ (d - 1) * 2 ^ (53 - d)) as ->
        by (rewrite <- Z.pow_add_r by lia; f_equal; lia).
      assert (2 ^ 53 = 2 ^ d * 2 ^ (53 - d)) as ->
        by (rewrite <- Z.pow_add_r by lia; f_equal; lia).
      split; [apply Z.mul_le_mono_nonneg_r|apply Z.mul_lt_mono_pos_r]; lia. }
    rewrite binary_round_aux_53 by lia. eauto.
Qed.

(** [float(n)] does not raise for an [int] of at most 53 bits, and gives a
    zero or a finite float. *)
Lemma float_of_int_small (n : Z) :
  0 <= n < 2 ^ 53 ->
  exists y, float_of_int n = Ok y /\
            (y = S754_zero false \/ exists m e, y = S754_finite false m e).
Proof.
  intros Hn. unfold float_of_int. destruct n as [|p|p]; [| |lia].
  - exists (S754_zero false). split; [done|by left].
  - cbn [binary_normalize].
    destruct (binary_round_small false p ltac:(lia)) as (m & e & ->).
    exists (S754_finite false m e). split; [done|]. right. eauto.
Qed.

(** *** No overflow *)

Lemma shr_1_le (mrs : shr_record) :
  0 <= shr_m mrs -> 0 <= shr_m (shr_1 mrs) <= shr_m mrs.
Proof. destruct mrs as [[|[m|m|]|m] r s]; cbn; lia. Qed.

Lemma iter_pos_shr_1_le (n : positive) : forall mrs,
  0 <= shr_m mrs -> 0 <= shr_m (SpecFloat.iter_pos shr_1 n mrs) <= shr_m mrs.
Proof.
  induction n as [n IH|n IH|]; intros mrs Hm; cbn [SpecFloat.iter_pos].
  - pose proof (shr_1_le mrs Hm) as H1.
    pose proof (IH _ (proj1 H1)) as H2.
    pose proof (IH _ (proj1 H2)) as H3. lia.
  - pose proof (IH _ Hm) as H2.
    pose proof (IH _ (proj1 H2)) as H3. lia.
  - by apply shr_1_le.
Qed.

Lemma shr_fexp_bounds (m e : Z) (l : location) :
  0 <= m ->
  0 <= shr_m (shr_fexp prec emax m e l).1 <= m /\
  (shr_fexp prec emax m e l).2 = Z.max e (fexp prec emax (Zdigits2 m + e)).
Proof.
  intros Hm. unfold shr_fexp, shr.
  assert (shr_m (shr_record_of_loc m l) = m) as H0 by (by destruct l as [|[]]).
  destruct (fexp prec emax (Zdigits2 m + e) - e) as [|n|n] eqn:En; cbn [fst snd].
  - rewrite H0. lia.
  - pose proof (iter_pos_shr_1_le n (shr_record_of_loc m l) ltac:(lia)) as H.
    rewrite H0 in H. lia.
  - rewrite H0. lia.
Qed.

Lemma Zdigits2_nonneg (m : Z) : 0 <= Zdigits2 m.
Proof. destruct m; cbn; lia. Qed.

Lemma Zdigits2_below (m n : Z) : 0 <= n -> 0 <= m < 2 ^ n -> Zdigits2 m <= n.
Proof.
  intros Hn Hm. destruct m as [|p|p]; [done| |lia].
  cbn [Zdigits2]. apply digits2_pos_below; lia.
Qed.

Lemma Zdigits2_bound (m : Z) : 0 <= m -> m < 2 ^ Zdigits2 m.
Proof.
  intros Hm. destruct m as [|p|p]; [done| |lia].
  cbn [Zdigits2]. apply digits2_pos_bounds.
Qed.

(** Rounding a mantissa of at most 500 bits at an exponent that is not
    positive does not overflow. *)
Lemma binary_round_aux_no_overflow sx (mx ex : Z) (lx : location) :
  0 <= mx -> Zdigits2 mx <= 500 -> ex <= 0 ->
  is_infinite (binary_round_aux prec emax sx mx ex lx) = false.
Proof.
  intros Hm Hd He. unfold binary_round_aux.
  pose proof (shr_fexp_bounds mx ex lx Hm) as [Hm1 He1].
  destruct (shr_fexp prec emax mx ex lx) as [mrs' e']. cbn [fst snd] in Hm1, He1.
  pose proof (round_nearest_even_bounds (shr_m mrs') (loc_of_shr_record mrs')) as HM.
  set (M := round_nearest_even (shr_m mrs') (loc_of_shr_record mrs')) in *.
  pose proof (shr_fexp_bounds M e' loc_Exact ltac:(lia)) as [Hm2 He2].
  destruct (shr_fexp prec emax M e' loc_Exact) as [mrs'' e'']. cbn [fst snd] in Hm2, He2.
  assert (Zdigits2 M <= 501) as HdM.
  { apply Zdigits2_below; [lia|]. split; [lia|].
    pose proof (Zdigits2_bound mx Hm) as Hb.
    assert (2 ^ Zdigits2 mx <= 2 ^ 500)
      by (apply Z.pow_le_mono_r; [lia|done]).
    assert (2 ^ 501 = 2 * 2 ^ 500) as -> by (by rewrite <- Z.pow_succ_r).
    lia. }
  pose proof (Zdigits2_nonneg mx). pose proof (Zdigits2_nonneg M).
  unfold fexp, emin, prec, emax in *.
  destruct (shr_m mrs''); [done| |done].
  destruct (Z.leb_spec e'' (1024 - 53)); [done|lia].
Qed.

(** A quotient of two integers does not overflow when the dividend has
    fewer than 53 bits more than the divisor. *)
Lemma fdiv_int_no_overflow (sx sy : bool) (m1 m2 : positive) :
  Zpos (digits2_pos m1) < Zpos (digits2_pos m2) + 53 ->
  Zpos (digits2_pos m2) <= 400 ->
  is_infinite (fdiv (S754_finite sx m1 0) (S754_finite sy m2 0)) = false.
Proof.
  intros Hd1 Hd2. unfold fdiv, SFdiv.
  rewrite SFdiv_core_binary_normal by lia.
  set (d1 := Zpos (digits2_pos m1)) in *.
  set (d2 := Zpos (digits2_pos m2)) in *.
  assert (0 < 2 ^ (d2 + 53 - d1)) as Hpow by (apply Z.pow_pos_nonneg; lia).
  apply binary_round_aux_no_overflow; [| |lia].
  - apply Z.div_pos; lia.
  - etrans; [|exact (ltac:(lia) : d2 + 53 <= 500)].
    apply Zdigits2_below; [lia|]. split; [apply Z.div_pos; lia|].
    apply Z.div_lt_upper_bound; [lia|].
    pose proof (digits2_pos_bounds m1) as [_ Hhi]. fold d1 in Hhi.
    assert (2 ^ (d2 + 53) = 2 ^ d1 * 2 ^ (d2 + 53 - d1)) as ->
      by (rewrite <- Z.pow_add_r by lia; f_equal; lia).
    assert (Zpos m1 * 2 ^ (d2 + 53 - d1) < 2 ^ d1 * 2 ^ (d2 + 53 - d1))
      by (apply Z.mul_lt_mono_pos_r; lia).
    assert (0 < 2 ^ d1 * 2 ^ (d2 + 53 - d1)) by lia.
    nia.
Qed.

Lemma nearest_even_scaled_bounds (m : positive) (p : positive) (c : Z) :
  0 <= c ->
  Zpos m * c / 2 ^ Zpos p <= nearest_even_scaled m (Zneg p) c
    <= Zpos m * c / 2 ^ Zpos p + 1.
Proof.
  intros Hc. unfold nearest_even_scaled.
  destruct (_ ?= _); [destruct (Z.even _)| |]; lia.
Qed.

(** [round(x, 2)] does not raise on a float below 2^44. *)
Lemma round_2_no_overflow (s : bool) (m : positive) (e : Z) :
  Zpos m < 2 ^ 53 -> e <= -9 ->
  exists v, round (S754_finite s m e) 2 = Ok v.
Proof.
  intros Hm He. unfold round.
  change (323 <? Z.of_nat 2) with false. cbv iota.
  change (10 ^ Z.of_nat 2) with 100.
  destruct e as [|p|p]; [lia|lia|].
  pose proof (nearest_even_scaled_bounds m p 100 ltac:(lia)) as Hk.
  assert (2 ^ 9 <= 2 ^ Zpos p) as Hp by (apply Z.pow_le_mono_r; lia).
  assert (Zpos m * 100 / 2 ^ Zpos p < 2 ^ 51) as Hq.
  { apply Z.div_lt_upper_bound; [lia|].
    change (2 ^ 9) with 512 in Hp.
    change (2 ^ 53) with 9007199254740992 in Hm.
    change (2 ^ 51) with 2251799813685248. nia. }
  destruct (nearest_even_scaled m (Zneg p) 100) as [|k|k]; [eauto| |eauto].
  unfold check_overflow. change (int_operand 100) with (S754_finite false 100 0).
  rewrite fdiv_int_no_overflow; [eauto| |by vm_compute].
  change (Zpos (digits2_pos 100)) with 7.
  pose proof (digits2_pos_below k 52 ltac:(lia)
                ltac:(change (2 ^ 52) with (2 * 2 ^ 51); lia)). lia.
Qed.

Lemma aligned_mantissa (p : positive) :
  Zpos p < 2 ^ 53 ->
  let d := Zpos (digits2_pos p) in
  2 ^ 52 <= Zpos p * 2 ^ (53 - d) < 2 ^ 53.
Proof.
  intros Hp d.
  pose proof (digits2_pos_bounds p) as [Hlo Hhi].
  pose proof (digits2_pos_below p 53 ltac:(lia) Hp) as Hd.
  fold d in Hlo, Hhi, Hd.
  assert (0 < d) as Hd0 by (unfold d; lia).
  assert (0 < 2 ^ (53 - d)) by (apply Z.pow_pos_nonneg; lia).
  assert (2 ^ 52 = 2 ^ (d - 1) * 2 ^ (53 - d)) as ->
    by (rewrite <- Z.pow_add_r by lia; f_equal; lia).
  assert (2 ^ 53 = 2 ^ d * 2 ^ (53 - d)) as ->
    by (rewrite <- Z.pow_add_r by lia; f_equal; lia).
  split; [apply Z.mul_le_mono_nonneg_r|apply Z.mul_lt_mono_pos_r]; lia.
Qed.

Lemma binary_round_aligned (s : bool) (p : positive) :
  Zpos p < 2 ^ 53 -> binary_round prec emax s p 0 = aligned s p.
Proof.
  intros Hp. unfold binary_round, aligned.
  pose proof (aligned_mantissa p Hp) as Hm. cbn zeta in Hm.
  pose proof (digits2_pos_below p 53 ltac:(lia) Hp) as Hd.
  set (d := Zpos (digits2_pos p)) in *.
  assert (0 < d) as Hd0 by (unfold d; lia).
  rewrite fexp_normal by lia. unfold shl_align.
  replace (d + 0 - 53 - 0) with (d - 53) by lia.
  destruct (d - 53) as [|k|k] eqn:Ek; [| lia |].
  - assert (53 - d = 0) as E0 by lia. rewrite E0 in *.
    rewrite Z.pow_0_r, Z.mul_1_r in *. cbn [Z.to_pos].
    rewrite binary_round_aux_53 by lia. f_equal; lia.
  - assert (53 - d = Zpos k) as E0 by lia. rewrite E0 in *.
    rewrite <- iter_xO_pow2 in *. cbn [Z.to_pos].
    rewrite binary_round_aux_53 by lia. f_equal; lia.
Qed.

Lemma rounded_mantissa_even_exact (q : positive) :
  rounded_mantissa (Zpos q~0) loc_Exact = Zpos q.
Proof. reflexivity. Qed.

(** A quotient of integers that is itself an integer of at most 52 bits is
    computed exactly. *)
Lemma fdiv_exact (sx sy : bool) (n b : positive) :
  Zpos n < 2 ^ 52 ->
  Zpos (digits2_pos b) <= 400 ->
  fdiv (S754_finite sx (n * b) 0) (S754_finite sy b 0) = aligned (xorb sx sy) n.
Proof.
  intros Hn Hb. unfold fdiv, SFdiv.
  pose proof (digits2_pos_bounds n) as [Hnlo Hnhi].
  pose proof (digits2_pos_bounds b) as [Hblo Hbhi].
  pose proof (digits2_pos_bounds (n * b)) as [Halo Hahi].
  pose proof (digits2_pos_below n 52 ltac:(lia) Hn) as Hdn.
  set (dn := Zpos (digits2_pos n)) in *.
  set (db := Zpos (digits2_pos b)) in *.
  set (da := Zpos (digits2_pos (n * b))) in *.
  assert (0 < dn) by (unfold dn; lia).
  assert (0 < db) by (unfold db; lia).
  assert (0 < da) by (unfold da; lia).
  assert (da <= dn + db) as Hda1.
  { unfold da. apply digits2_pos_below; [lia|].
    rewrite Pos2Z.inj_mul, Z.pow_add_r by lia. nia. }
  assert (dn + db - 1 <= da) as Hda2.
  { assert (dn + db - 2 < da); [|lia].
    apply (Z.pow_lt_mono_r_iff 2); [lia|lia|].
    eapply Z.le_lt_trans; [|exact Hahi].
    replace (dn + db - 2) with ((dn - 1) + (db - 1)) by lia.
    rewrite Z.pow_add_r, Pos2Z.inj_mul by lia.
    assert (0 < 2 ^ (dn - 1)) by (apply Z.pow_pos_nonneg; lia).
    assert (0 < 2 ^ (db - 1)) by (apply Z.pow_pos_nonneg; lia).
    nia. }
  rewrite SFdiv_core_binary_normal; fold da db; [|lia|lia].
  set (s := db + 53 - da).
  assert (0 < 2 ^ s) by (apply Z.pow_pos_nonneg; unfold s; lia).
  replace (Zpos (n * b) * 2 ^ s) with (Zpos n * 2 ^ s * Zpos b)
    by (rewrite Pos2Z.inj_mul; lia).
  rewrite Z.div_mul, Z.mod_mul by done.
  rewrite new_location_zero.
  replace (0 - 0 - s) with (- s) by lia.
  unfold aligned. fold dn.
  pose proof (aligned_mantissa n ltac:(change (2 ^ 53) with (2 * 2 ^ 52); lia)) as Hm.
  cbn zeta in Hm. fold dn in Hm.
  assert (s = 53 - dn \/ s = 54 - dn) as [Hs|Hs] by (unfold s; lia).
  - rewrite Hs in *.
    destruct (Zpos n * 2 ^ (53 - dn)) as [|m|m] eqn:Em; [lia| |lia].
    rewrite binary_round_aux_53 by lia. cbn [Z.to_pos]. f_equal. lia.
  - rewrite Hs in *.
    replace (2 ^ (54 - dn)) with (2 * 2 ^ (53 - dn))
      by (rewrite <- Z.pow_succ_r by lia; f_equal; lia).
    destruct (Zpos n * 2 ^ (53 - dn)) as [|m|m] eqn:Em; [lia| |lia].
    replace (Zpos n * (2 * 2 ^ (53 - dn))) with (Zpos m~0) by lia.
    rewrite binary_round_aux_54; [| |lia].
    + unfold rounded54. rewrite rounded_mantissa_even_exact.
      destruct (Z.ltb_spec (Zpos m) (2 ^ 53)); [|lia].
      cbn [Z.to_pos]. f_equal. lia.
    + change (2 ^ 54) with (2 * 2 ^ 53). change (2 ^ 53) with (2 * 2 ^ 52) at 1. lia.
Qed.

Lemma aligned_not_infinite s p : is_infinite (aligned s p) = false.
Proof. reflexivity. Qed.

Lemma int_true_div_exact (n b : positive) :
  Zpos n < 2 ^ 52 -> Zpos (digits2_pos b) <= 400 ->
  int_true_div (Zpos (n * b)) (Zpos b) = Ok (aligned false n).
Proof.
  intros Hn Hb. unfold int_true_div. cbn [Z.eqb].
  change (int_operand (Zpos (n * b))) with (S754_finite false (n * b) 0).
  change (int_operand (Zpos b)) with (S754_finite false b 0).
  by rewrite fdiv_exact.
Qed.

(** [round(x, 2)] leaves a float that is an integer below 2^45 as it is. *)
Lemma round_2_integer (n : positive) :
  Zpos n < 2 ^ 45 -> round (aligned false n) 2 = Ok (aligned false n).
Proof.
  intros Hn. unfold round, aligned at 1.
  change (323 <? Z.of_nat 2) with false. cbv iota.
  change (10 ^ Z.of_nat 2) with 100.
  pose proof (aligned_mantissa n ltac:(change (2 ^ 53) with (256 * 2 ^ 45); lia)) as Hm.
  cbn zeta in Hm.
  pose proof (digits2_pos_below n 45 ltac:(lia) Hn) as Hd.
  set (d := Zpos (digits2_pos n)) in *.
  assert (0 < d) by (unfold d; lia).
  destruct (d - 53) as [|k|k] eqn:Ek; [lia|lia|].
  assert (53 - d = Zpos k) as E0 by lia. rewrite E0 in *.
  assert (0 < 2 ^ Zpos k) by (apply Z.pow_pos_nonneg; lia).
  destruct (Zpos n * 2 ^ Zpos k) as [|M|M] eqn:EM; [lia| |lia].
  cbn [Z.to_pos]. unfold nearest_even_scaled.
  replace (Zpos M * 100) with (Zpos (n * 100) * 2 ^ Zpos k)
    by (rewrite <- EM, Pos2Z.inj_mul; lia).
  rewrite Z.div_mul, Z.mod_mul by lia.
  change (2 * 0) with 0.
  destruct (Z.compare_spec 0 (2 ^ Zpos k)) as [?|_|?]; [lia| |lia].
  change (int_operand 100) with (S754_finite false 100 0).
  rewrite fdiv_exact;
    [done|change (2 ^ 52) with (128 * 2 ^ 45); lia|by vm_compute].
Qed.

Lemma float_of_int_aligned (n : positive) :
  Zpos n < 2 ^ 53 -> float_of_int (Zpos n) = Ok (aligned false n).
Proof.
  intros Hn. unfold float_of_int. cbn [binary_normalize].
  by rewrite binary_round_aligned.
Qed.

End PyNumMoreFacts.

Module BehaviourFacts.
Import PyNum PyTime Csv Collect Outcome Spec Behaviour.
Import Rounding PyNumFacts PyNumMoreFacts CollectFacts Example.

(** ** Failures *)

(** X1.  When the directory cannot be listed, the exception of the listing
    leaves [scan_directory]; the listing is the only call made and no file
    is changed. *)
Theorem listing_failure_aborts_scan
    (h : Host) (path : option string) (s : Sys) (err : exn) :
  let dir := default (script_dir h) path in
  listdir h dir = Err err ->
  (scan_directory h path s).1 = Err err /\
  files (scan_directory h path s).2 = files s /\
  new_calls s (scan_directory h path s).2 = [EvScandir dir].
Proof.
  intros dir Hls.
  rewrite (scan_directory_listdir_raises h path err s Hls). cbn [fst snd].
  by rewrite new_calls_logged.
Qed.

Lemma listing_failure_aborts_scan_witness :
  (scan_directory host None stale_sys).1 = Err (OSError 2) /\
  files (scan_directory host None stale_sys).2 = files stale_sys /\
  new_calls stale_sys (scan_directory host None stale_sys).2 = [EvScandir "/app"].
Proof.
  apply (listing_failure_aborts_scan host None stale_sys). by vm_compute.
Defined.

Lemma parse_events_stat h e l :
  EvStat l ∈ parse_events h e -> l = entry_location e.
Proof.
  unfold parse_events. intros [[= ->]|H]%elem_of_cons; [done|].
  destruct (stat h (entry_location e)); [|by apply elem_of_nil in H].
  destruct (is_vector_name (entry_name e));
    [by apply list_elem_of_singleton in H|].
  destruct (is_raster_name (entry_name e));
    [by apply list_elem_of_singleton in H|by apply elem_of_nil in H].
Qed.

Lemma collect_events_stat h dir names l :
  EvStat l ∈ collect_events h (entries dir names) ->
  exists n, n ∈ names /\ l = Loc dir n.
Proof.
  induction names as [|n names IH]; cbn [entries map collect_events].
  - by intros ?%elem_of_nil.
  - fold (entries dir names).
    intros [H|H]%elem_of_app.
    + apply parse_events_stat in H as ->. exists n. split; [by left|done].
    + destruct (parse_outcome h _); [|by apply elem_of_nil in H].
      destruct (IH H) as (n' & Hn' & ->). exists n'. split; [by right|done].
Qed.

(** X2.  Whatever [parse_metadata] raises on an entry (a failing [stat],
    a failing library read, a geotransform that does not unpack, a size or
    a time that does not convert) leaves [scan_directory] as it is; no
    file is changed, and no entry after that one is looked at. *)
Theorem first_exception_aborts_scan
    (h : Host) (path : option string) (s : Sys)
    (pre : list string) (n : string) (post : list string) (err : exn) :
  let dir := default (script_dir h) path in
  listdir h dir = Ok (pre ++ n :: post) ->
  Forall (fun e => is_Ok (parse_metadata h e s).1) (entries dir pre) ->
  (parse_metadata h {| entry_dir := dir; entry_name := n |} s).1 = Err err ->
  (scan_directory h path s).1 = Err err /\
  files (scan_directory h path s).2 = files s /\
  forall l, EvStat l ∈ new_calls s (scan_directory h path s).2 ->
            exists n', n' ∈ pre ++ [n] /\ l = Loc dir n'.
Proof.
  intros dir Hls Hpre He. rewrite parse_outcome_independent in He.
  destruct (Properties.entries_succeed h s _ Hpre) as [ms Hms].
  destruct (records_outcome_first_error h (entries dir pre)
              {| entry_dir := dir; entry_name := n |} (entries dir post)
              ms err Hms He) as [Hrec Hev].
  change (entries dir pre ++ _ :: entries dir post)
    with (entries dir pre ++ entries dir (n :: post)) in Hrec, Hev.
  rewrite <- entries_app in Hrec, Hev.
  rewrite (scan_directory_raises h path _ err s Hls Hrec). cbn [fst snd].
  fold dir. rewrite new_calls_logged, Hev. repeat split.
  intros l [?|[H|H]%elem_of_app]%elem_of_cons; [done| |].
  - destruct (collect_events_stat h dir pre l H) as (n' & Hn' & ->).
    exists n'. split; [|done]. apply elem_of_app. by left.
  - apply parse_events_stat in H as ->. exists n. split; [|done].
    apply elem_of_app. right. by left.
Qed.

Lemma first_exception_aborts_scan_witness :
  (scan_directory host_far_future (Some "/data"%string) stale_sys).1 = Err (OSError 75) /\
  files (scan_directory host_far_future (Some "/data"%string) stale_sys).2
    = files stale_sys /\
  forall l,
    EvStat l ∈ new_calls stale_sys
                 (scan_directory host_far_future (Some "/data"%string) stale_sys).2 ->
    exists n', n' ∈ [] ++ ["a.geojson"%string] /\ l = Loc "/data" n'.
Proof.
  apply (first_exception_aborts_scan host_far_future (Some "/data"%string) stale_sys
           [] "a.geojson"%string ["b.tif"; "c.txt"]%string).
  - by vm_compute.
  - by apply Forall_nil.
  - by vm_compute.
Defined.

Lemma parse_events_handled h dir n o :
  parse_outcome h {| entry_dir := dir; entry_name := n |} = Ok o ->
  parse_events h {| entry_dir := dir; entry_name := n |} = entry_calls h dir n.
Proof.
  unfold parse_outcome, parse_events, entry_calls, entry_location, opened_location.
  cbn [entry_dir entry_name].
  by destruct (stat h (Loc dir n)).
Qed.

Lemma collect_events_handled h dir names : forall ms,
  records_outcome h (entries dir names) = Ok ms ->
  collect_events h (entries dir names) = concat (map (entry_calls h dir) names).
Proof.
  induction names as [|n names IH]; intros ms; [done|].
  cbn [entries map records_outcome collect_events concat].
  fold (entries dir names).
  destruct (parse_outcome h _) as [o|] eqn:Ho; [|done]. cbn [mbind result_bind].
  destruct (records_outcome h (entries dir names)) as [ms'|] eqn:Hms; [|done].
  intros _. by rewrite (parse_events_handled h dir n o Ho), (IH ms').
Qed.

(** ** Calls and files *)



(** X4.  Whether it ends normally or not, a scan leaves every file other
    than [metadata.csv] of the working directory as it was. *)
Theorem scan_writes_no_other_file
    (h : Host) (path : option string) (s : Sys) (l : location) :
  l <> Loc (cwd h) "metadata.csv" ->
  files (scan_directory h path s).2 !! l = files s !! l.
Proof.
  intros Hl. set (dir := default (script_dir h) path).
  destruct (listdir h dir) as [names|err] eqn:Hls.
  - destruct (records_outcome h (entries dir names)) as [ms|err] eqn:Hrec.
    + rewrite (scan_directory_completes h path names ms s Hls Hrec). cbn [snd files].
      unfold reported.
      destruct (report_outcome h ms).2; [by rewrite lookup_insert_ne|done].
    + by rewrite (scan_directory_raises h path names err s Hls Hrec).
  - by rewrite (scan_directory_listdir_raises h path err s Hls).
Qed.

Lemma scan_writes_no_other_file_witness :
  files (scan_directory host_elsewhere (Some "/data"%string) stale_sys).2
    !! Loc "/data" "metadata.csv"
  = files stale_sys !! Loc "/data" "metadata.csv".
Proof.
  apply (scan_writes_no_other_file host_elsewhere (Some "/data"%string) stale_sys).
  by vm_compute.
Defined.

Lemma parse_outcome_name h e o :
  parse_outcome h e = Ok o ->
  match o with
  | Some m => name m = entry_name e /\ recognised (entry_name e) = true
  | None => recognised (entry_name e) = false
  end.
Proof.
  destruct o as [m|].
  - intros (st & si & _ & Hm & Hsi)%parse_outcome_Some.
    apply metadata_creator_Ok in Hm as (? & ? & ? & _ & _ & _ & ->). cbn.
    split; [done|]. unfold recognised.
    destruct Hsi as [(-> & _)|(-> & -> & _)]; done.
  - unfold parse_outcome, recognised.
    destruct (stat h (entry_location e)); [|done]. cbn [mbind result_bind].
    destruct (is_vector_name (entry_name e)).
    + destruct (fiona_open h _); [|done]. cbn [mbind result_bind].
      by destruct (metadata_creator _ _ _ _).
    + destruct (is_raster_name (entry_name e)); [|done].
      destruct (gdal_open h _) as [file|]; [|done]. cbn [mbind result_bind].
      destruct (raster_information file); [|done]. cbn [mbind result_bind].
      by destruct (metadata_creator _ _ _ _).
Qed.

(** X5.  The records of a listing whose entries are all handled are, by
    their names and in their order, the recognised names of the listing:
    one record per recognised entry, none for the others. *)
Theorem record_names_are_recognised_entries
    (h : Host) (s : Sys) (dir : string)
    (names : list string) (outcomes : list (option Metadata)) :
  Forall2 (fun e o => (parse_metadata h e s).1 = Ok o) (entries dir names) outcomes ->
  map name (omap id outcomes) = filter (fun n => recognised n = true) names.
Proof.
  revert outcomes. induction names as [|n names IH]; intros outcomes Hout.
  - apply Forall2_nil_inv_l in Hout as ->. done.
  - cbn [entries map] in Hout.
    apply Forall2_cons_inv_l in Hout as (o & os & Ho & Hos & ->).
    rewrite parse_outcome_independent in Ho.
    apply parse_outcome_name in Ho. cbn [entry_name] in Ho.
    rewrite filter_cons. cbn [omap].
    destruct o as [m|]; cbn.
    + destruct Ho as [Hn Hr]. rewrite decide_True by done.
      f_equal; [done|]. by apply IH.
    + rewrite decide_False by (by rewrite Ho). by apply IH.
Qed.

Lemma record_names_are_recognised_entries_witness :
  map name (omap id [Some geojson_record; Some tif_record; None])
  = filter (fun n => recognised n = true) ["a.geojson"; "b.tif"; "c.txt"]%string.
Proof.
  apply (record_names_are_recognised_entries host empty_sys "/data"%string).
  repeat (constructor; [by vm_compute|]). constructor.
Defined.

(** ** Raster extent *)

(** X6.  For raster sizes in the range of a C [int], the extent
    computation raises exactly when the geotransform does not have six
    elements, and then it is the [ValueError] of the unpacking; the values
    of the six floats never make it raise. *)
Theorem raster_extent_raises_on_length_only (file : Dataset) :
  0 <= RasterXSize file < 2 ^ 31 ->
  0 <= RasterYSize file < 2 ^ 31 ->
  (length (GetGeoTransform file) = 6%nat ->
   exists ext, raster_extent file = Ok ext /\ length ext = 4%nat) /\
  (length (GetGeoTransform file) <> 6%nat ->
   raster_extent file = Err ValueError).
Proof.
  intros Hw Hh. unfold raster_extent, int_mul_float.
  destruct (float_of_int_small (RasterXSize file)) as (w & -> & _); [lia|].
  destruct (float_of_int_small (RasterYSize file)) as (ht & -> & _); [lia|].
  destruct (GetGeoTransform file)
    as [|xmin [|xres [|r1 [|ymax [|yres [|r2 [|]]]]]]]; cbn; split; try done.
  intros _. eauto.
Qed.

Lemma raster_extent_raises_on_length_only_witness :
  (length (GetGeoTransform example_dataset) = 6%nat ->
   exists ext, raster_extent example_dataset = Ok ext /\ length ext = 4%nat) /\
  (length (GetGeoTransform example_dataset) <> 6%nat ->
   raster_extent example_dataset = Err ValueError).
Proof.
  apply (raster_extent_raises_on_length_only example_dataset); by vm_compute.
Defined.

(** X7.  For a raster whose fifth geotransform element is zero, as it is
    for every north-up raster, the computed [ymin] is [ymax] itself,
    whatever the pixel height and the number of rows. *)
Theorem north_up_raster_extent_has_no_height
    (file : Dataset) (xmin xres r1 ymax yres : float) (sy : bool) :
  GetGeoTransform file = [xmin; xres; r1; ymax; S754_zero sy; yres] ->
  0 <= RasterXSize file < 2 ^ 31 ->
  0 <= RasterYSize file < 2 ^ 31 ->
  is_zero ymax = false ->
  exists xmax, raster_extent file = Ok [xmin; ymax; xmax; ymax].
Proof.
  intros Hgt Hw Hh Hymax. unfold raster_extent, int_mul_float. rewrite Hgt.
  destruct (float_of_int_small (RasterXSize file)) as (w & -> & _); [lia|].
  destruct (float_of_int_small (RasterYSize file)) as (ht & -> & Hht); [lia|].
  cbn [mbind result_bind]. eexists. do 2 f_equal.
  destruct Hht as [->|(m & e & ->)]; by destruct ymax, sy.
Qed.

Lemma north_up_raster_extent_has_no_height_witness :
  exists xmax,
    raster_extent example_dataset = Ok [float_lit 100; float_lit 500; xmax; float_lit 500].
Proof.
  apply (north_up_raster_extent_has_no_height example_dataset
           (float_lit 100) (float_lit 10) (float_lit 0) (float_lit 500)
           (float_lit (-10)) false); by vm_compute.
Defined.

(** ** Size and dates

    The size conversion does not raise on a size that a file system can
    report. *)
Lemma volume_no_overflow (size : Z) :
  0 <= size < 2 ^ 63 -> exists v, volume size = Ok v.
Proof.
  intros Hs. unfold volume.
  destruct size as [|p|p]; [by eexists| |lia].
  rewrite (int_true_div_pow2 p 1024 10) by (done || lia).
  cbn [mbind result_bind].
  pose proof (quotient54_bounds p) as HQ.
  pose proof (digits2_pos_below p 63 ltac:(lia) ltac:(lia)) as Hd.
  destruct (quotient54 p) as [|q|q] eqn:EQ; [lia| |lia].
  rewrite fdiv_rounded54_1024 by lia. cbn [mbind result_bind].
  unfold rounded54.
  pose proof (rounded_mantissa_bounds q (location54 p) ltac:(lia)) as HM.
  destruct (Z.ltb_spec (rounded_mantissa (Zpos q) (location54 p)) (2 ^ 53)).
  - destruct (rounded_mantissa (Zpos q) (location54 p)) as [|M|M]; [lia| |lia].
    apply round_2_no_overflow; [done|lia].
  - apply round_2_no_overflow; [by vm_compute|lia].
Qed.

Lemma holds_below_spec (n : positive) (P : Z -> bool) :
  holds_below n P = true -> forall i, 0 <= i < Zpos n -> P i = true.
Proof.
  unfold holds_below.
  assert (forall n, let r := Pos.iter (fun '(i, ok) => (i + 1, ok && P i)) (0, true) n in
                    r.1 = Zpos n /\ (r.2 = true -> forall i, 0 <= i < Zpos n -> P i = true))
    as H.
  { clear n. intros n. induction n as [|n IH] using Pos.peano_ind.
    - cbn. split; [done|]. intros HP i Hi. assert (i = 0) as -> by lia.
      by destruct (P 0).
    - rewrite Pos.iter_succ. cbn zeta in IH.
      destruct (Pos.iter _ (0, true) n) as [j ok]. cbn [fst snd] in *.
      destruct IH as [-> IH]. split; [lia|].
      intros [Hok HP]%andb_true_iff i Hi.
      destruct (Z.eq_dec i (Zpos n)) as [->|]; [done|]. apply IH; [done|lia]. }
  intros Hn. by apply (H n).
Qed.

Lemma small_volume_is_zero (size : Z) :
  0 <= size <= 5242 -> volume size = Ok (S754_zero false).
Proof.
  intros Hs.
  assert (holds_below 5243 reports_zero = true) as H by (by vm_compute).
  pose proof (holds_below_spec _ _ H size ltac:(lia)) as Hz.
  unfold reports_zero in Hz.
  by destruct (volume size) as [[[]| | |]|].
Qed.

(** X8.  Every record of a file of at most 5242 bytes shows 0.0 MB: the
    size is below half a hundredth of a mebibyte and rounds to zero.  At
    5243 bytes the record shows 0.01. *)
Theorem small_files_report_zero
    (h : Host) (name : string) (st : stat_result) (si : SpatialInformation)
    (m : Metadata) :
  0 <= st_size st <= 5242 ->
  metadata_creator h name st si = Ok m ->
  volume_in_MB m = S754_zero false /\ volume 5243 = int_true_div 1 100.
Proof.
  intros Hs (v & c & u & Hv & _ & _ & ->)%metadata_creator_Ok.
  split; [|by vm_compute]. cbn.
  rewrite (small_volume_is_zero _ Hs) in Hv. by injection Hv as <-.
Qed.

Lemma small_files_report_zero_witness :
  exists m,
    metadata_creator host "a.geojson" small_stat
      (vector_information example_collection) = Ok m /\
    volume_in_MB m = S754_zero false /\ volume 5243 = int_true_div 1 100.
Proof.
  eexists. split; [by vm_compute|].
  apply (small_files_report_zero host "a.geojson" small_stat
           (vector_information example_collection));
    by vm_compute.
Defined.

(** X9.  For a size that a file system can report, [metadata_creator]
    raises only when one of the two times cannot be turned into a date, and
    then with that conversion's exception; the size conversion never
    raises. *)
Theorem metadata_creator_raises_only_on_dates
    (h : Host) (name : string) (st : stat_result) (si : SpatialInformation) :
  0 <= st_size st < 2 ^ 63 ->
  (forall c u,
     date_string h (st_ctime st) = Ok c ->
     date_string h (st_atime st) = Ok u ->
     exists m, metadata_creator h name st si = Ok m) /\
  (forall err,
     metadata_creator h name st si = Err err ->
     date_string h (st_ctime st) = Err err \/
     date_string h (st_atime st) = Err err).
Proof.
  intros Hs. destruct (volume_no_overflow _ Hs) as [v Hv].
  unfold metadata_creator. rewrite Hv. cbn [mbind result_bind]. split.
  - intros c u -> ->. cbn [mbind result_bind]. eauto.
  - intros err. destruct (date_string h (st_ctime st)); cbn [mbind result_bind].
    + destruct (date_string h (st_atime st)); cbn [mbind result_bind]; [done|].
      intros [= ->]. by right.
    + intros [= ->]. by left.
Qed.

Lemma metadata_creator_raises_only_on_dates_witness :
  (exists m, metadata_creator host "a.geojson" example_stat
               (vector_information example_collection) = Ok m) /\
  (date_string host (st_ctime far_future_stat) = Err (OSError 75) \/
   date_string host (st_atime far_future_stat) = Err (OSError 75)).
Proof.
  split.
  - destruct (metadata_creator_raises_only_on_dates host "a.geojson" example_stat
                (vector_information example_collection) ltac:(by vm_compute))
      as [Hok _].
    eapply Hok; by vm_compute.
  - destruct (metadata_creator_raises_only_on_dates host "a.geojson" far_future_stat
                (vector_information example_collection) ltac:(by vm_compute))
      as [_ Herr].
    apply Herr. by vm_compute.
Defined.

Lemma civil_from_days_month (z : Z) :
  1 <= (civil_from_days z).1.2 <= 12.
Proof.
  unfold civil_from_days. cbn [fst snd].
  set (z' := z + 719468).
  set (era := z' / 146097).
  set (doe := z' - era * 146097).
  assert (0 <= doe < 146097) as Hdoe.
  { unfold doe, era. pose proof (Z.mod_pos_bound z' 146097 ltac:(lia)).
    rewrite Z.mod_eq in H by lia. lia. }
  clearbody doe. clear era z'.
  set (yoe := (doe - doe / 1460 + doe / 36524 - doe / 146096) / 365).
  set (doy := doe - (365 * yoe + yoe / 4 - yoe / 100)).
  assert (0 <= doy <= 365) as Hdoy.
  { unfold doy, yoe. Z.div_mod_to_equations; lia. }
  clearbody doy.
  set (mp := (5 * doy + 2) / 153).
  assert (0 <= mp <= 11) by (unfold mp; Z.div_mod_to_equations; lia).
  destruct (mp <? 10) eqn:E; lia.
Qed.

Lemma string_length_append (a b : string) :
  String.length (a ++ b) = (String.length a + String.length b)%nat.
Proof.
  induction a as [|c a IH]; [done|].
  change (String c a ++ b)%string with (String c (a ++ b)). cbn. by rewrite IH.
Qed.

Lemma ctime_length (dt : datetime) :
  1 <= month dt <= 12 -> String.length (ctime dt) = 24%nat.
Proof.
  intros Hm. unfold ctime.
  set (wd := weekday (year dt) (month dt) (day dt)).
  assert (0 <= wd < 7) as Hwd by (unfold wd, weekday; apply Z.mod_pos_bound; lia).
  rewrite !string_length_append.
  assert (String.length (nth (Z.to_nat wd) day_names "") = 3%nat) as ->.
  { assert (wd = 0 \/ wd = 1 \/ wd = 2 \/ wd = 3 \/ wd = 4 \/ wd = 5 \/ wd = 6)
      as [->|[->|[->|[->|[->|[->| ->]]]]]] by lia; reflexivity. }
  assert (String.length (nth (Z.to_nat (month dt - 1)) month_names "") = 3%nat) as ->.
  { assert (month dt = 1 \/ month dt = 2 \/ month dt = 3 \/ month dt = 4 \/
            month dt = 5 \/ month dt = 6 \/ month dt = 7 \/ month dt = 8 \/
            month dt = 9 \/ month dt = 10 \/ month dt = 11 \/ month dt = 12)
      as [->|[->|[->|[->|[->|[->|[->|[->|[->|[->|[->| ->]]]]]]]]]]] by lia;
      reflexivity. }
  reflexivity.
Qed.

(** The conversion at its limits, in UTC.  The first second of the year 1
    raises, because the day before it lies in the year 0; the year 9999
    is the last; a time whose year does not fit [tm_year] is the
    [OSError] of [localtime_r], and one beyond [time_t] an
    [OverflowError]. *)
Lemma date_string_limits :
  date_string host (float_lit (-62135596800)) = Err ValueError /\
  date_string host (float_lit (-62135510400)) = Ok "Tue Jan  2 00:00:00 0001"%string /\
  date_string host (float_lit 253402300799) = Ok "Fri Dec 31 23:59:59 9999"%string /\
  date_string host (float_lit 253402300800) = Err ValueError /\
  date_string host (float_lit (10 ^ 18)) = Err (OSError 75) /\
  date_string host (float_lit (2 ^ 63)) = Err OverflowError /\
  date_string host S754_nan = Err ValueError.
Proof. by vm_compute. Qed.

(** X10.  Both dates of every record are strings of 24 characters, the
    fixed layout of [ctime()]: a three-letter day, a three-letter month,
    the day of the month on two columns, the time and the year. *)
Theorem date_strings_have_24_characters
    (h : Host) (name : string) (st : stat_result) (si : SpatialInformation)
    (m : Metadata) :
  metadata_creator h name st si = Ok m ->
  String.length (creation_date m) = 24%nat /\
  String.length (update_date m) = 24%nat.
Proof.
  intros (v & c & u & _ & Hc & Hu & ->)%metadata_creator_Ok. cbn.
  assert (forall t d, date_string h t = Ok d -> String.length d = 24%nat) as H.
  { intros t d. unfold date_string.
    destruct (fromtimestamp (utcoffset h) t) as [dt|] eqn:Hdt; [|done].
    cbn [mbind result_bind]. intros [= <-].
    apply fromtimestamp_Ok in Hdt as (sec & Hciv & _).
    apply ctime_length.
    pose proof (civil_from_days_month ((sec + utcoffset h sec) / 86400)) as Hmonth.
    by rewrite <- Hciv in Hmonth. }
  split; eauto.
Qed.

Lemma date_strings_have_24_characters_witness :
  String.length (creation_date geojson_record) = 24%nat /\
  String.length (update_date geojson_record) = 24%nat.
Proof.
  apply (date_strings_have_24_characters host "a.geojson" example_stat
           (vector_information example_collection) geojson_record).
  by vm_compute.
Defined.

Lemma has_special_append (a b : string) :
  has_special (a ++ b) = has_special a || has_special b.
Proof.
  induction a as [|c a IH]; [done|].
  change (String c a ++ b)%string with (String c (a ++ b)). cbn [has_special].
  by rewrite IH, orb_assoc.
Qed.

(** The text of a tuple of two or more elements holds a comma. *)
Lemma repr_tuple_has_special (repr : float -> string) (xs : list float) :
  (2 <= length xs)%nat -> has_special (repr_tuple repr xs) = true.
Proof.
  destruct xs as [|x [|y xs]]; cbn [length]; [lia|lia|]. intros _.
  unfold repr_tuple. cbn [map String.concat].
  rewrite !has_special_append.
  change (has_special ", ") with true.
  by rewrite !orb_true_r.
Qed.

(** ** The report *)

(** X11.  In the line of every record the extent cell is written between
    quotes: the text of the four-element tuple holds commas. *)
Theorem extent_cell_is_quoted
    (h : Host) (e : DirEntry) (s : Sys) (m : Metadata) :
  (parse_metadata h e s).1 = Ok (Some m) ->
  field_text (str (repr_float h) (VTuple (extent m)))
  = quoted (repr_tuple (repr_float h) (extent m)).
Proof.
  rewrite parse_outcome_independent.
  intros (st & si & _ & Hm & Hsi)%parse_outcome_Some.
  apply metadata_creator_Ok in Hm as (v & c & u & _ & _ & _ & ->).
  cbn [extent str]. unfold field_text.
  rewrite repr_tuple_has_special; [done|].
  destruct Hsi as [(_ & file & _ & ->)|(_ & _ & file & _ & Hr)].
  - destruct (vector_information_shape file) as [_ ->]. lia.
  - destruct (raster_information_Ok _ _ Hr) as [_ ->]. lia.
Qed.

Lemma extent_cell_is_quoted_witness :
  field_text (str (repr_float host) (VTuple (extent tif_record)))
  = quoted "(100.0, 500.0, 600.0, 500.0)".
Proof.
  etransitivity.
  - apply (extent_cell_is_quoted host tif_entry empty_sys tif_record).
    by vm_compute.
  - by vm_compute.
Defined.

Lemma whole_mebibytes_volume (n : Z) :
  0 <= n < 2 ^ 43 -> volume (n * 1048576) = float_of_int n.
Proof.
  intros Hn. destruct n as [|p|p]; [reflexivity| |lia].
  rewrite Properties.volume_spec_volume
    by (change (2 ^ 63) with (2 ^ 43 * 1048576); lia).
  unfold spec_volume.
  change (Zpos p * 1048576) with (Zpos (p * 1048576)).
  rewrite int_true_div_exact;
    [|change (2 ^ 52) with (512 * 2 ^ 43); lia|by vm_compute].
  cbn [mbind result_bind].
  rewrite round_2_integer by (change (2 ^ 45) with (4 * 2 ^ 43); lia).
  by rewrite float_of_int_aligned by (change (2 ^ 53) with (1024 * 2 ^ 43); lia).
Qed.

(** X12.  A file of a whole number of mebibytes is reported with exactly
    that number: neither the two divisions nor the rounding to two decimals
    changes it. *)
Theorem whole_mebibytes_are_exact
    (h : Host) (name : string) (st : stat_result) (si : SpatialInformation)
    (m : Metadata) (n : Z) :
  0 <= n < 2 ^ 43 ->
  st_size st = n * 1048576 ->
  metadata_creator h name st si = Ok m ->
  float_of_int n = Ok (volume_in_MB m).
Proof.
  intros Hn Hs (v & c & u & Hv & _ & _ & ->)%metadata_creator_Ok. cbn.
  by rewrite <- whole_mebibytes_volume, <- Hs.
Qed.

Lemma whole_mebibytes_are_exact_witness :
  float_of_int 3 = Ok (volume_in_MB geojson_record).
Proof.
  apply (whole_mebibytes_are_exact host "a.geojson" example_stat
           (vector_information example_collection) geojson_record 3);
    by vm_compute.
Defined.

(** ** Entries that are passed over *)

Lemma parse_outcome_unrecognised h dir n :
  recognised n = false ->
  is_Ok (stat h (Loc dir n)) ->
  parse_outcome h {| entry_dir := dir; entry_name := n |} = Ok None.
Proof.
  unfold recognised, parse_outcome, entry_location. cbn [entry_dir entry_name].
  intros [-> ->]%orb_false_iff Hst.
  by destruct (stat h (Loc dir n)).
Qed.

(** X13.  Entries without a recognised suffix leave no mark once their
    [stat] succeeds: the loop over a listing collects what the loop over
    its recognised names alone collects. *)
Theorem unrecognised_entries_leave_no_mark
    (h : Host) (dir : string) (names : list string) (s : Sys) :
  (forall n, n ∈ names -> recognised n = false -> is_Ok (stat h (Loc dir n))) ->
  (collect h (entries dir names) [] s).1
  = (collect h (entries dir (filter (fun n => recognised n = true) names)) [] s).1.
Proof.
  rewrite !collect_run. cbn [fst]. generalize (@nil dict).
  induction names as [|n names IH]; intros store Hst; [done|].
  rewrite filter_cons.
  assert (forall n', n' ∈ names -> recognised n' = false ->
                     is_Ok (stat h (Loc dir n'))) as Hst'
    by (intros n' Hn'; apply Hst; by right).
  destruct (decide (recognised n = true)) as [Hr|Hr].
  - cbn [entries map collect_outcome]. fold (entries dir names).
    fold (entries dir (filter (fun n => recognised n = true) names)).
    destruct (parse_outcome h _) as [[m|]|]; cbn [mbind result_bind]; [| |done].
    + by apply IH.
    + by apply IH.
  - cbn [entries map collect_outcome]. fold (entries dir names).
    rewrite parse_outcome_unrecognised;
      [|by destruct (recognised n)|apply Hst; [by left|by destruct (recognised n)]].
    cbn [mbind result_bind]. by apply IH.
Qed.

Lemma unrecognised_entries_leave_no_mark_witness :
  (collect host (entries "/data" ["c.txt"; "a.geojson"; "c.txt"; "b.tif"]%string)
     [] empty_sys).1
  = (collect host (entries "/data" ["a.geojson"; "b.tif"]%string) [] empty_sys).1.
Proof.
  apply (unrecognised_entries_leave_no_mark host "/data"
           ["c.txt"; "a.geojson"; "c.txt"; "b.tif"]%string empty_sys).
  intros n Hn Hr.
  repeat (apply elem_of_cons in Hn as [->|Hn]; [by vm_compute|]).
  by apply elem_of_nil in Hn.
Defined.

(** ** What a scan reads *)

Section Locality.

Variable dir : string.
Variables h1 h2 : Host.
Hypothesis Hsame : hosts_agree_on dir h1 h2.

Lemma date_string_same (t : float) : date_string h1 t = date_string h2 t.
Proof.
  unfold date_string.
  by rewrite (fromtimestamp_ext _ _ t (same_utcoffset _ _ _ Hsame)).
Qed.

Lemma metadata_creator_same name st si :
  metadata_creator h1 name st si = metadata_creator h2 name st si.
Proof. unfold metadata_creator. by rewrite !date_string_same. Qed.

Lemma parse_outcome_same (n : string) :
  parse_outcome h1 {| entry_dir := dir; entry_name := n |}
  = parse_outcome h2 {| entry_dir := dir; entry_name := n |}.
Proof.
  unfold parse_outcome, opened_location, entry_location. cbn [entry_dir entry_name].
  rewrite (same_stat _ _ _ Hsame), <- (same_cwd _ _ _ Hsame).
  destruct (stat h2 (Loc dir n)) as [st|]; [|done]. cbn [mbind result_bind].
  destruct (is_vector_name n) eqn:Ev.
  - rewrite (same_fiona_open _ _ _ Hsame n Ev).
    destruct (fiona_open h2 _); [|done]. cbn [mbind result_bind].
    by rewrite metadata_creator_same.
  - destruct (is_raster_name n) eqn:Er; [|done].
    rewrite (same_gdal_open _ _ _ Hsame n Er).
    destruct (gdal_open h2 _) as [file|]; [|done]. cbn [mbind result_bind].
    destruct (raster_information file); [|done]. cbn [mbind result_bind].
    by rewrite metadata_creator_same.
Qed.

Lemma records_outcome_same (names : list string) :
  records_outcome h1 (entries dir names) = records_outcome h2 (entries dir names).
Proof.
  induction names as [|n names IH]; [done|].
  cbn [entries map records_outcome]. fold (entries dir names).
  by rewrite parse_outcome_same, IH.
Qed.

Lemma record_line_same (m : Metadata) : record_line h1 m = record_line h2 m.
Proof.
  unfold record_line, repr_tuple.
  rewrite (same_repr_float _ _ _ Hsame).
  rewrite (map_ext _ _ (same_repr_float _ _ _ Hsame)).
  destruct (extent m) as [|x [|y xs]]; [done| |done].
  by rewrite (same_repr_float _ _ _ Hsame).
Qed.

Lemma writes_outcome_same (texts : list string) : forall written,
  writes_outcome h1 (output_location h1) written texts
  = writes_outcome h2 (output_location h1) written texts.
Proof.
  induction texts as [|text texts IH]; intros written; [done|].
  cbn [writes_outcome]. unfold output_location at 1 3.
  rewrite (same_file_write _ _ _ Hsame).
  destruct (file_write h2 _ written text); [apply IH|done].
Qed.

Lemma report_outcome_same (ms : list Metadata) :
  report_outcome h1 ms = report_outcome h2 ms.
Proof.
  unfold report_outcome.
  replace (output_location h2) with (output_location h1)
    by (unfold output_location; by rewrite (same_cwd _ _ _ Hsame)).
  unfold output_location at 1. rewrite (same_open_write _ _ _ Hsame).
  fold (output_location h1).
  destruct (open_write h2 _); [|done].
  rewrite (map_ext _ _ record_line_same), writes_outcome_same.
  destruct (writes_outcome h2 _ _ _) as [r written].
  unfold output_location at 1. by rewrite (same_file_close _ _ _ Hsame).
Qed.

End Locality.

(** X14.  The outcome of a scan and the report it writes depend only on
    what the scan asks of the host: the listing of the scanned directory,
    the [stat] of its entries, the library's reading of the recognised
    names in the working directory, and whether [metadata.csv] of the
    working directory can be opened, written and closed.  Two hosts that
    agree on these, and differ about any other file, give the same
    outcome and the same report, whatever text the files held before. *)
Theorem scan_reads_only_what_it_lists
    (dir : string) (h1 h2 : Host) (s1 s2 : Sys) :
  hosts_agree_on dir h1 h2 ->
  (scan_directory h1 (Some dir) s1).1 = (scan_directory h2 (Some dir) s2).1 /\
  ((scan_directory h1 (Some dir) s1).1 = Ok tt ->
   exists content,
     files (scan_directory h1 (Some dir) s1).2 !! Loc (cwd h1) "metadata.csv"
       = Some content /\
     files (scan_directory h2 (Some dir) s2).2 !! Loc (cwd h2) "metadata.csv"
       = Some content).
Proof.
  intros Hsame.
  destruct (listdir h2 dir) as [names|err] eqn:Hls2.
  - assert (listdir h1 dir = Ok names) as Hls1
      by (by rewrite (same_listdir _ _ _ Hsame)).
    destruct (records_outcome h2 (entries dir names)) as [ms|err] eqn:Hrec2.
    + assert (records_outcome h1 (entries dir names) = Ok ms) as Hrec1
        by (by rewrite (records_outcome_same dir h1 h2 Hsame)).
      rewrite (scan_directory_completes h1 (Some dir) names ms s1 Hls1 Hrec1),
        (scan_directory_completes h2 (Some dir) names ms s2 Hls2 Hrec2).
      cbn [fst snd files]. rewrite (report_outcome_same dir h1 h2 Hsame).
      split; [done|]. intros Hok.
      destruct (report_outcome_opened h2 ms Hok) as [written ->].
      unfold reported, output_location.
      rewrite !lookup_insert_eq. eauto.
    + assert (records_outcome h1 (entries dir names) = Err err) as Hrec1
        by (by rewrite (records_outcome_same dir h1 h2 Hsame)).
      rewrite (scan_directory_raises h1 (Some dir) names err s1 Hls1 Hrec1),
        (scan_directory_raises h2 (Some dir) names err s2 Hls2 Hrec2).
      by cbn [fst].
  - assert (listdir h1 dir = Err err) as Hls1
      by (by rewrite (same_listdir _ _ _ Hsame)).
    rewrite (scan_directory_listdir_raises h1 (Some dir) err s1 Hls1),
      (scan_directory_listdir_raises h2 (Some dir) err s2 Hls2).
    by cbn [fst].
Qed.

Lemma scan_reads_only_what_it_lists_witness :
  (scan_directory host (Some "/data"%string) empty_sys).1
  = (scan_directory host_other_files (Some "/data"%string) stale_sys).1 /\
  ((scan_directory host (Some "/data"%string) empty_sys).1 = Ok tt ->
   exists content,
     files (scan_directory host (Some "/data"%string) empty_sys).2
       !! Loc (cwd host) "metadata.csv" = Some content /\
     files (scan_directory host_other_files (Some "/data"%string) stale_sys).2
       !! Loc (cwd host_other_files) "metadata.csv" = Some content).
Proof.
  apply (scan_reads_only_what_it_lists "/data" host host_other_files empty_sys stale_sys).
  split; try reflexivity.
  - intros n Hn. cbn. by rewrite Hn.
  - intros n Hn. cbn. by rewrite Hn.
Defined.

(** ** The writer phase *)

(** X15.  A report that cannot be opened is noticed only after the whole
    enumeration: every entry has been examined, then the exception of
    [open] leaves [scan_directory], and no file is changed; a report of an
    earlier run is left as it was. *)
Theorem unopenable_report_aborts_after_enumeration
    (h : Host) (path : option string) (s : Sys)
    (names : list string) (outcomes : list (option Metadata)) (err : exn) :
  let dir := default (script_dir h) path in
  let report := Loc (cwd h) "metadata.csv" in
  listdir h dir = Ok names ->
  Forall2 (fun e o => (parse_metadata h e s).1 = Ok o) (entries dir names) outcomes ->
  open_write h report = Err err ->
  (scan_directory h path s).1 = Err err /\
  files (scan_directory h path s).2 = files s /\
  new_calls s (scan_directory h path s).2
  = EvScandir dir :: concat (map (entry_calls h dir) names) ++ [EvOpenWrite report].
Proof.
  intros dir report Hls Hout Hopen.
  pose proof (Properties.records_of_outcomes h s _ _ Hout) as Hrec.
  rewrite (scan_directory_completes h path names _ s Hls Hrec).
  unfold report_outcome. fold report in Hopen |- *.
  change (output_location h) with report. rewrite Hopen.
  cbn [fst snd files trace reported]. split; [done|]. split; [done|].
  unfold new_calls. cbn [trace]. rewrite drop_app_length.
  fold dir. by rewrite (collect_events_handled h dir names _ Hrec).
Qed.

Lemma unopenable_report_aborts_after_enumeration_witness :
  (scan_directory host_read_only (Some "/data"%string) stale_sys).1 = Err (OSError 13) /\
  files (scan_directory host_read_only (Some "/data"%string) stale_sys).2
  = files stale_sys /\
  new_calls stale_sys (scan_directory host_read_only (Some "/data"%string) stale_sys).2
  = [EvScandir "/data";
     EvStat (Loc "/data" "a.geojson"); EvFionaOpen (Loc "/data" "a.geojson");
     EvStat (Loc "/data" "b.tif"); EvGdalOpen (Loc "/data" "b.tif");
     EvStat (Loc "/data" "c.txt");
     EvOpenWrite (Loc "/data" "metadata.csv")].
Proof.
  apply (unopenable_report_aborts_after_enumeration host_read_only
           (Some "/data"%string) stale_sys
           ["a.geojson"; "b.tif"; "c.txt"]%string
           [Some geojson_record; Some tif_record; None]).
  - reflexivity.
  - repeat (constructor; [by vm_compute|]). constructor.
  - reflexivity.
Defined.

(** Writes that all succeed: each text was taken on top of the texts
    before it. *)
Lemma writes_outcome_inv h l texts : forall written written',
  writes_outcome h l written texts = (Ok tt, written') ->
  forall pre text post,
    texts = pre ++ text :: post ->
    file_write h l (written ++ String.concat "" pre) text = Ok tt.
Proof.
  induction texts as [|t texts IH]; intros written written' Hw pre text post Htexts.
  - by destruct pre.
  - cbn [writes_outcome] in Hw.
    destruct (file_write h l written t) as [[]|] eqn:Ht; [|done].
    destruct pre as [|p pre]; cbn [app] in Htexts; injection Htexts as <- ->.
    + cbn [String.concat]. by rewrite append_empty_r.
    + pose proof (IH _ _ Hw pre text post eq_refl) as Hnext.
      rewrite append_assoc in Hnext.
      destruct pre; [by rewrite append_empty_r in Hnext|done].
Qed.

Lemma writes_outcome_text h l texts : forall written r,
  (writes_outcome h l written texts).1 = Ok r ->
  (writes_outcome h l written texts).2 = (written ++ String.concat "" texts)%string.
Proof.
  induction texts as [|t texts IH]; intros written r.
  - cbn. by rewrite append_empty_r.
  - cbn [writes_outcome].
    destruct (file_write h l written t) as [[]|]; [|done].
    intros Hr. rewrite (IH _ _ Hr), append_assoc. f_equal.
    destruct texts; [by rewrite append_empty_r|done].
Qed.

(** X16.  A scan whose enumeration completes ends normally exactly when
    the host let the report be opened, took the header line and every
    record line, and let the file be closed: an exception of any write,
    or of the close at the end of the [with] block, leaves
    [scan_directory]. *)
Theorem normal_end_means_complete_report
    (h : Host) (path : option string) (s : Sys)
    (names : list string) (outcomes : list (option Metadata)) :
  let dir := default (script_dir h) path in
  let report := Loc (cwd h) "metadata.csv" in
  let records := omap id outcomes in
  listdir h dir = Ok names ->
  Forall2 (fun e o => (parse_metadata h e s).1 = Ok o) (entries dir names) outcomes ->
  (scan_directory h path s).1 = Ok tt
  <-> accepts h report (header_line :: map (record_line h) records).
Proof.
  intros dir report records Hls Hout.
  pose proof (Properties.records_of_outcomes h s _ _ Hout) as Hrec.
  rewrite (scan_directory_completes h path names _ s Hls Hrec). cbn [fst].
  fold records. split.
  - unfold report_outcome. change (output_location h) with report.
    destruct (open_write h report) as [[]|] eqn:Hopen; [|done].
    destruct (writes_outcome h report EmptyString
                (header_line :: map (record_line h) records))
      as [r written] eqn:Hw.
    cbn [fst].
    destruct (file_close h report written) as [[]|] eqn:Hclose; [|done].
    intros ->.
    pose proof (writes_outcome_text h report _ EmptyString tt
                  ltac:(by rewrite Hw)) as Htext.
    rewrite Hw in Htext. cbn [snd] in Htext.
    change (EmptyString ++ ?t)%string with t in Htext. subst written.
    split; [done|]. split; [|done].
    intros pre text post Htexts.
    exact (writes_outcome_inv h report _ EmptyString _ Hw pre text post Htexts).
  - intros Hacc. by rewrite (report_outcome_accepted h records Hacc).
Qed.

Lemma normal_end_means_complete_report_witness :
  (scan_directory host_full_disk (Some "/data"%string) empty_sys).1 = Err (OSError 28) /\
  ((scan_directory host_full_disk (Some "/data"%string) empty_sys).1 = Ok tt
   <-> accepts host_full_disk (Loc "/data" "metadata.csv")
         (header_line
          :: map (record_line host_full_disk) [geojson_record; tif_record])).
Proof.
  split; [reflexivity|].
  apply (normal_end_means_complete_report host_full_disk (Some "/data"%string) empty_sys
           ["a.geojson"; "b.tif"; "c.txt"]%string
           [Some geojson_record; Some tif_record; None]).
  - reflexivity.
  - repeat (constructor; [by vm_compute|]). constructor.
Defined.

End BehaviourFacts.
